(** * GeoGlim backend: the clip-and-serve pipeline

    A shallow embedding of [backend/config.py], [backend/models.py],
    [backend/utils/validation.py], [backend/services/clip_service.py] and the
    [clip_dataset] handler of [backend/main.py].

    Python state (the [_dataset_cache] dict of the module-level [ClipService])
    is threaded explicitly; exceptions are a second kind of outcome; every call
    that leaves the repository (file system, [json], [geopandas]) is a
    parameter of the model and leaves an event in a trace.  [logger] calls are
    not modelled: they touch neither the cache nor the response. *)

From Stdlib Require Import ZArith String Ascii List Bool Lia.
From stdpp Require Import base option list gmap strings pretty.

Local Open Scope Z_scope.
Local Open Scope string_scope.
Local Open Scope list_scope.

(** ** Python values shared by all modules *)

Abbreviation bytes := (list Byte.byte).
Abbreviation Path := string.
Abbreviation CRS := string.

(** [len(contents)] *)
Definition len {A : Type} (l : list A) : Z := Z.of_nat (length l).

(** The exceptions the pipeline raises or lets through.  [EngineError] stands
    for whatever [geopandas], [fiona], [pyproj] or [shapely] raise; all of the
    constructors are subclasses of Python's [Exception]. *)
Inductive PyExc : Type :=
| HTTPException (status_code : Z) (detail : string)
| ValueError (msg : string)
| JSONDecodeError (msg : string)
| UnicodeDecodeError (msg : string)
| KeyError (key : string)
| NotImplementedError (msg : string)
| EngineError (msg : string).

(** [str(e)]; Starlette prints an [HTTPException] as ["{status_code}: {detail}"]. *)
Definition str (e : PyExc) : string :=
  match e with
  | HTTPException c d => pretty c +:+ ": " +:+ d
  | ValueError m | JSONDecodeError m | UnicodeDecodeError m
  | NotImplementedError m | EngineError m => m
  | KeyError k => "'" +:+ k +:+ "'"
  end.

(** [isinstance(e, json.JSONDecodeError)] *)
Definition is_JSONDecodeError (e : PyExc) : bool :=
  match e with JSONDecodeError _ => true | _ => false end.

Inductive Outcome (A : Type) : Type :=
| Return (a : A)
| Raise (e : PyExc).
Arguments Return {A} a.
Arguments Raise {A} e.

(** What [json.loads] produces. *)
#[local] Set Warnings "-register-all".
Inductive Json : Type :=
| JNull
| JBool (b : bool)
| JNumber (literal : string)
| JString (s : string)
| JArray (items : list Json)
| JObject (members : list (string * Json)).

(** [isinstance(v, dict)] *)
Definition is_dict (v : Json) : bool :=
  match v with JObject _ => true | _ => false end.

(** [key in v], for a [v] that is a dict *)
Definition has_key (key : string) (v : Json) : bool :=
  match v with
  | JObject members => existsb (fun kv => String.eqb (fst kv) key) members
  | _ => false
  end.

(** ** backend/models.py *)

Inductive DatasetType : Type := GLIM | GLHYMPS.

Inductive OutputFormat : Type := GEOJSON | SHAPEFILE | GPKG.

Definition DatasetType_value (d : DatasetType) : string :=
  match d with GLIM => "glim" | GLHYMPS => "glhymps" end.

Definition OutputFormat_value (f : OutputFormat) : string :=
  match f with GEOJSON => "geojson" | SHAPEFILE => "shapefile" | GPKG => "gpkg" end.

(** ** Geo data frames

    A geometry is opaque to the backend: it is created, tested and combined
    only by the GIS engine.  [G] is the engine's type of geometries. *)

Inductive GeomType : Type :=
| Point | LineString | LinearRing | Polygon
| MultiPoint | MultiLineString | MultiPolygon | GeometryCollection.

Record Feature (G : Type) : Type := mkFeature {
  properties : list (string * string);
  geometry : G
}.
Arguments mkFeature {G} _ _.
Arguments properties {G} _.
Arguments geometry {G} _.

Record GeoDataFrame (G : Type) : Type := mkGeoDataFrame {
  crs : option CRS;
  features : list (Feature G)
}.
Arguments mkGeoDataFrame {G} _ _.
Arguments crs {G} _.
Arguments features {G} _.

(** [gdf.empty] *)
Definition empty {G} (gdf : GeoDataFrame G) : bool :=
  match features gdf with [] => true | _ => false end.

(** [gdf.set_crs(c)], called by the backend only on a frame without a CRS *)
Definition set_crs {G} (gdf : GeoDataFrame G) (c : CRS) : GeoDataFrame G :=
  mkGeoDataFrame (Some c) (features gdf).

(** ** The world outside the repository *)

(** Python's own library: [bytes.decode('utf-8')] and [json.loads]. *)
Class PyStdlib : Type := {
  decode_utf8 : bytes -> Outcome string;
  json_loads : string -> Outcome Json
}.

(** The GIS engine ([shapely], [geopandas]), a black box to the backend. *)
Class GeoEngine (G : Type) : Type := {
  geom_type : G -> GeomType;
  is_valid : G -> bool;
  intersects : G -> G -> bool;
  (** [gpd.read_file(StringIO(text))] *)
  read_geojson : string -> Outcome (GeoDataFrame G);
  (** [gdf.to_crs(target)] *)
  to_crs : GeoDataFrame G -> option CRS -> Outcome (GeoDataFrame G);
  (** [gpd.overlay(df1, df2, how="intersection")] *)
  overlay : GeoDataFrame G -> GeoDataFrame G -> Outcome (GeoDataFrame G);
  (** [gdf.to_file(path, driver=driver)] *)
  to_file : GeoDataFrame G -> Path -> string -> Outcome unit
}.

(** What the backend relies on from the engine: a reprojected frame carries
    the target reference system, an overlay carries the reference system of
    its first argument, and every feature of an intersection overlay comes
    from a pair of input features whose geometries intersect. *)
Class GeoEngineLaws {G : Type} (E : GeoEngine G) : Prop := {
  to_crs_crs : forall gdf target gdf',
      to_crs gdf target = Return gdf' -> crs gdf' = target;
  overlay_crs : forall df1 df2 r,
      overlay df1 df2 = Return r -> crs r = crs df1;
  overlay_sound : forall df1 df2 r f,
      overlay df1 df2 = Return r -> In f (features r) ->
      exists x y, In x (features df1) /\ In y (features df2) /\
                  intersects (geometry x) (geometry y) = true
}.

(** The file system as one request sees it: [Path.exists()] and
    [gpd.read_file(str(path)[, layer=...])] on the dataset files. *)
Record Storage (G : Type) : Type := mkStorage {
  path_exists : Path -> bool;
  read_file : string -> option string -> Outcome (GeoDataFrame G)
}.
Arguments mkStorage {G} _ _.
Arguments path_exists {G} _ _.
Arguments read_file {G} _ _ _.

(** ** Traces and the state of the serving process *)

Inductive Event (G : Type) : Type :=
| EvExists (path : Path) (present : bool)
| EvDecode (contents : bytes)
| EvJsonLoads (text : string)
| EvReadGeoJSON (text : string)
| EvReadFile (dataset : string) (path : string) (layer : option string)
             (result : Outcome (GeoDataFrame G))
| EvCacheHit (dataset : string) (full_data : GeoDataFrame G)
| EvToCrs (gdf : GeoDataFrame G) (target : option CRS)
| EvOverlay (df1 df2 : GeoDataFrame G)
| EvTempFile (name : Path)
| EvToFile (gdf : GeoDataFrame G) (path : Path) (driver : string).
Arguments EvExists {G} _ _.
Arguments EvDecode {G} _.
Arguments EvJsonLoads {G} _.
Arguments EvReadGeoJSON {G} _.
Arguments EvReadFile {G} _ _ _ _.
Arguments EvCacheHit {G} _ _.
Arguments EvToCrs {G} _ _.
Arguments EvOverlay {G} _ _.
Arguments EvTempFile {G} _.
Arguments EvToFile {G} _ _ _.

Record World (G : Type) : Type := mkWorld {
  (** [clip_service._dataset_cache] *)
  _dataset_cache : gmap string (GeoDataFrame G);
  (** the calls made so far, oldest first *)
  trace : list (Event G);
  (** how many temporary files [tempfile] has handed out *)
  tmp_count : nat
}.
Arguments mkWorld {G} _ _ _.
Arguments _dataset_cache {G} _.
Arguments trace {G} _.
Arguments tmp_count {G} _.

(** A computation of the backend: it reads and updates the world and either
    returns or raises. *)
Definition M (G A : Type) : Type := World G -> Outcome A * World G.

Definition ret {G A} (a : A) : M G A := fun w => (Return a, w).

Definition raise {G A} (e : PyExc) : M G A := fun w => (Raise e, w).

Definition bind {G A B} (m : M G A) (k : A -> M G B) : M G B :=
  fun w => match m w with
           | (Return a, w') => k a w'
           | (Raise e, w') => (Raise e, w')
           end.

(** [try: body  except Exception as e: handler(e)] *)
Definition try_except {G A} (body : M G A) (handler : PyExc -> M G A) : M G A :=
  fun w => match body w with
           | (Return a, w') => (Return a, w')
           | (Raise e, w') => handler e w'
           end.

Definition emit {G} (ev : Event G) : M G unit :=
  fun w => (Return tt, mkWorld (_dataset_cache w) (trace w ++ [ev]) (tmp_count w)).

(** An outside call: it is recorded, then returns or raises. *)
Definition call {G A} (ev : Event G) (r : Outcome A) : M G A :=
  fun w => (r, mkWorld (_dataset_cache w) (trace w ++ [ev]) (tmp_count w)).

(** A pure outcome as a computation *)
Definition lift {G A} (r : Outcome A) : M G A := fun w => (r, w).

Declare Scope py_scope.
Delimit Scope py_scope with py.
Notation "x <- m ;; k" := (bind m (fun x => k))
  (at level 100, m at next level, right associativity) : py_scope.
Notation "m ;;; k" := (bind m (fun _ => k))
  (at level 100, right associativity) : py_scope.
Local Open Scope py_scope.

(** ** backend/config.py *)

Definition path_join (a b : Path) : Path := a +:+ "/" +:+ b.
Infix "//" := path_join (at level 40, left associativity) : py_scope.

(** [Path(__file__).parent]: the directory of [config.py] in the checkout. *)
Definition BASE_DIR : Path := "backend".
Definition DATA_DIR : Path := BASE_DIR // "data".

Definition GLIM_PATH : Path := DATA_DIR // "LiMW_GIS_2015.gdb" // "LiMW_GIS 2015.gdb".
Definition GLHYMPS_PATH : Path := DATA_DIR // "GLHYMPS" // "GLHYMPS.shp".

Definition MAX_FILE_SIZE : Z := 50 * 1024 * 1024.
Definition USE_CLOUD_STORAGE : bool := false.

(** [str.lower()] on the ASCII letters *)
Definition lower_ascii (c : ascii) : ascii :=
  let n := nat_of_ascii c in
  if ((65 <=? n)%nat && (n <=? 90)%nat)%bool then ascii_of_nat (n + 32) else c.

Fixpoint lower (s : string) : string :=
  match s with
  | EmptyString => EmptyString
  | String c rest => String (lower_ascii c) (lower rest)
  end.

Definition paths : gmap string Path :=
  <["glim" := GLIM_PATH]> (<["glhymps" := GLHYMPS_PATH]> ∅).

(** [get_data_path]: [paths.get(...)] gives [None] for an unknown name. *)
Definition get_data_path (dataset_name : string) : Outcome (option Path) :=
  if USE_CLOUD_STORAGE
  then Raise (NotImplementedError "Cloud storage not yet configured")
  else Return (paths !! lower dataset_name).

(** [str(path)], also of [None] *)
Definition str_path (p : option Path) : string :=
  match p with Some p => p | None => "None" end.

Section Backend.
Context {G : Type} {PY : PyStdlib} {E : GeoEngine G}.

(** [is_dataset_available]: [path and path.exists()], read as a truth value *)
Definition is_dataset_available (fs : Storage G) (dataset_name : string) : M G bool :=
  path <- lift (get_data_path dataset_name) ;;
  match path with
  | None => ret false
  | Some p => call (EvExists p (path_exists fs p)) (Return (path_exists fs p))
  end.

(** ** backend/utils/validation.py *)

Definition validate_geojson_file (contents : bytes) : M G (GeoDataFrame G) :=
  try_except
    (geojson_str <- call (EvDecode contents) (decode_utf8 contents) ;;
     geojson_data <- call (EvJsonLoads geojson_str) (json_loads geojson_str) ;;
     if negb (is_dict geojson_data)
     then raise (ValueError "GeoJSON must be a JSON object")
     else if negb (has_key "type" geojson_data)
     then raise (ValueError "GeoJSON must have a 'type' field")
     else
       gdf <- call (EvReadGeoJSON geojson_str) (read_geojson geojson_str) ;;
       if empty gdf
       then raise (ValueError "GeoJSON contains no features")
       else if negb (forallb (fun f => is_valid (geometry f)) (features gdf))
       then raise (ValueError "GeoJSON contains invalid geometries")
       else
         let gdf := match crs gdf with
                    | None => set_crs gdf "EPSG:4326"
                    | Some _ => gdf
                    end in
         ret gdf)
    (fun e =>
       if is_JSONDecodeError e
       then raise (HTTPException 400 ("Invalid JSON format: " +:+ str e))
       else raise (HTTPException 400 ("Invalid GeoJSON file: " +:+ str e))).

(** ** backend/services/clip_service.py *)

Definition get_cache : M G (gmap string (GeoDataFrame G)) :=
  fun w => (Return (_dataset_cache w), w).

(** [self._dataset_cache[dataset] = full_data] *)
Definition cache_store (dataset : string) (full_data : GeoDataFrame G) : M G unit :=
  fun w => (Return tt,
            mkWorld (<[dataset := full_data]> (_dataset_cache w)) (trace w) (tmp_count w)).

(** The load step of [clip_data] (clip_service.py, lines 26-42): the
    dataset cache's lookup, with the read of the dataset file on a miss. *)
Definition clip_data_load (fs : Storage G) (dataset : string) : M G (GeoDataFrame G) :=
  cache <- get_cache ;;
  match cache !! dataset with
  | None =>
      dataset_path <- lift (get_data_path dataset) ;;
      let layer := if String.eqb dataset "glim" then Some "GLiM_export" else None in
      let result := read_file fs (str_path dataset_path) layer in
      full_data <- call (EvReadFile dataset (str_path dataset_path) layer result) result ;;
      cache_store dataset full_data ;;;
      ret full_data
  | Some full_data =>
      emit (EvCacheHit dataset full_data) ;;;
      ret full_data
  end.

Definition format_config : gmap string (string * string) :=
  <["geojson" := (".geojson", "GeoJSON")]>
    (<["shapefile" := (".shp", "ESRI Shapefile")]>
       (<["gpkg" := (".gpkg", "GPKG")]> ∅)).

(** [tempfile.NamedTemporaryFile(suffix=suffix, delete=False).name] *)
Definition NamedTemporaryFile (suffix : string) : M G Path :=
  fun w =>
    let name := "/tmp/tmp" +:+ pretty (tmp_count w) +:+ suffix in
    (Return name,
     mkWorld (_dataset_cache w) (trace w ++ [EvTempFile name]) (S (tmp_count w))).

Definition _save_result (gdf : GeoDataFrame G) (format : string) : M G Path :=
  match format_config !! format with
  | None => raise (KeyError format)
  | Some (suffix, driver) =>
      temp_file <- NamedTemporaryFile suffix ;;
      call (EvToFile gdf temp_file driver) (to_file gdf temp_file driver) ;;;
      ret temp_file
  end.

(** The clip step of [clip_data] (lines 44-52): bring the AOI to the
    dataset's reference system, then intersect. *)
Definition clip_data_overlay (full_data aoi : GeoDataFrame G) : M G (GeoDataFrame G) :=
  aoi <- (if bool_decide (crs aoi ≠ crs full_data)
          then call (EvToCrs aoi (crs full_data)) (to_crs aoi (crs full_data))
          else ret aoi) ;;
  call (EvOverlay full_data aoi) (overlay full_data aoi).

Definition clip_data (fs : Storage G) (dataset : string) (aoi : GeoDataFrame G)
           (output_format : string) : M G (GeoDataFrame G * Path) :=
  full_data <- clip_data_load fs dataset ;;
  clipped <- clip_data_overlay full_data aoi ;;
  temp_file_path <- _save_result clipped output_format ;;
  ret (clipped, temp_file_path).

(** ** backend/main.py *)

Record FileResponse : Type := mkFileResponse {
  path : Path;
  media_type : string;
  filename : string;
  headers : list (string * string)
}.

(** The first segment of [clip_dataset]'s [try] block, up to the [await]
    (main.py, lines 73-78). *)
Definition clip_dataset_check (fs : Storage G) (dataset : DatasetType) : M G unit :=
  available <- is_dataset_available fs (DatasetType_value dataset) ;;
  if negb available
  then raise (HTTPException 404
                ("Dataset " +:+ DatasetType_value dataset +:+
                 " not found in local storage. " +:+
                 "Please ensure files are in backend/data/ folder."))
  else ret tt.

(** The rest of the [try] block, from the value of
    [await geojson_file.read()] on (main.py, lines 82-108). *)
Definition clip_dataset_process (fs : Storage G) (dataset : DatasetType)
           (contents : bytes) (output_format : OutputFormat) : M G FileResponse :=
  if len contents >? MAX_FILE_SIZE
  then raise (HTTPException 413 "File too large. Max size: 50.0MB")
  else
    aoi_gdf <- validate_geojson_file contents ;;
    r <- clip_data fs (DatasetType_value dataset) aoi_gdf
           (OutputFormat_value output_format) ;;
    let '(result_gdf, temp_file_path) := r in
    let filename := DatasetType_value dataset +:+ "_clipped." +:+
                    OutputFormat_value output_format in
    ret (mkFileResponse temp_file_path "application/octet-stream" filename
           [("X-Feature-Count", pretty (length (features result_gdf)))]).

(** [except Exception as e:] (main.py, lines 110-112) *)
Definition clip_dataset_except (e : PyExc) : M G FileResponse :=
  raise (HTTPException 500 ("Clipping failed: " +:+ str e)).

(** The [try] block of [clip_dataset] *)
Definition clip_dataset_try (fs : Storage G) (dataset : DatasetType)
           (geojson_file : bytes) (output_format : OutputFormat) : M G FileResponse :=
  clip_dataset_check fs dataset ;;;
  contents <- ret geojson_file ;;
  clip_dataset_process fs dataset contents output_format.

Definition clip_dataset (fs : Storage G) (dataset : DatasetType)
           (geojson_file : bytes) (output_format : OutputFormat) : M G FileResponse :=
  try_except (clip_dataset_try fs dataset geojson_file output_format)
             clip_dataset_except.

(** The status line FastAPI sends for what the handler did. *)
Definition http_status (o : Outcome FileResponse) : Z :=
  match o with
  | Return _ => 200
  | Raise (HTTPException status_code _) => status_code
  | Raise _ => 500
  end.

End Backend.

(** ** The rest of the backend *)

(** Areas are floating-point numbers; their arithmetic belongs to the
    engine. *)
Class AreaEngine (G : Type) : Type := {
  Area : Type;
  (** [gdf.crs.is_geographic]; raises on a frame without a reference system *)
  is_geographic : GeoDataFrame G -> Outcome bool;
  (** [gdf.geometry.area.sum()] *)
  area_sum : GeoDataFrame G -> Outcome Area;
  (** [total_area / 1_000_000] *)
  to_km2 : Area -> Area;
  (** [area_km2 > max_area] *)
  exceeds : Area -> Area -> bool;
  (** [f"{area_km2:.1f}"] *)
  format_1f : Area -> string;
  (** [f"{max_area}"] *)
  format_area : Area -> string
}.

(** Reading the first rows of a dataset file,
    [gpd.read_file(path[, layer=...], rows=n)], and the columns of a frame. *)
Record Sampling (G : Type) : Type := mkSampling {
  read_file_rows : string -> option string -> nat -> Outcome (GeoDataFrame G);
  columns : GeoDataFrame G -> list string
}.
Arguments mkSampling {G} _ _.
Arguments read_file_rows {G} _ _ _ _.
Arguments columns {G} _ _.

(** The dict [ClipService.get_dataset_info] returns. *)
Record DatasetInfo : Type := mkDatasetInfo {
  info_dataset : string;
  info_path : string;
  info_crs : string;
  info_columns : list string;
  info_geometry_type : string;
  info_sample_feature_count : nat;
  info_available : bool;
  info_hosting : string
}.

Record HealthResponse : Type := mkHealthResponse {
  status : string;
  datasets_available : list (string * bool);
  api_version : string;
  hosting : string
}.

(** [str(geom.geom_type)] *)
Definition GeomType_name (t : GeomType) : string :=
  match t with
  | Point => "Point"
  | LineString => "LineString"
  | LinearRing => "LinearRing"
  | Polygon => "Polygon"
  | MultiPoint => "MultiPoint"
  | MultiLineString => "MultiLineString"
  | MultiPolygon => "MultiPolygon"
  | GeometryCollection => "GeometryCollection"
  end.

(** [str(gdf.crs)] *)
Definition str_crs (c : option CRS) : string :=
  match c with Some c => c | None => "None" end.

(** The status line FastAPI sends, for any endpoint. *)
Definition status_of {A} (o : Outcome A) : Z :=
  match o with
  | Return _ => 200
  | Raise (HTTPException status_code _) => status_code
  | Raise _ => 500
  end.

Section Backend_rest.
Context {G : Type} {PY : PyStdlib} {E : GeoEngine G} {AE : AreaEngine G}.

(** *** backend/utils/validation.py, [validate_area_size] *)

Definition validate_area_size (gdf : GeoDataFrame G) (max_area : Area) : M G bool :=
  try_except
    (geographic <- lift (is_geographic gdf) ;;
     total_area <- (if geographic : bool
                    then gdf_proj <- call (EvToCrs gdf (Some "EPSG:3857"))
                                          (to_crs gdf (Some "EPSG:3857")) ;;
                         lift (area_sum gdf_proj)
                    else lift (area_sum gdf)) ;;
     let area_km2 := to_km2 total_area in
     if exceeds area_km2 max_area
     then raise (HTTPException 413
                   ("Area too large: " +:+ format_1f area_km2 +:+
                    " km². Max allowed: " +:+ format_area max_area +:+ " km²"))
     else ret true)
    (fun e => raise (HTTPException 400 ("Area validation failed: " +:+ str e))).

(** *** backend/services/clip_service.py, [ClipService.get_dataset_info]

    [sample_gdf.geometry.iloc[0]] raises pandas' [IndexError] on a sample
    without rows. *)
Definition ClipService_get_dataset_info (sr : Sampling G) (dataset : string)
  : Outcome DatasetInfo :=
  match get_data_path dataset with
  | Raise e => Raise e
  | Return dataset_path =>
      let layer := if String.eqb dataset "glim" then Some "GLiM_export" else None in
      match read_file_rows sr (str_path dataset_path) layer 5 with
      | Raise e => Raise e
      | Return sample_gdf =>
          match features sample_gdf with
          | [] => Raise (EngineError "single positional indexer is out-of-bounds")
          | first :: _ =>
              Return (mkDatasetInfo dataset (str_path dataset_path)
                        (str_crs (crs sample_gdf)) (columns sr sample_gdf)
                        (GeomType_name (geom_type (geometry first)))
                        (length (features sample_gdf)) true "local")
          end
      end
  end.

(** *** backend/main.py, [health_check] and [get_dataset_info] *)

Definition health_check (fs : Storage G) : M G HealthResponse :=
  glim <- is_dataset_available fs "glim" ;;
  glhymps <- is_dataset_available fs "glhymps" ;;
  let datasets_status := [("glim", glim); ("glhymps", glhymps)] in
  ret (mkHealthResponse
         (if existsb snd datasets_status then "healthy" else "no_datasets")
         datasets_status "1.0.0-local" "local").

Definition get_dataset_info (fs : Storage G) (sr : Sampling G) (dataset : DatasetType)
  : M G DatasetInfo :=
  available <- is_dataset_available fs (DatasetType_value dataset) ;;
  if negb available
  then raise (HTTPException 404
                ("Dataset " +:+ DatasetType_value dataset +:+ " not available locally"))
  else lift (ClipService_get_dataset_info sr (DatasetType_value dataset)).

End Backend_rest.

(** The area [validate_area_size] compares with the limit: that of the
    frame itself, or of its projection to EPSG:3857 when its reference
    system is geographic. *)
Definition measured_area {G} {E : GeoEngine G} {AE : AreaEngine G}
           (gdf : GeoDataFrame G) : Outcome Area :=
  match is_geographic gdf with
  | Raise e => Raise e
  | Return true =>
      match to_crs gdf (Some "EPSG:3857") with
      | Raise e => Raise e
      | Return gdf_proj => area_sum gdf_proj
      end
  | Return false => area_sum gdf
  end.

(** ** The client library, geoglim/client.py

    The client talks to the backend through a [requests] session and uses
    [geopandas] and the local file system; these are parameters. *)

(** What [requests] hands back: the status code, the body, and the value of
    [response.json().get("detail", "Unknown error")] as an f-string prints
    it (it raises when the body is not a JSON object). *)
Record Response : Type := mkResponse {
  status_code : Z;
  content : bytes;
  json_detail : Outcome string
}.

Module Client.

(** geoglim/exceptions.py: [DatasetNotFoundError] and [ClippingError] are
    subclasses of [GeoGlimError]; [Foreign] is an exception of another
    library. *)
Inductive ClientExc : Type :=
| GeoGlimError (message : string)
| DatasetNotFoundError (message : string)
| ClippingError (message : string)
| Foreign (e : PyExc).

(** [str(e)] *)
Definition str_of (e : ClientExc) : string :=
  match e with
  | GeoGlimError m | DatasetNotFoundError m | ClippingError m => m
  | Foreign e => str e
  end.

Inductive Answer (A : Type) : Type :=
| Returns (a : A)
| Raises (e : ClientExc).
Arguments Returns {A} a.
Arguments Raises {A} e.

(** The [aoi] argument: a [GeoDataFrame], a [str] or [Path] (as [str(aoi)]),
    or a value of another type (as [type(aoi)] is printed). *)
Inductive Aoi (G : Type) : Type :=
| Frame (gdf : GeoDataFrame G)
| Text (s : string)
| Unsupported (type_name : string).
Arguments Frame {G} gdf.
Arguments Text {G} s.
Arguments Unsupported {G} type_name.

(** The machine the client runs on. *)
Record Machine (G : Type) : Type := mkMachine {
  (** [Path(aoi).exists()] *)
  local_exists : string -> Outcome bool;
  (** [gpd.read_file(name)] *)
  gpd_read_file : string -> Outcome (GeoDataFrame G);
  (** [gdf.to_json()] *)
  gdf_to_json : GeoDataFrame G -> Outcome string;
  (** [tempfile.NamedTemporaryFile(suffix=..., delete=False)], then
      [open(temp_file.name, 'wb')] and [f.write(response.content)]; the name
      of the file *)
  write_temp : string -> bytes -> Outcome Path;
  (** [gdf.to_file(str(output_path))] *)
  gdf_to_file : GeoDataFrame G -> string -> Outcome unit
}.
Arguments mkMachine {G} _ _ _ _ _.
Arguments local_exists {G} _ _.
Arguments gpd_read_file {G} _ _.
Arguments gdf_to_json {G} _ _.
Arguments write_temp {G} _ _ _.
Arguments gdf_to_file {G} _ _ _.

(** [self.base_url] and [self.session.post(url, files=..., params=...)], by
    the URL, the uploaded text and the [output_format] parameter. *)
Record Session : Type := mkSession {
  base_url : string;
  post : string -> string -> string -> Outcome Response
}.

Section Client_methods.
Context {G : Type} {PY : PyStdlib} (m : Machine G) (s : Session).

(** The body of the [try] of [_prepare_aoi]. *)
Definition _prepare_aoi_try (aoi : Aoi G) : Outcome string :=
  match aoi with
  | Frame gdf => gdf_to_json m gdf
  | Text text =>
      match local_exists m text with
      | Raise e => Raise e
      | Return true =>
          match gpd_read_file m text with
          | Raise e => Raise e
          | Return gdf => gdf_to_json m gdf
          end
      | Return false =>
          match json_loads text with
          | Raise e => Raise e
          | Return _ => Return text
          end
      end
  | Unsupported type_name => Raise (ValueError ("Unsupported AOI type: " +:+ type_name))
  end.

Definition _prepare_aoi (aoi : Aoi G) : Answer string :=
  match _prepare_aoi_try aoi with
  | Return aoi_data => Returns aoi_data
  | Raise e => Raises (GeoGlimError ("Failed to prepare AOI data: " +:+ str e))
  end.

(** [if output_path:] holds for a path that is given and not the empty
    string. *)
Definition given (output_path : option string) : option string :=
  match output_path with
  | Some EmptyString | None => None
  | Some p => Some p
  end.

(** What follows the error handling in [clip_dataset]:
    [response.raise_for_status()] raises nothing below 400. *)
Definition read_result (response : Response) (output_format : string)
           (output_path : option string) : Answer (GeoDataFrame G) :=
  match write_temp m ("." +:+ output_format) (content response) with
  | Raise e => Raises (Foreign e)
  | Return name =>
      match gpd_read_file m name with
      | Raise e => Raises (Foreign e)
      | Return result_gdf =>
          match given output_path with
          | Some p =>
              match gdf_to_file m result_gdf p with
              | Raise e => Raises (Foreign e)
              | Return _ => Returns result_gdf
              end
          | None => Returns result_gdf
          end
      end
  end.

(** The body of the [try] of [clip_dataset]. *)
Definition clip_dataset_try (dataset : string) (aoi : Aoi G) (output_format : string)
           (output_path : option string) : Answer (GeoDataFrame G) :=
  match _prepare_aoi aoi with
  | Raises e => Raises e
  | Returns aoi_data =>
      match post s (base_url s +:+ "/clip/" +:+ dataset) aoi_data output_format with
      | Raise e => Raises (Foreign e)
      | Return response =>
          if (status_code response =? 404)%Z
          then Raises (DatasetNotFoundError
                         ("Dataset '" +:+ dataset +:+ "' not found or not available"))
          else if (status_code response =? 413)%Z
          then Raises (ClippingError "File or area too large for processing")
          else if (status_code response >=? 400)%Z
          then match json_detail response with
               | Raise e => Raises (Foreign e)
               | Return error_detail =>
                   Raises (ClippingError ("Clipping failed: " +:+ error_detail))
               end
          else read_result response output_format output_path
      end
  end.

Definition clip_dataset (dataset : string) (aoi : Aoi G) (output_format : string)
           (output_path : option string) : Answer (GeoDataFrame G) :=
  match clip_dataset_try dataset aoi output_format output_path with
  | Returns result_gdf => Returns result_gdf
  | Raises (DatasetNotFoundError message) => Raises (DatasetNotFoundError message)
  | Raises (ClippingError message) => Raises (ClippingError message)
  | Raises e => Raises (ClippingError ("Clipping operation failed: " +:+ str_of e))
  end.

End Client_methods.

End Client.

(** What FastAPI sends for what a handler did: the status, and for an
    [HTTPException] the JSON body with its detail. *)
Definition answers {A} (o : Outcome A) (response : Response) : Prop :=
  status_code response = status_of o /\
  match o with
  | Raise (HTTPException _ detail) => json_detail response = Return detail
  | _ => True
  end.

(** ** Vocabulary of the statements *)

(** The events of the AOI validator: decoding and parsing the upload. *)
Definition is_parse_event {G} (ev : Event G) : bool :=
  match ev with
  | EvDecode _ | EvJsonLoads _ | EvReadGeoJSON _ => true
  | _ => false
  end.

(** The events of a dataset load: a read of the dataset file, or a hit in
    the dataset cache. *)
Definition is_dataset_access {G} (ev : Event G) : bool :=
  match ev with
  | EvReadFile _ _ _ _ | EvCacheHit _ _ => true
  | _ => false
  end.

(** [w'] is [w] after the events [evs], with the same cache. *)
Definition only_traced {G} (w w' : World G) (evs : list (Event G)) : Prop :=
  _dataset_cache w' = _dataset_cache w /\
  trace w' = trace w ++ evs.

Section Validator_statements.
Context {G : Type} {PY : PyStdlib} {E : GeoEngine G}.

(** An upload that does not decode, does not parse as one JSON value,
    or parses to something that is not an object with a ["type"] member. *)
Definition malformed (contents : bytes) : Prop :=
  match decode_utf8 contents with
  | Raise _ => True
  | Return text =>
      match json_loads text with
      | Raise _ => True
      | Return v => is_dict v = false \/ has_key "type" v = false
      end
  end.

(** An upload that passes every check of the validator and is read as [gdf]. *)
Definition well_formed (contents : bytes) (gdf : GeoDataFrame G) : Prop :=
  exists text v,
    decode_utf8 contents = Return text /\
    json_loads text = Return v /\
    is_dict v = true /\ has_key "type" v = true /\
    read_geojson text = Return gdf /\
    features gdf <> [] /\
    forallb (fun f => is_valid (geometry f)) (features gdf) = true.

End Validator_statements.

(** ** What a trace says about the dataset cache *)

(** The frame an event hands to a caller asking for [dataset]: the result of
    a read that returned, or the cached frame. *)
Definition served {G} (dataset : string) (ev : Event G) : list (GeoDataFrame G) :=
  match ev with
  | EvReadFile d _ _ (Return full_data) =>
      if String.eqb d dataset then [full_data] else []
  | EvCacheHit d full_data =>
      if String.eqb d dataset then [full_data] else []
  | _ => []
  end.

Definition frames_served {G} (dataset : string) (t : list (Event G)) : list (GeoDataFrame G) :=
  flat_map (served dataset) t.

(** A read of [dataset]'s file, whatever its result. *)
Definition is_load_attempt {G} (dataset : string) (ev : Event G) : bool :=
  match ev with
  | EvReadFile d _ _ _ => String.eqb d dataset
  | _ => false
  end.

(** A read of [dataset]'s file that returned the data. *)
Definition is_completed_load {G} (dataset : string) (ev : Event G) : bool :=
  match ev with
  | EvReadFile d _ _ (Return _) => String.eqb d dataset
  | _ => false
  end.

Definition load_attempts {G} (dataset : string) (t : list (Event G)) : nat :=
  length (List.filter (is_load_attempt dataset) t).

Definition loads_completed {G} (dataset : string) (t : list (Event G)) : nat :=
  length (List.filter (is_completed_load dataset) t).

(** The frames that were reprojected, with their targets. *)
Definition reprojected {G} (ev : Event G) : list (GeoDataFrame G * option CRS) :=
  match ev with
  | EvToCrs gdf target => [(gdf, target)]
  | _ => []
  end.

Definition reprojections {G} (t : list (Event G)) : list (GeoDataFrame G * option CRS) :=
  flat_map reprojected t.

(** A read of the file [p], whatever its result and whatever name it was
    asked under. *)
Definition is_file_read_attempt {G} (p : Path) (ev : Event G) : bool :=
  match ev with
  | EvReadFile _ p' _ _ => String.eqb p' p
  | _ => false
  end.

(** A read of the file [p] that returned the data. *)
Definition is_file_read {G} (p : Path) (ev : Event G) : bool :=
  match ev with
  | EvReadFile _ p' _ (Return _) => String.eqb p' p
  | _ => false
  end.

Definition file_read_attempts {G} (p : Path) (t : list (Event G)) : nat :=
  length (List.filter (is_file_read_attempt p) t).

Definition file_reads {G} (p : Path) (t : list (Event G)) : nat :=
  length (List.filter (is_file_read p) t).

(** The serving process at start-up: [ClipService.__init__] has made an empty
    cache and nothing has been called yet. *)
Definition process_start {G} : World G := mkWorld ∅ [] 0.

(** ** Requests in flight

    [clip_dataset] is a coroutine whose only suspension point is
    [await geojson_file.read()].  The event loop resumes one request at a
    time and runs it up to its next suspension point or to its response; the
    file system may change between two resumptions. *)

Record Request : Type := mkRequest {
  req_dataset : DatasetType;
  req_upload : bytes;
  req_format : OutputFormat
}.

Section Event_loop.
Context {G : Type} {PY : PyStdlib} {E : GeoEngine G}.

Inductive Task : Type :=
| Accepted (r : Request)
| Awaiting (r : Request)
| Responded (r : Request) (o : Outcome FileResponse).

Definition task_request (t : Task) : Request :=
  match t with Accepted r | Awaiting r | Responded r _ => r end.

(** The name of the dataset a task asks for. *)
Definition task_dataset (t : Task) : string :=
  DatasetType_value (req_dataset (task_request t)).

(** Resume one task on the file system [fs]. *)
Definition resume (fs : Storage G) (t : Task) (w : World G) : Task * World G :=
  match t with
  | Accepted r =>
      match clip_dataset_check fs (req_dataset r) w with
      | (Return _, w') => (Awaiting r, w')
      | (Raise e, w') =>
          let '(o, w'') := clip_dataset_except e w' in (Responded r o, w'')
      end
  | Awaiting r =>
      let '(o, w') :=
        try_except
          (clip_dataset_process fs (req_dataset r) (req_upload r) (req_format r))
          clip_dataset_except w in
      (Responded r o, w')
  | Responded r o => (Responded r o, w)
  end.

(** One turn of the event loop: task number [i] is resumed. *)
Definition turn (tasks : list Task) (w : World G) (i : nat) (fs : Storage G)
  : list Task * World G :=
  match tasks !! i with
  | Some t => let '(t', w') := resume fs t w in (<[i := t']> tasks, w')
  | None => (tasks, w)
  end.

Fixpoint event_loop (schedule : list (nat * Storage G)) (tasks : list Task)
         (w : World G) : list Task * World G :=
  match schedule with
  | [] => (tasks, w)
  | (i, fs) :: rest =>
      let '(tasks', w') := turn tasks w i fs in event_loop rest tasks' w'
  end.

(** The [clip_data] calls of a sequence of requests, each on the file
    system of its time. *)
Fixpoint clip_data_calls
         (calls : list (Storage G * DatasetType * GeoDataFrame G * OutputFormat))
         (w : World G) : World G :=
  match calls with
  | [] => w
  | (fs, dataset, aoi, output_format) :: rest =>
      clip_data_calls rest
        (snd (clip_data fs (DatasetType_value dataset) aoi
                        (OutputFormat_value output_format) w))
  end.

End Event_loop.

(** ** How one call moves the cache

    Between two suspension points a request makes at most one dataset access,
    surrounded by calls that leave the cache alone. *)

(** The file and the layer [clip_data] reads for [dataset]. *)
Definition dataset_file (dataset : string) : string :=
  str_path (paths !! lower dataset).

Definition dataset_layer (dataset : string) : option string :=
  if String.eqb dataset "glim" then Some "GLiM_export" else None.

(** No event of [evs] is a dataset access. *)
Definition quiet {G} (evs : list (Event G)) : Prop :=
  forallb (fun ev => negb (is_dataset_access ev)) evs = true.

(** A computation that never touches the cache nor the dataset files. *)
Definition Quiet {G A} (m : M G A) : Prop :=
  forall w, exists evs, only_traced w (snd (m w)) evs /\ quiet evs.

Inductive access_step {G} (fs : Storage G) (dataset : string) (w w' : World G)
  : list (Event G) -> Prop :=
| access_none :
    _dataset_cache w' = _dataset_cache w ->
    access_step fs dataset w w' []
| access_hit full_data :
    _dataset_cache w !! dataset = Some full_data ->
    _dataset_cache w' = _dataset_cache w ->
    access_step fs dataset w w' [EvCacheHit dataset full_data]
| access_load full_data :
    _dataset_cache w !! dataset = None ->
    read_file fs (dataset_file dataset) (dataset_layer dataset) = Return full_data ->
    _dataset_cache w' = <[dataset := full_data]> (_dataset_cache w) ->
    access_step fs dataset w w'
      [EvReadFile dataset (dataset_file dataset) (dataset_layer dataset) (Return full_data)]
| access_fail e :
    _dataset_cache w !! dataset = None ->
    read_file fs (dataset_file dataset) (dataset_layer dataset) = Raise e ->
    _dataset_cache w' = _dataset_cache w ->
    access_step fs dataset w w'
      [EvReadFile dataset (dataset_file dataset) (dataset_layer dataset) (Raise e)].

(** One step of the process on behalf of a request for [dataset]. *)
Definition cache_step {G} (fs : Storage G) (dataset : string) (w w' : World G) : Prop :=
  exists before access after,
    trace w' = trace w ++ before ++ access ++ after /\
    quiet before /\ quiet after /\ access_step fs dataset w w' access.

(** A computation that moves the cache by one [cache_step]. *)
Definition Steps {G A} (fs : Storage G) (dataset : string) (m : M G A) : Prop :=
  forall w, cache_step fs dataset w (snd (m w)).

(** The cache and the trace agree: a cached dataset was read exactly once
    and every caller was handed that frame; a dataset that is not cached was
    handed to nobody. *)
Definition cache_consistent {G} (w : World G) : Prop :=
  forall dataset,
    match _dataset_cache w !! dataset with
    | Some full_data =>
        loads_completed dataset (trace w) = 1%nat /\
        forall x, In x (frames_served dataset (trace w)) -> x = full_data
    | None =>
        loads_completed dataset (trace w) = 0%nat /\
        frames_served dataset (trace w) = []
    end.

(** ** Vocabulary of the clip statements *)

Section Clip_statements.
Context {G : Type} {E : GeoEngine G}.


(** The AOI [clip_data] hands to the overlay: the AOI itself when it is in
    the dataset's reference system, its reprojection otherwise. *)
Definition aligned_aoi (full_data aoi : GeoDataFrame G) : Outcome (GeoDataFrame G) :=
  if bool_decide (crs aoi ≠ crs full_data)
  then to_crs aoi (crs full_data)
  else Return aoi.

(** The driver [_save_result] passes to [to_file] for a format. *)
Definition driver_of (f : OutputFormat) : string :=
  match f with
  | GEOJSON => "GeoJSON"
  | SHAPEFILE => "ESRI Shapefile"
  | GPKG => "GPKG"
  end.

Definition suffix_of (f : OutputFormat) : string :=
  match f with
  | GEOJSON => ".geojson"
  | SHAPEFILE => ".shp"
  | GPKG => ".gpkg"
  end.

End Clip_statements.

(** The file of a dataset of the API. *)
Definition DatasetType_path (d : DatasetType) : Path :=
  match d with GLIM => GLIM_PATH | GLHYMPS => GLHYMPS_PATH end.

(** The file of [dataset] can be read on [fs]. *)
Definition dataset_readable {G} (fs : Storage G) (dataset : DatasetType) : Prop :=
  exists full_data,
    read_file fs (DatasetType_path dataset) (dataset_layer (DatasetType_value dataset)) =
      Return full_data.

(** Every read in the trace was made for a dataset of the API, on the file
    of that dataset. *)
Definition api_keyed {G} (t : list (Event G)) : Prop :=
  forall ev, In ev t ->
             match ev with
             | EvReadFile d p _ _ =>
                 exists dataset, d = DatasetType_value dataset /\
                                 p = DatasetType_path dataset
             | _ => True
             end.

Section More_validator_statements.
Context {G : Type} {PY : PyStdlib} {E : GeoEngine G}.

(** An upload that decodes, parses to an object with a ["type"] member and
    is read by the engine as the frame [gdf]. *)
Definition read_as (contents : bytes) (gdf : GeoDataFrame G) : Prop :=
  exists text v,
    decode_utf8 contents = Return text /\
    json_loads text = Return v /\
    is_dict v = true /\ has_key "type" v = true /\
    read_geojson text = Return gdf.

End More_validator_statements.

(** The frame the validator returns for an upload read as [gdf]. *)
Definition validated {G} (gdf : GeoDataFrame G) : GeoDataFrame G :=
  match crs gdf with
  | None => set_crs gdf "EPSG:4326"
  | Some _ => gdf
  end.

(** The dataset [clip_data] works on in the world [w] and on the file
    system [fs]: the cached frame, or else what reading the file gives. *)
Definition dataset_in {G} (fs : Storage G) (w : World G) (dataset : string)
  : Outcome (GeoDataFrame G) :=
  match _dataset_cache w !! dataset with
  | Some full_data => Return full_data
  | None => read_file fs (dataset_file dataset) (dataset_layer dataset)
  end.

(** What [clip_data] answers, as a function of the engine's answers: the
    first of the load, the reprojection, the overlay and the writing that
    raises decides; otherwise the result comes with its temporary file. *)
Definition clip_outcome {G} {E : GeoEngine G} (fs : Storage G) (w : World G)
           (dataset : string) (aoi : GeoDataFrame G) (f : OutputFormat)
  : Outcome (GeoDataFrame G * Path) :=
  let name := "/tmp/tmp" +:+ pretty (tmp_count w) +:+ suffix_of f in
  match dataset_in fs w dataset with
  | Raise e => Raise e
  | Return full_data =>
      match aligned_aoi full_data aoi with
      | Raise e => Raise e
      | Return aoi' =>
          match overlay full_data aoi' with
          | Raise e => Raise e
          | Return clipped =>
              match to_file clipped name (driver_of f) with
              | Raise e => Raise e
              | Return _ => Return (clipped, name)
              end
          end
      end
  end.

(** The detail of the 404 of [clip_dataset] (main.py, lines 76-77). *)
Definition not_found_detail (dataset : DatasetType) : string :=
  "Dataset " +:+ DatasetType_value dataset +:+ " not found in local storage. " +:+
  "Please ensure files are in backend/data/ folder.".

(** The response of [clip_dataset] for a result with [n] features. *)
Definition clip_response (dataset : DatasetType) (output_format : OutputFormat)
           (temp_file_path : Path) (n : nat) : FileResponse :=
  mkFileResponse temp_file_path "application/octet-stream"
    (DatasetType_value dataset +:+ "_clipped." +:+ OutputFormat_value output_format)
    [("X-Feature-Count", pretty n)].

(** Every key of the cache is the name of a dataset of the API. *)
Definition api_cache {G} (w : World G) : Prop :=
  forall name,
    _dataset_cache w !! name = None \/
    exists dataset, name = DatasetType_value dataset.

(** ** A reference engine

    A small executable stand-in for the libraries, used to run the backend
    on concrete uploads: UTF-8 checking, a JSON reader, and a GIS engine
    whose geometries are points and axis-parallel rectangles on the integer
    grid.  All reference systems share that grid, so a reprojection only
    relabels the frame. *)

Module Reference.

Inductive Shape : Type :=
| Pt (x y : Z)
| Box (xmin ymin xmax ymax : Z)
| Bowtie (xmin ymin xmax ymax : Z).

Definition shape_type (g : Shape) : GeomType :=
  match g with Pt _ _ => Point | _ => Polygon end.

Definition shape_valid (g : Shape) : bool :=
  match g with
  | Pt _ _ => true
  | Box xmin ymin xmax ymax => (xmin <? xmax)%Z && (ymin <? ymax)%Z
  | Bowtie _ _ _ _ => false
  end.

(** The bounding box of a shape. *)
Definition bounds (g : Shape) : Z * Z * Z * Z :=
  match g with
  | Pt x y => (x, y, x, y)
  | Box a b c d | Bowtie a b c d => (a, b, c, d)
  end.

Definition shape_intersects (g h : Shape) : bool :=
  let '(a, b, c, d) := bounds g in
  let '(a', b', c', d') := bounds h in
  (Z.max a a' <=? Z.min c c')%Z && (Z.max b b' <=? Z.min d d')%Z.

(** The common part of two rectangles, when it has an area. *)
Definition shape_intersection (g h : Shape) : option Shape :=
  match g, h with
  | Box a b c d, Box a' b' c' d' =>
      let r := Box (Z.max a a') (Z.max b b') (Z.min c c') (Z.min d d') in
      if shape_valid r then Some r else None
  | _, _ => None
  end.

(** *** [bytes.decode('utf-8')] *)

Definition byte_in (lo hi : N) (b : Byte.byte) : bool :=
  ((lo <=? Byte.to_N b) && (Byte.to_N b <=? hi))%N.

Definition cont : Byte.byte -> bool := byte_in 128 191.

Fixpoint utf8_ok (fuel : nat) (bs : bytes) : bool :=
  match fuel with
  | O => false
  | S fuel =>
      match bs with
      | [] => true
      | b :: rest =>
          if byte_in 0 127 b then utf8_ok fuel rest
          else match rest with
               | b1 :: rest1 =>
                   if byte_in 194 223 b && cont b1 then utf8_ok fuel rest1
                   else match rest1 with
                        | b2 :: rest2 =>
                            if (byte_in 224 224 b && byte_in 160 191 b1 && cont b2)
                               || (byte_in 225 236 b && cont b1 && cont b2)
                               || (byte_in 237 237 b && byte_in 128 159 b1 && cont b2)
                               || (byte_in 238 239 b && cont b1 && cont b2)
                            then utf8_ok fuel rest2
                            else match rest2 with
                                 | b3 :: rest3 =>
                                     if ((byte_in 240 240 b && byte_in 144 191 b1)
                                         || (byte_in 241 243 b && cont b1)
                                         || (byte_in 244 244 b && byte_in 128 143 b1))
                                        && cont b2 && cont b3
                                     then utf8_ok fuel rest3
                                     else false
                                 | [] => false
                                 end
                        | [] => false
                        end
               | [] => false
               end
      end
  end.

(** The decoded text is kept in its UTF-8 encoding. *)
Definition ref_decode (contents : bytes) : Outcome string :=
  if utf8_ok (S (length contents)) contents
  then Return (string_of_list_byte contents)
  else Raise (UnicodeDecodeError "'utf-8' codec can't decode bytes").

(** *** [json.loads] *)

Definition is_ws (c : ascii) : bool :=
  match nat_of_ascii c with
  | 32%nat | 9%nat | 10%nat | 13%nat => true
  | _ => false
  end.

Definition is_digit (c : ascii) : bool :=
  ((48 <=? nat_of_ascii c)%nat && (nat_of_ascii c <=? 57)%nat)%bool.

Fixpoint skip_ws (s : string) : string :=
  match s with
  | String c rest => if is_ws c then skip_ws rest else s
  | EmptyString => s
  end.

(** The longest prefix of digits, and the rest. *)
Fixpoint digits (s : string) : string * string :=
  match s with
  | String c rest =>
      if is_digit c
      then let '(ds, r) := digits rest in (String c ds, r)
      else (EmptyString, s)
  | EmptyString => (EmptyString, s)
  end.

(** A JSON number: an optional minus sign, an integer part without a
    leading zero, an optional fraction and an optional exponent. *)
Definition number (s : string) : option (string * string) :=
  let '(sign, s1) := match s with
                     | String "-" r => ("-", r)
                     | _ => (EmptyString, s)
                     end in
  let '(int, s2) := digits s1 in
  match int with
  | EmptyString => None
  | String "0" (String _ _) => None
  | _ =>
      let '(frac, s3) :=
        match s2 with
        | String "." r => let '(ds, r') := digits r in ("." +:+ ds, r')
        | _ => (EmptyString, s2)
        end in
      if String.eqb frac "." then None else
      let '(exp, s4) :=
        match s3 with
        | String c r =>
            if Ascii.eqb c "e" || Ascii.eqb c "E" then
              let '(sg, r1) := match r with
                               | String "+" r1 => ("+", r1)
                               | String "-" r1 => ("-", r1)
                               | _ => (EmptyString, r)
                               end in
              let '(ds, r2) := digits r1 in
              (Some (String c sg +:+ ds, ds), r2)
            else (None, s3)
        | EmptyString => (None, s3)
        end in
      match exp with
      | Some (_, EmptyString) => None
      | Some (e, _) => Some (sign +:+ int +:+ frac +:+ e, s4)
      | None => Some (sign +:+ int +:+ frac, s4)
      end
  end.

Definition dquote : ascii := ascii_of_nat 34.
Definition backslash : ascii := ascii_of_nat 92.
Definition char (c : ascii) : string := String c EmptyString.

(** The characters of a string literal after its opening quote; a
    [\uXXXX] escape is kept as written. *)
Fixpoint string_body (s : string) : option (string * string) :=
  match s with
  | EmptyString => None
  | String c rest =>
      if Ascii.eqb c dquote then Some (EmptyString, rest)
      else if (nat_of_ascii c <? 32)%nat then None
      else if Ascii.eqb c backslash then
        match rest with
        | String e rest' =>
            let keep (x : string) :=
              match string_body rest' with
              | Some (body, r) => Some (x +:+ body, r)
              | None => None
              end in
            if Ascii.eqb e dquote then keep (char dquote)
            else if Ascii.eqb e backslash then keep (char backslash)
            else if Ascii.eqb e "/" then keep "/"
            else if Ascii.eqb e "b" then keep (char (ascii_of_nat 8))
            else if Ascii.eqb e "f" then keep (char (ascii_of_nat 12))
            else if Ascii.eqb e "n" then keep (char (ascii_of_nat 10))
            else if Ascii.eqb e "r" then keep (char (ascii_of_nat 13))
            else if Ascii.eqb e "t" then keep (char (ascii_of_nat 9))
            else if Ascii.eqb e "u" then keep (String backslash "u")
            else None
        | EmptyString => None
        end
      else match string_body rest with
           | Some (body, r) => Some (String c body, r)
           | None => None
           end
  end.

Definition literal (word : string) (v : Json) (s : string) : option (Json * string) :=
  if String.prefix word s
  then Some (v, String.substring (String.length word)
                                 (String.length s - String.length word) s)
  else None.

Fixpoint value (fuel : nat) (s : string) : option (Json * string) :=
  match fuel with
  | O => None
  | S fuel =>
      match skip_ws s with
      | String "{" rest =>
          match skip_ws rest with
          | String "}" rest' => Some (JObject [], rest')
          | _ => members fuel rest []
          end
      | String "[" rest =>
          match skip_ws rest with
          | String "]" rest' => Some (JArray [], rest')
          | _ => items fuel rest []
          end
      | String "t" _ as s' => literal "true" (JBool true) s'
      | String "f" _ as s' => literal "false" (JBool false) s'
      | String "n" _ as s' => literal "null" JNull s'
      | String c rest as s' =>
          if Ascii.eqb c dquote then
            match string_body rest with
            | Some (body, r) => Some (JString body, r)
            | None => None
            end
          else
            match number s' with
            | Some (lit, r) => Some (JNumber lit, r)
            | None => None
            end
      | EmptyString => None
      end
  end
with items (fuel : nat) (s : string) (acc : list Json) : option (Json * string) :=
  match fuel with
  | O => None
  | S fuel =>
      match value fuel s with
      | Some (v, r) =>
          match skip_ws r with
          | String "," r' => items fuel r' (v :: acc)
          | String "]" r' => Some (JArray (rev (v :: acc)), r')
          | _ => None
          end
      | None => None
      end
  end
with members (fuel : nat) (s : string) (acc : list (string * Json))
     : option (Json * string) :=
  match fuel with
  | O => None
  | S fuel =>
      match skip_ws s with
      | String c r =>
          if Ascii.eqb c dquote then
            match string_body r with
            | Some (key, r1) =>
                match skip_ws r1 with
                | String ":" r2 =>
                    match value fuel r2 with
                    | Some (v, r3) =>
                        match skip_ws r3 with
                        | String "," r4 => members fuel r4 ((key, v) :: acc)
                        | String "}" r4 => Some (JObject (rev ((key, v) :: acc)), r4)
                        | _ => None
                        end
                    | None => None
                    end
                | _ => None
                end
            | None => None
            end
          else None
      | EmptyString => None
      end
  end.

Definition ref_json_loads (text : string) : Outcome Json :=
  match value (2 * String.length text + 2) text with
  | Some (v, rest) =>
      match skip_ws rest with
      | EmptyString => Return v
      | _ => Raise (JSONDecodeError "Extra data")
      end
  | None => Raise (JSONDecodeError "Expecting value")
  end.

(** *** [gpd.read_file] on GeoJSON text *)

(** [v[key]] *)
Definition member (key : string) (v : Json) : option Json :=
  match v with
  | JObject ms =>
      match List.find (fun kv => String.eqb (fst kv) key) ms with
      | Some kv => Some (snd kv)
      | None => None
      end
  | _ => None
  end.

Fixpoint nat_of_digits (s : string) (acc : N) : option N :=
  match s with
  | EmptyString => Some acc
  | String c rest =>
      if is_digit c
      then nat_of_digits rest (10 * acc + N.of_nat (nat_of_ascii c - 48))%N
      else None
  end.

(** A coordinate on the integer grid. *)
Definition coordinate (v : Json) : option Z :=
  match v with
  | JNumber (String "-" ds) =>
      match nat_of_digits ds 0 with Some n => Some (- Z.of_N n)%Z | None => None end
  | JNumber ds =>
      match nat_of_digits ds 0 with Some n => Some (Z.of_N n) | None => None end
  | _ => None
  end.

Definition position (v : Json) : option (Z * Z) :=
  match v with
  | JArray [x; y] =>
      match coordinate x, coordinate y with
      | Some x, Some y => Some (x, y)
      | _, _ => None
      end
  | _ => None
  end.

Fixpoint positions (vs : list Json) : option (list (Z * Z)) :=
  match vs with
  | [] => Some []
  | v :: rest =>
      match position v, positions rest with
      | Some p, Some ps => Some (p :: ps)
      | _, _ => None
      end
  end.

Definition pos_eqb (p q : Z * Z) : bool :=
  (fst p =? fst q)%Z && (snd p =? snd q)%Z.

(** Two consecutive corners of a rectangle share exactly one coordinate. *)
Definition side (p q : Z * Z) : bool :=
  xorb (fst p =? fst q)%Z (snd p =? snd q)%Z.

(** A closed ring through the four corners of its bounding box: a
    rectangle when it walks along the sides, a bow tie when it crosses. *)
Definition ring_shape (ring : list (Z * Z)) : option Shape :=
  match ring with
  | [p0; p1; p2; p3; p4] =>
      let xs := [fst p1; fst p2; fst p3] in
      let ys := [snd p1; snd p2; snd p3] in
      let xmin := fold_right Z.min (fst p0) xs in
      let xmax := fold_right Z.max (fst p0) xs in
      let ymin := fold_right Z.min (snd p0) ys in
      let ymax := fold_right Z.max (snd p0) ys in
      let corner (p : Z * Z) :=
        ((fst p =? xmin)%Z || (fst p =? xmax)%Z) &&
        ((snd p =? ymin)%Z || (snd p =? ymax)%Z) in
      if pos_eqb p0 p4 && forallb corner [p0; p1; p2; p3]
      then if side p0 p1 && side p1 p2 && side p2 p3 && side p3 p0
           then Some (Box xmin ymin xmax ymax)
           else Some (Bowtie xmin ymin xmax ymax)
      else None
  | _ => None
  end.

Definition shape_of (v : Json) : option Shape :=
  match member "type" v, member "coordinates" v with
  | Some (JString "Point"), Some c =>
      match position c with Some (x, y) => Some (Pt x y) | None => None end
  | Some (JString "Polygon"), Some (JArray [JArray ring]) =>
      match positions ring with Some ps => ring_shape ps | None => None end
  | _, _ => None
  end.

Definition property (kv : string * Json) : string * string :=
  (fst kv, match snd kv with
           | JString s => s
           | JNumber lit => lit
           | JBool true => "True"
           | JBool false => "False"
           | _ => EmptyString
           end).

Definition feature_of (v : Json) : option (Feature Shape) :=
  match member "type" v, member "geometry" v with
  | Some (JString "Feature"), Some g =>
      match shape_of g with
      | Some shape =>
          Some (mkFeature
                  (match member "properties" v with
                   | Some (JObject ps) => map property ps
                   | _ => []
                   end) shape)
      | None => None
      end
  | _, _ => None
  end.

Fixpoint features_of (vs : list Json) : option (list (Feature Shape)) :=
  match vs with
  | [] => Some []
  | v :: rest =>
      match feature_of v, features_of rest with
      | Some f, Some fs => Some (f :: fs)
      | _, _ => None
      end
  end.

(** The named reference system of a GeoJSON object, if it declares one. *)
Definition declared_crs (v : Json) : option CRS :=
  match member "crs" v with
  | Some c =>
      match member "properties" c with
      | Some ps =>
          match member "name" ps with Some (JString name) => Some name | _ => None end
      | None => None
      end
  | None => None
  end.

Definition unsupported {A} : Outcome A :=
  Raise (EngineError "Failed to read GeoJSON data").

Definition ref_read_geojson (text : string) : Outcome (GeoDataFrame Shape) :=
  match ref_json_loads text with
  | Return v =>
      match member "type" v with
      | Some (JString "FeatureCollection") =>
          match member "features" v with
          | Some (JArray vs) =>
              match features_of vs with
              | Some fs => Return (mkGeoDataFrame (declared_crs v) fs)
              | None => unsupported
              end
          | _ => unsupported
          end
      | Some (JString "Feature") =>
          match feature_of v with
          | Some f => Return (mkGeoDataFrame (declared_crs v) [f])
          | None => unsupported
          end
      | Some _ =>
          match shape_of v with
          | Some shape => Return (mkGeoDataFrame (declared_crs v) [mkFeature [] shape])
          | None => unsupported
          end
      | None => unsupported
      end
  | Raise _ => unsupported
  end.

(** *** Reprojection, overlay and writing *)

Definition ref_to_crs (gdf : GeoDataFrame Shape) (target : option CRS)
  : Outcome (GeoDataFrame Shape) :=
  match crs gdf, target with
  | None, _ =>
      Raise (ValueError "Cannot transform naive geometries.  Please set a crs on the object first.")
  | _, None => Raise (ValueError "Must pass either crs or epsg.")
  | Some _, Some t => Return (mkGeoDataFrame (Some t) (features gdf))
  end.

(** The features of the intersection overlay: for every feature of [df1]
    and every feature of [df2] whose rectangles share an area, that area
    with the attributes of both. *)
Definition overlay_features (fs1 fs2 : list (Feature Shape)) : list (Feature Shape) :=
  flat_map
    (fun x =>
       flat_map
         (fun y =>
            match shape_intersection (geometry x) (geometry y) with
            | Some g => [mkFeature (properties x ++ properties y) g]
            | None => []
            end) fs2) fs1.

Definition ref_overlay (df1 df2 : GeoDataFrame Shape) : Outcome (GeoDataFrame Shape) :=
  Return (mkGeoDataFrame (crs df1) (overlay_features (features df1) (features df2))).

Definition ref_to_file (gdf : GeoDataFrame Shape) (p : Path) (driver : string)
  : Outcome unit :=
  if String.eqb driver "GeoJSON" || String.eqb driver "ESRI Shapefile"
     || String.eqb driver "GPKG"
  then Return tt
  else Raise (EngineError ("unsupported driver: " +:+ driver)).

Definition py : PyStdlib :=
  {| decode_utf8 := ref_decode; json_loads := ref_json_loads |}.

Definition engine : GeoEngine Shape :=
  {| geom_type := shape_type;
     is_valid := shape_valid;
     intersects := shape_intersects;
     read_geojson := ref_read_geojson;
     to_crs := ref_to_crs;
     overlay := ref_overlay;
     to_file := ref_to_file |}.

(** A file system holding the given dataset files. *)
Definition storage (files : list (Path * GeoDataFrame Shape)) : Storage Shape :=
  {| path_exists := fun p => existsb (fun f => String.eqb (fst f) p) files;
     read_file := fun p layer =>
       match List.find (fun f => String.eqb (fst f) p) files with
       | Some f => Return (snd f)
       | None => Raise (EngineError (p +:+ ": No such file or directory"))
       end |}.

(** The bytes of an ASCII text. *)
Definition upload (text : string) : bytes := list_byte_of_string text.

(** JSON text written with apostrophes for its double quotes. *)
Fixpoint quoted (s : string) : string :=
  match s with
  | EmptyString => EmptyString
  | String c rest => String (if Ascii.eqb c "'" then dquote else c) (quoted rest)
  end.

(** *** Areas, samples, a full disk and a client *)

Definition shape_area (g : Shape) : Z :=
  match g with
  | Pt _ _ => 0
  | Box xmin ymin xmax ymax | Bowtie xmin ymin xmax ymax =>
      (xmax - xmin) * (ymax - ymin)
  end.

Definition area_engine : AreaEngine Shape :=
  {| Area := Z;
     is_geographic := fun gdf =>
       match crs gdf with
       | None => Raise (EngineError "'NoneType' object has no attribute 'is_geographic'")
       | Some c => Return (String.eqb c "EPSG:4326")
       end;
     area_sum := fun gdf =>
       Return (fold_right Z.add 0 (map (fun f => shape_area (geometry f)) (features gdf)));
     to_km2 := fun a => a / 1000000;
     exceeds := Z.gtb;
     format_1f := fun a => pretty a +:+ ".0";
     format_area := pretty |}.

(** The first rows of the dataset files. *)
Definition sampling (files : list (Path * GeoDataFrame Shape)) : Sampling Shape :=
  {| read_file_rows := fun p layer rows =>
       match List.find (fun f => String.eqb (fst f) p) files with
       | Some f => Return (mkGeoDataFrame (crs (snd f)) (firstn rows (features (snd f))))
       | None => Raise (EngineError (p +:+ ": No such file or directory"))
       end;
     columns := fun gdf =>
       match features gdf with
       | [] => ["geometry"]
       | f :: _ => map fst (properties f) ++ ["geometry"]
       end |}.

(** The engine on a machine whose disk is full. *)
Definition full_disk : GeoEngine Shape :=
  {| geom_type := shape_type;
     is_valid := shape_valid;
     intersects := shape_intersects;
     read_geojson := ref_read_geojson;
     to_crs := ref_to_crs;
     overlay := ref_overlay;
     to_file := fun _ p _ => Raise (EngineError (p +:+ ": No space left on device")) |}.

(** A client machine without files of its own. *)
Definition machine : Client.Machine Shape :=
  {| Client.local_exists := fun _ => Return false;
     Client.gpd_read_file := fun p =>
       Raise (EngineError (p +:+ ": No such file or directory"));
     Client.gdf_to_json := fun _ => Raise (EngineError "to_json");
     Client.write_temp := fun suffix _ => Return ("/tmp/tmp0" +:+ suffix);
     Client.gdf_to_file := fun _ _ => Return tt |}.

Definition respond (o : Outcome FileResponse) : Response :=
  match o with
  | Return _ => mkResponse 200 [] (Return "Unknown error")
  | Raise (HTTPException c d) => mkResponse c [] (Return d)
  | Raise _ => mkResponse 500 [] (Raise (JSONDecodeError "Expecting value"))
  end.

End Reference.

(** ** A scenario for the reference engine

    The AOI is the bounding box of New York City; the dataset layer has one
    feature inside the box, one outside and one across its border.
    Coordinates are in tenths of a degree. *)

Module Scenario.
Import Reference.

Definition nyc_aoi : string :=
  quoted "{'type':'FeatureCollection','features':[{'type':'Feature','properties':{'name':'NYC Test Area'},'geometry':{'type':'Polygon','coordinates':[[[-741,406],[-738,406],[-738,409],[-741,409],[-741,406]]]}}]}".

(** The AOI as the validator returns it. *)
Definition nyc_frame : GeoDataFrame Shape :=
  mkGeoDataFrame (Some "EPSG:4326")
    [mkFeature [("name", "NYC Test Area")] (Box (-741) 406 (-738) 409)].

(** A place far from every feature of the layer. *)
Definition desert_aoi : string :=
  quoted "{'type':'Feature','properties':{},'geometry':{'type':'Polygon','coordinates':[[[100,100],[110,100],[110,110],[100,110],[100,100]]]}}".


(** An upload cut off in the middle. *)
Definition truncated : string := quoted "{'type': 'FeatureCollection', 'features': [".

(** A well: one point feature, no reference system declared. *)
Definition well : string :=
  quoted "{'type':'FeatureCollection','features':[{'type':'Feature','properties':{'name':'well'},'geometry':{'type':'Point','coordinates':[-740,407]}}]}".

Definition well_frame : GeoDataFrame Shape :=
  mkGeoDataFrame None [mkFeature [("name", "well")] (Pt (-740) 407)].

Definition layer : GeoDataFrame Shape :=
  mkGeoDataFrame (Some "EPSG:4326")
    [mkFeature [("unit", "inside")] (Box (-740) 407 (-739) 408);
     mkFeature [("unit", "outside")] (Box 0 0 10 10);
     mkFeature [("unit", "across")] (Box (-742) 405 (-740) 407)].

(** The same layer stored in another reference system. *)
Definition mercator_layer : GeoDataFrame Shape :=
  mkGeoDataFrame (Some "EPSG:3857") (features layer).

Definition files : Storage Shape :=
  storage [(GLIM_PATH, mercator_layer); (GLHYMPS_PATH, layer)].

Definition no_files : Storage Shape := storage [].

(** The dataset files are there, but the process may not read them. *)
Definition locked : Storage Shape :=
  {| path_exists := fun _ => true;
     read_file := fun p _ => Raise (EngineError (p +:+ ": Permission denied")) |}.

(** An upload of one byte more than the limit. *)
Definition oversized : bytes := repeat Byte.x20 (Z.to_nat (MAX_FILE_SIZE + 1)).

(** The event of reading GLHYMPS from [files]. *)
Definition glhymps_read : Event Shape :=
  EvReadFile "glhymps" GLHYMPS_PATH None (Return layer).

(** The world after GLHYMPS was loaded from [files] at start-up. *)
Definition glhymps_loaded : World Shape :=
  mkWorld (<["glhymps" := layer]> ∅) [glhymps_read] 0.

Definition missing : PyExc :=
  EngineError (GLIM_PATH +:+ ": No such file or directory").

(** The world after a load of GLiM failed at start-up. *)
Definition glim_failed : World Shape :=
  mkWorld ∅ [EvReadFile "glim" GLIM_PATH (Some "GLiM_export") (Raise missing)] 0.

(** The world after GLiM was loaded from [files] at start-up. *)
Definition glim_loaded : World Shape :=
  mkWorld (<["glim" := mercator_layer]> ∅)
          [EvReadFile "glim" GLIM_PATH (Some "GLiM_export") (Return mercator_layer)] 0.

(** An upload without features, and how the engine reads it. *)
Definition no_features : string := quoted "{'type':'FeatureCollection','features':[]}".

Definition no_features_frame : GeoDataFrame Shape := mkGeoDataFrame None [].

(** A JSON object that is no GeoJSON: it has no type. *)
Definition untyped : string := quoted "{'features':[]}".

(** The NYC upload as the engine reads it. *)
Definition nyc_read : GeoDataFrame Shape := mkGeoDataFrame None (features nyc_frame).

(** The first rows of the dataset files of [files]. *)
Definition samples : Sampling Shape :=
  sampling [(GLIM_PATH, mercator_layer); (GLHYMPS_PATH, layer)].

(** A GLHYMPS file without rows. *)
Definition hollow_layer : GeoDataFrame Shape := mkGeoDataFrame (Some "EPSG:4326") [].

Definition hollow_files : Storage Shape := storage [(GLHYMPS_PATH, hollow_layer)].

Definition hollow_samples : Sampling Shape := sampling [(GLHYMPS_PATH, hollow_layer)].

(** A region of nine million units of area. *)
Definition region : GeoDataFrame Shape :=
  mkGeoDataFrame (Some "EPSG:4326") [mkFeature [] (Box 0 0 3000 3000)].

(** A session with a backend that runs on [fs] and has just started. *)
Definition session (fs : Storage Shape) : Client.Session :=
  Client.mkSession "http://localhost:8000"
    (fun url aoi_data output_format =>
       if String.eqb url "http://localhost:8000/clip/glim"
          && String.eqb output_format "geojson"
       then Return (respond (fst (clip_dataset (PY:=py) (E:=engine) fs GLIM
                                               (upload aoi_data) GEOJSON process_start)))
       else Raise (EngineError "Connection refused")).

End Scenario.

(** * Proofs *)

(** ** The validator *)

Ltac run :=
  unfold bind, ret, raise, call, emit, lift, try_except; simpl.

Ltac validator_case :=
  simpl; rewrite <- ?app_assoc; simpl;
  repeat split; auto;
  try (intros ? [= <-]; eexists; reflexivity);
  try (intros ?; discriminate).

Section Validator.
Context {G : Type} {PY : PyStdlib} {E : GeoEngine G}.

Lemma only_traced_refl (w : World G) : only_traced w w [].
Proof. unfold only_traced. rewrite app_nil_r. auto. Qed.

Lemma only_traced_trans (w1 w2 w3 : World G) evs1 evs2 :
  only_traced w1 w2 evs1 -> only_traced w2 w3 evs2 ->
  only_traced w1 w3 (evs1 ++ evs2).
Proof.
  unfold only_traced. intros (Hc1 & Ht1) (Hc2 & Ht2).
  rewrite Hc2, Hc1, Ht2, Ht1, app_assoc. auto.
Qed.

(** The validator only decodes and parses; whatever goes wrong, it raises
    an [HTTPException] with status 400. *)
Lemma validate_geojson_file_effect (contents : bytes) (w : World G) :
  exists evs,
    only_traced w (snd (validate_geojson_file contents w)) evs /\
    forallb is_parse_event evs = true /\
    forall e, fst (validate_geojson_file contents w) = Raise e ->
              exists detail, e = HTTPException 400 detail.
Proof.
  unfold validate_geojson_file, only_traced. run.
  destruct (decode_utf8 contents) as [text|e0]; simpl.
  2:{ exists [EvDecode contents]. destruct (is_JSONDecodeError e0); validator_case. }
  destruct (json_loads text) as [v|e0]; simpl.
  2:{ exists [EvDecode contents; EvJsonLoads text].
      destruct (is_JSONDecodeError e0); validator_case. }
  destruct (is_dict v); simpl.
  2:{ exists [EvDecode contents; EvJsonLoads text]. validator_case. }
  destruct (has_key "type" v); simpl.
  2:{ exists [EvDecode contents; EvJsonLoads text]. validator_case. }
  exists [EvDecode contents; EvJsonLoads text; EvReadGeoJSON text].
  destruct (read_geojson text) as [gdf|e0]; simpl.
  2:{ destruct (is_JSONDecodeError e0); validator_case. }
  destruct (empty gdf); simpl; [validator_case|].
  destruct (forallb _ _); validator_case.
Qed.

Lemma validate_geojson_file_malformed (contents : bytes) (w : World G) :
  malformed contents ->
  exists msg,
    fst (validate_geojson_file contents w) =
      Raise (HTTPException 400 ("Invalid JSON format: " +:+ msg)) \/
    fst (validate_geojson_file contents w) =
      Raise (HTTPException 400 ("Invalid GeoJSON file: " +:+ msg)).
Proof.
  unfold malformed, validate_geojson_file. run.
  destruct (decode_utf8 contents) as [text|e0]; simpl.
  2:{ intros _. exists (str e0). destruct (is_JSONDecodeError e0); simpl; auto. }
  destruct (json_loads text) as [v|e0]; simpl.
  2:{ intros _. exists (str e0). destruct (is_JSONDecodeError e0); simpl; auto. }
  intros [-> | Hk]; simpl; [eexists; right; reflexivity|].
  destruct (is_dict v); simpl; [rewrite Hk; simpl|]; eexists; right; reflexivity.
Qed.

Lemma validate_geojson_file_well_formed (contents : bytes) (gdf : GeoDataFrame G)
      (w : World G) :
  well_formed contents gdf ->
  fst (validate_geojson_file contents w) =
    Return (match crs gdf with None => set_crs gdf "EPSG:4326" | Some _ => gdf end).
Proof.
  intros (text & v & Hd & Hj & Hdict & Hkey & Hread & Hne & Hvalid).
  unfold validate_geojson_file. run.
  rewrite Hd; simpl. rewrite Hj; simpl. rewrite Hdict, Hkey; simpl.
  rewrite Hread; simpl.
  assert (empty gdf = false) as ->
    by (unfold empty; destruct (features gdf); congruence).
  rewrite Hvalid. reflexivity.
Qed.

End Validator.

(** ** Traces *)

Section Traces.
Context {G : Type}.
Implicit Types (t evs : list (Event G)) (d : string).

Lemma frames_served_app d t evs :
  frames_served d (t ++ evs) = frames_served d t ++ frames_served d evs.
Proof. unfold frames_served. apply flat_map_app. Qed.

Lemma loads_completed_app d t evs :
  loads_completed d (t ++ evs) = (loads_completed d t + loads_completed d evs)%nat.
Proof. unfold loads_completed. rewrite List.filter_app. apply length_app. Qed.

Lemma load_attempts_app d t evs :
  load_attempts d (t ++ evs) = (load_attempts d t + load_attempts d evs)%nat.
Proof. unfold load_attempts. rewrite List.filter_app. apply length_app. Qed.

Lemma reprojections_app t evs :
  reprojections (t ++ evs) = reprojections t ++ reprojections evs.
Proof. unfold reprojections. apply flat_map_app. Qed.

Lemma quiet_nil : quiet (@nil (Event G)).
Proof. reflexivity. Qed.

Lemma quiet_app evs1 evs2 : quiet evs1 -> quiet evs2 -> quiet (evs1 ++ evs2).
Proof. unfold quiet. rewrite forallb_app. intros -> ->. reflexivity. Qed.

Lemma quiet_cons ev evs :
  is_dataset_access ev = false -> quiet evs -> quiet (ev :: evs).
Proof. unfold quiet. simpl. intros -> ->. reflexivity. Qed.

Lemma parse_events_quiet evs : forallb is_parse_event evs = true -> quiet evs.
Proof.
  unfold quiet. induction evs as [|ev evs IH]; simpl; [reflexivity|].
  intros [Hev Hevs]%andb_prop. rewrite IH by assumption.
  destruct ev; simpl in *; congruence.
Qed.

Lemma quiet_frames_served d evs : quiet evs -> frames_served d evs = [].
Proof.
  unfold quiet. induction evs as [|ev evs IH]; simpl; [reflexivity|].
  intros [Hev Hevs]%andb_prop. rewrite IH by assumption.
  destruct ev; simpl in *; try reflexivity; discriminate.
Qed.

Lemma quiet_load_attempts d evs : quiet evs -> load_attempts d evs = 0%nat.
Proof.
  unfold quiet, load_attempts. induction evs as [|ev evs IH]; simpl; [reflexivity|].
  intros [Hev Hevs]%andb_prop.
  destruct ev; simpl in *; try (apply IH; assumption); discriminate.
Qed.

Lemma loads_completed_le_attempts d evs :
  (loads_completed d evs <= load_attempts d evs)%nat.
Proof.
  unfold loads_completed, load_attempts.
  induction evs as [|ev evs IH]; simpl; [lia|].
  destruct ev as [| | | |d' p l [full_data|e]| | | | |]; simpl; try exact IH;
    destruct (String.eqb d' d); simpl; lia.
Qed.

Lemma quiet_loads_completed d evs : quiet evs -> loads_completed d evs = 0%nat.
Proof.
  intros H%(quiet_load_attempts d).
  pose proof (loads_completed_le_attempts d evs). lia.
Qed.

(** What one cache hit and one read that returned add to the counts. *)
Lemma cache_hit_counts d (x : GeoDataFrame G) :
  frames_served d [EvCacheHit d x] = [x] /\
  loads_completed d [EvCacheHit d x] = 0%nat /\
  load_attempts d [EvCacheHit d x] = 0%nat.
Proof.
  unfold frames_served, loads_completed, load_attempts. simpl.
  rewrite String.eqb_refl. auto.
Qed.

Lemma completed_read_counts d p layer (x : GeoDataFrame G) :
  frames_served d [EvReadFile d p layer (Return x)] = [x] /\
  loads_completed d [EvReadFile d p layer (Return x)] = 1%nat /\
  load_attempts d [EvReadFile d p layer (Return x)] = 1%nat.
Proof.
  unfold frames_served, loads_completed, load_attempts. simpl.
  rewrite String.eqb_refl. auto.
Qed.

End Traces.

(** ** Calls that leave the cache alone *)

Create HintDb quiet.

Section Quiet_calls.
Context {G : Type} {PY : PyStdlib} {E : GeoEngine G}.

Lemma Quiet_ret {A} (a : A) : Quiet (G:=G) (ret a).
Proof. intros w. exists []. split; [apply only_traced_refl | apply quiet_nil]. Qed.

Lemma Quiet_raise {A} e : Quiet (G:=G) (A:=A) (raise e).
Proof. intros w. exists []. split; [apply only_traced_refl | apply quiet_nil]. Qed.

Lemma Quiet_lift {A} (r : Outcome A) : Quiet (G:=G) (lift r).
Proof. intros w. exists []. split; [apply only_traced_refl | apply quiet_nil]. Qed.

Lemma Quiet_call {A} (ev : Event G) (r : Outcome A) :
  is_dataset_access ev = false -> Quiet (call ev r).
Proof.
  intros Hev w. exists [ev]. split.
  - unfold only_traced, call; simpl; auto.
  - apply quiet_cons; [assumption | apply quiet_nil].
Qed.

Lemma Quiet_bind {A B} (m : M G A) (k : A -> M G B) :
  Quiet m -> (forall a, Quiet (k a)) -> Quiet (bind m k).
Proof.
  intros Hm Hk w. destruct (Hm w) as (evs1 & Ht1 & Hq1).
  unfold bind. destruct (m w) as [[a|e] w1]; simpl in *.
  - destruct (Hk a w1) as (evs2 & Ht2 & Hq2).
    exists (evs1 ++ evs2). split.
    + eapply only_traced_trans; eassumption.
    + apply quiet_app; assumption.
  - exists evs1. auto.
Qed.

Lemma Quiet_try_except {A} (body : M G A) handler :
  Quiet body -> (forall e, Quiet (handler e)) -> Quiet (try_except body handler).
Proof.
  intros Hm Hk w. destruct (Hm w) as (evs1 & Ht1 & Hq1).
  unfold try_except. destruct (body w) as [[a|e] w1]; simpl in *.
  - exists evs1. auto.
  - destruct (Hk e w1) as (evs2 & Ht2 & Hq2).
    exists (evs1 ++ evs2). split.
    + eapply only_traced_trans; eassumption.
    + apply quiet_app; assumption.
Qed.

Lemma Quiet_if {A} (b : bool) (m1 m2 : M G A) :
  Quiet m1 -> Quiet m2 -> Quiet (if b then m1 else m2).
Proof. destruct b; auto. Qed.

Hint Resolve Quiet_ret Quiet_raise Quiet_lift Quiet_bind Quiet_try_except Quiet_if
  : quiet.

Lemma Quiet_is_dataset_available (fs : Storage G) name :
  Quiet (is_dataset_available fs name).
Proof.
  unfold is_dataset_available. apply Quiet_bind; [auto with quiet|].
  intros [p|]; [apply Quiet_call; reflexivity | auto with quiet].
Qed.

Lemma Quiet_validate_geojson_file contents : Quiet (validate_geojson_file contents).
Proof.
  intros w. destruct (validate_geojson_file_effect contents w) as (evs & Ht & Hp & _).
  exists evs. split; [assumption | apply parse_events_quiet; assumption].
Qed.

Lemma Quiet_clip_data_overlay (full_data aoi : GeoDataFrame G) :
  Quiet (clip_data_overlay full_data aoi).
Proof.
  unfold clip_data_overlay. apply Quiet_bind.
  - apply Quiet_if; [apply Quiet_call; reflexivity | auto with quiet].
  - intros a. apply Quiet_call; reflexivity.
Qed.

Lemma Quiet_NamedTemporaryFile suffix : Quiet (G:=G) (NamedTemporaryFile suffix).
Proof.
  intros w. eexists [_]. split.
  - unfold only_traced, NamedTemporaryFile; simpl; eauto.
  - reflexivity.
Qed.

Lemma Quiet_save_result (gdf : GeoDataFrame G) format : Quiet (_save_result gdf format).
Proof.
  unfold _save_result. destruct (format_config !! format) as [[suffix driver]|];
    [|auto with quiet].
  apply Quiet_bind; [apply Quiet_NamedTemporaryFile|].
  intros name. apply Quiet_bind; [apply Quiet_call; reflexivity | auto with quiet].
Qed.

Lemma Quiet_clip_dataset_check (fs : Storage G) dataset :
  Quiet (clip_dataset_check fs dataset).
Proof.
  unfold clip_dataset_check. apply Quiet_bind; [apply Quiet_is_dataset_available|].
  intros b. auto with quiet.
Qed.

Lemma Quiet_clip_dataset_except e : Quiet (G:=G) (clip_dataset_except e).
Proof. unfold clip_dataset_except. auto with quiet. Qed.

End Quiet_calls.

(** ** The dataset cache *)

Section Dataset_cache.
Context {G : Type} {PY : PyStdlib} {E : GeoEngine G}.
Implicit Types (w : World G) (fs : Storage G).

Lemma clip_data_load_hit fs dataset w full_data :
  _dataset_cache w !! dataset = Some full_data ->
  clip_data_load fs dataset w =
    (Return full_data,
     mkWorld (_dataset_cache w) (trace w ++ [EvCacheHit dataset full_data]) (tmp_count w)).
Proof. intros H. unfold clip_data_load, get_cache. run. rewrite H. reflexivity. Qed.

Lemma clip_data_load_miss fs dataset w :
  _dataset_cache w !! dataset = None ->
  clip_data_load fs dataset w =
    let ev := EvReadFile dataset (dataset_file dataset) (dataset_layer dataset) in
    match read_file fs (dataset_file dataset) (dataset_layer dataset) with
    | Return full_data =>
        (Return full_data,
         mkWorld (<[dataset := full_data]> (_dataset_cache w))
                 (trace w ++ [ev (Return full_data)]) (tmp_count w))
    | Raise e =>
        (Raise e, mkWorld (_dataset_cache w) (trace w ++ [ev (Raise e)]) (tmp_count w))
    end.
Proof.
  intros H. unfold clip_data_load, get_cache, cache_store. run. rewrite H. simpl.
  fold (dataset_file dataset). fold (dataset_layer dataset).
  destruct (read_file fs _ _); reflexivity.
Qed.

(** The load step makes exactly one dataset access. *)
Lemma clip_data_load_access fs dataset w :
  exists access,
    access <> [] /\
    trace (snd (clip_data_load fs dataset w)) = trace w ++ access /\
    access_step fs dataset w (snd (clip_data_load fs dataset w)) access.
Proof.
  destruct (_dataset_cache w !! dataset) as [full_data|] eqn:Hc.
  - rewrite (clip_data_load_hit _ _ _ _ Hc). eexists. split; [|split].
    2: reflexivity. 1: discriminate.
    apply access_hit; auto.
  - rewrite (clip_data_load_miss _ _ _ Hc). simpl.
    destruct (read_file fs _ _) as [full_data|e] eqn:Hr; simpl;
      (eexists; split; [|split]; [| reflexivity |]; [discriminate|]).
    + apply access_load; auto.
    + apply access_fail; auto.
Qed.

Lemma access_step_cache fs dataset w1 w1' w2 w2' access :
  _dataset_cache w2 = _dataset_cache w1 ->
  _dataset_cache w2' = _dataset_cache w1' ->
  access_step fs dataset w1 w1' access -> access_step fs dataset w2 w2' access.
Proof.
  intros H H'. destruct 1; [apply access_none | eapply access_hit
                           | eapply access_load | eapply access_fail];
    rewrite ?H, ?H'; eauto.
Qed.

Lemma Quiet_Steps {A} fs dataset (m : M G A) : Quiet m -> Steps fs dataset m.
Proof.
  intros Hq w. destruct (Hq w) as (evs & [Hc Ht] & Hquiet).
  exists evs, [], []. rewrite app_nil_r. repeat split; auto using quiet_nil.
  apply access_none. assumption.
Qed.

Lemma Steps_clip_data_load fs dataset : Steps fs dataset (clip_data_load fs dataset).
Proof.
  intros w. destruct (clip_data_load_access fs dataset w) as (access & _ & Ht & Ha).
  exists [], access, []. rewrite app_nil_r. simpl. auto using quiet_nil.
Qed.

Lemma Steps_bind_quiet_first {A B} fs dataset (m : M G A) (k : A -> M G B) :
  Quiet m -> (forall a, Steps fs dataset (k a)) -> Steps fs dataset (bind m k).
Proof.
  intros Hm Hk w. destruct (Hm w) as (evs1 & [Hc1 Ht1] & Hq1).
  unfold bind. destruct (m w) as [[a|e] w1]; simpl in *.
  - destruct (Hk a w1) as (before & access & after & Ht & Hqb & Hqa & Hs).
    exists (evs1 ++ before), access, after. repeat split; auto using quiet_app.
    + rewrite Ht, Ht1, <- !app_assoc. reflexivity.
    + eapply access_step_cache; [symmetry; exact Hc1 | reflexivity | exact Hs].
  - exists evs1, [], []. rewrite app_nil_r. repeat split; auto using quiet_nil.
    apply access_none. assumption.
Qed.

Lemma Steps_bind_quiet_rest {A B} fs dataset (m : M G A) (k : A -> M G B) :
  Steps fs dataset m -> (forall a, Quiet (k a)) -> Steps fs dataset (bind m k).
Proof.
  intros Hm Hk w.
  destruct (Hm w) as (before & access & after & Ht & Hqb & Hqa & Hs).
  unfold bind. destruct (m w) as [[a|e] w1]; simpl in *.
  - destruct (Hk a w1) as (evs2 & [Hc2 Ht2] & Hq2).
    exists before, access, (after ++ evs2). repeat split; auto using quiet_app.
    + rewrite Ht2, Ht, <- !app_assoc. reflexivity.
    + eapply access_step_cache; [reflexivity | exact Hc2 | exact Hs].
  - exists before, access, after. auto.
Qed.

Lemma Steps_try_except {A} fs dataset (body : M G A) handler :
  Steps fs dataset body -> (forall e, Quiet (handler e)) ->
  Steps fs dataset (try_except body handler).
Proof.
  intros Hm Hk w.
  destruct (Hm w) as (before & access & after & Ht & Hqb & Hqa & Hs).
  unfold try_except. destruct (body w) as [[a|e] w1]; simpl in *.
  - exists before, access, after. auto.
  - destruct (Hk e w1) as (evs2 & [Hc2 Ht2] & Hq2).
    exists before, access, (after ++ evs2). repeat split; auto using quiet_app.
    + rewrite Ht2, Ht, <- !app_assoc. reflexivity.
    + eapply access_step_cache; [reflexivity | exact Hc2 | exact Hs].
Qed.

Lemma Steps_clip_data fs dataset aoi output_format :
  Steps fs dataset (clip_data fs dataset aoi output_format).
Proof.
  unfold clip_data. apply Steps_bind_quiet_rest; [apply Steps_clip_data_load|].
  intros full_data. apply Quiet_bind; [apply Quiet_clip_data_overlay|].
  intros clipped. apply Quiet_bind; [apply Quiet_save_result|].
  intros p. apply Quiet_ret.
Qed.

Lemma Steps_clip_dataset_process fs dataset contents output_format :
  Steps fs (DatasetType_value dataset)
        (clip_dataset_process fs dataset contents output_format).
Proof.
  unfold clip_dataset_process. destruct (len contents >? MAX_FILE_SIZE).
  { apply Quiet_Steps, Quiet_raise. }
  apply Steps_bind_quiet_first; [apply Quiet_validate_geojson_file|].
  intros aoi. apply Steps_bind_quiet_rest; [apply Steps_clip_data|].
  intros [result_gdf temp_file_path]. apply Quiet_ret.
Qed.

Lemma Steps_clip_dataset fs dataset geojson_file output_format :
  Steps fs (DatasetType_value dataset)
        (clip_dataset fs dataset geojson_file output_format).
Proof.
  unfold clip_dataset, clip_dataset_try.
  apply Steps_try_except; [|apply Quiet_clip_dataset_except].
  apply Steps_bind_quiet_first; [apply Quiet_clip_dataset_check|].
  intros _. apply Steps_bind_quiet_first; [apply Quiet_ret|].
  intros contents. apply Steps_clip_dataset_process.
Qed.

Lemma resume_cache_step fs (t : Task) w :
  cache_step fs (task_dataset t) w (snd (resume fs t w)).
Proof.
  destruct t as [r|r|r o]; simpl.
  - destruct (Quiet_clip_dataset_check fs (req_dataset r) w) as (evs & [Hc Ht] & Hq).
    destruct (clip_dataset_check fs (req_dataset r) w) as [[u|e] w1]; simpl in *;
      (exists evs, [], []; rewrite app_nil_r; repeat split; auto using quiet_nil;
       apply access_none; assumption).
  - pose proof (Steps_try_except fs _ _ _
                  (Steps_clip_dataset_process fs (req_dataset r) (req_upload r)
                                              (req_format r))
                  Quiet_clip_dataset_except w) as H.
    destruct (try_except _ _ w) as [o w']. exact H.
  - exists [], [], []. rewrite app_nil_r. repeat split; auto using quiet_nil.
    apply access_none. reflexivity.
Qed.

End Dataset_cache.

(** ** The cache invariant *)

Section Cache_invariant.
Context {G : Type}.
Implicit Types (w : World G) (fs : Storage G).

Lemma cache_consistent_start : cache_consistent (G:=G) process_start.
Proof. intros dataset. simpl. rewrite lookup_empty. auto. Qed.

(** What one access adds to the frames served and to the completed loads
    of [dataset]. *)
Lemma access_step_consistent fs d w w' access dataset :
  access_step fs d w w' access ->
  match _dataset_cache w !! dataset with
  | Some full_data =>
      _dataset_cache w' !! dataset = Some full_data /\
      loads_completed dataset access = 0%nat /\
      forall x, In x (frames_served dataset access) -> x = full_data
  | None =>
      (_dataset_cache w' !! dataset = None /\
       loads_completed dataset access = 0%nat /\
       frames_served dataset access = []) \/
      (exists full_data,
          _dataset_cache w' !! dataset = Some full_data /\
          loads_completed dataset access = 1%nat /\
          frames_served dataset access = [full_data])
  end.
Proof.
  destruct 1 as [Hc'|full_data Hc Hc'|full_data Hc Hr Hc'|e Hc Hr Hc'].
  - rewrite Hc'. destruct (_dataset_cache w !! dataset); simpl; auto.
    repeat split; auto. contradiction.
  - rewrite Hc'. unfold loads_completed, frames_served. simpl.
    destruct (String.eqb_spec d dataset) as [->|Hne].
    + rewrite Hc. repeat split; auto. intros x [<-|[]]. reflexivity.
    + destruct (_dataset_cache w !! dataset); simpl; auto.
      repeat split; auto. contradiction.
  - rewrite Hc'. unfold loads_completed, frames_served. simpl.
    destruct (String.eqb_spec d dataset) as [->|Hne].
    + rewrite Hc, lookup_insert_eq. right. eauto.
    + rewrite lookup_insert_ne by assumption.
      destruct (_dataset_cache w !! dataset); simpl; auto.
      repeat split; auto. contradiction.
  - rewrite Hc'. unfold loads_completed, frames_served. simpl.
    destruct (_dataset_cache w !! dataset); simpl; auto.
    repeat split; auto. contradiction.
Qed.

Lemma cache_consistent_step fs d w w' :
  cache_consistent w -> cache_step fs d w w' -> cache_consistent w'.
Proof.
  intros Hinv (before & access & after & Ht & Hqb & Hqa & Hs) dataset.
  specialize (Hinv dataset).
  pose proof (access_step_consistent fs d w w' access dataset Hs) as Ha.
  rewrite Ht, !loads_completed_app, !frames_served_app.
  rewrite (quiet_loads_completed _ _ Hqb), (quiet_loads_completed _ _ Hqa).
  rewrite (quiet_frames_served _ _ Hqb), (quiet_frames_served _ _ Hqa).
  rewrite app_nil_r. simpl.
  destruct (_dataset_cache w !! dataset) as [full_data|].
  - destruct Hinv as [Hn Hx], Ha as (-> & Hn' & Hx'). split; [lia|].
    intros x [Hin|Hin]%in_app_or; auto.
  - destruct Hinv as [Hn Hx].
    destruct Ha as [(-> & Hn' & Hx')|(full_data & -> & Hn' & Hx')].
    + rewrite Hx, Hx'. split; [lia|reflexivity].
    + rewrite Hx, Hx'. split; [lia|]. intros x [<-|[]]. reflexivity.
Qed.

Lemma cache_consistent_use w dataset :
  cache_consistent w ->
  (loads_completed dataset (trace w) <= 1)%nat /\
  forall x y, In x (frames_served dataset (trace w)) ->
              In y (frames_served dataset (trace w)) -> x = y.
Proof.
  intros Hinv. specialize (Hinv dataset).
  destruct (_dataset_cache w !! dataset) as [full_data|].
  - destruct Hinv as [-> Hx]. split; [lia|].
    intros x y Hin1 Hin2. rewrite (Hx x Hin1), (Hx y Hin2). reflexivity.
  - destruct Hinv as [-> ->]. split; [lia|]. intros x y [].
Qed.

Lemma api_keyed_app (t evs : list (Event G)) :
  api_keyed (t ++ evs) <-> api_keyed t /\ api_keyed evs.
Proof.
  unfold api_keyed. split.
  - intros H. split; intros ev Hin; apply H; apply in_or_app; auto.
  - intros [H1 H2] ev [Hin|Hin]%in_app_or; [apply H1 | apply H2]; assumption.
Qed.

Lemma quiet_api_keyed (evs : list (Event G)) : quiet evs -> api_keyed evs.
Proof.
  unfold quiet, api_keyed. rewrite forallb_forall.
  intros H ev Hin. specialize (H ev Hin).
  destruct ev; simpl in *; auto; discriminate.
Qed.

Lemma dataset_file_value (dataset : DatasetType) :
  dataset_file (DatasetType_value dataset) = DatasetType_path dataset.
Proof. destruct dataset; reflexivity. Qed.

Lemma api_keyed_step fs (dataset : DatasetType) w w' :
  api_keyed (trace w) -> cache_step fs (DatasetType_value dataset) w w' ->
  api_keyed (trace w').
Proof.
  intros Hinv (before & access & after & Ht & Hqb & Hqa & Hs).
  rewrite Ht. repeat (apply api_keyed_app; split); auto using quiet_api_keyed.
  destruct Hs as [Hc'|full_data Hc Hc'|full_data Hc Hr Hc'|e Hc Hr Hc'];
    intros ev Hin; simpl in Hin; [contradiction| | |];
    destruct Hin as [<-|[]]; simpl; auto;
    exists dataset; auto using dataset_file_value.
Qed.

(** In a trace of API requests, counting the reads of a dataset's file is
    counting the reads made for that dataset. *)
Lemma api_keyed_file_reads (dataset : DatasetType) (t : list (Event G)) :
  api_keyed t ->
  file_reads (DatasetType_path dataset) t =
    loads_completed (DatasetType_value dataset) t /\
  file_read_attempts (DatasetType_path dataset) t =
    load_attempts (DatasetType_value dataset) t.
Proof.
  unfold file_reads, loads_completed, file_read_attempts, load_attempts.
  induction t as [|ev t IH]; [auto|].
  intros H. apply (api_keyed_app [ev] t) in H as [Hev Ht].
  specialize (Hev ev (or_introl eq_refl)). destruct (IH Ht) as [IH1 IH2].
  destruct ev as [| | | |d p l r| | | | |]; simpl; auto.
  destruct Hev as (dt & -> & ->).
  assert (String.eqb (DatasetType_path dt) (DatasetType_path dataset) =
          String.eqb (DatasetType_value dt) (DatasetType_value dataset)) as ->
    by (destruct dt, dataset; reflexivity).
  destruct r, (String.eqb _ _); simpl; auto.
Qed.

Lemma DatasetType_value_inj (d1 d2 : DatasetType) :
  DatasetType_value d1 = DatasetType_value d2 -> d1 = d2.
Proof. destruct d1, d2; simpl; congruence. Qed.

(** While the file of a dataset can be read, every read made for it
    returns. *)
Lemma cache_step_no_failed_load fs (d dataset : DatasetType) w w' :
  (d = dataset -> dataset_readable fs dataset) ->
  cache_step fs (DatasetType_value d) w w' ->
  load_attempts (DatasetType_value dataset) (trace w) =
    loads_completed (DatasetType_value dataset) (trace w) ->
  load_attempts (DatasetType_value dataset) (trace w') =
    loads_completed (DatasetType_value dataset) (trace w').
Proof.
  intros Hfs (before & access & after & Ht & Hqb & Hqa & Hs) Hinv.
  rewrite Ht, !load_attempts_app, !loads_completed_app, Hinv.
  rewrite (quiet_load_attempts _ _ Hqb), (quiet_load_attempts _ _ Hqa).
  rewrite (quiet_loads_completed _ _ Hqb), (quiet_loads_completed _ _ Hqa).
  destruct Hs as [Hc'|full_data Hc Hc'|full_data Hc Hr Hc'|e Hc Hr Hc'];
    try reflexivity.
  unfold load_attempts, loads_completed. simpl.
  destruct (String.eqb_spec (DatasetType_value d) (DatasetType_value dataset))
    as [Heq|Hne]; [|reflexivity].
  apply DatasetType_value_inj in Heq. destruct (Hfs Heq) as [x Hx].
  subst d. rewrite dataset_file_value in Hr. congruence.
Qed.

End Cache_invariant.

(** ** The clip service *)

Section Clip_service.
Context {G : Type} {PY : PyStdlib} {E : GeoEngine G}.
Implicit Types (w : World G) (fs : Storage G).

Lemma format_config_value (f : OutputFormat) :
  format_config !! OutputFormat_value f = Some (suffix_of f, driver_of f).
Proof. destruct f; reflexivity. Qed.

(** After a load that returned, the dataset is in the cache. *)
Lemma clip_data_load_cached fs dataset w full_data w1 :
  clip_data_load fs dataset w = (Return full_data, w1) ->
  _dataset_cache w1 !! dataset = Some full_data.
Proof.
  destruct (_dataset_cache w !! dataset) as [x|] eqn:Hc.
  - rewrite (clip_data_load_hit _ _ _ _ Hc). intros [= <- <-]. exact Hc.
  - rewrite (clip_data_load_miss _ _ _ Hc). simpl.
    destruct (read_file fs _ _); intros [= <- <-]. simpl. apply lookup_insert_eq.
Qed.

(** A load that raised was a read on a miss, and left the cache as it was. *)
Lemma clip_data_load_raised fs dataset w e w1 :
  clip_data_load fs dataset w = (Raise e, w1) ->
  _dataset_cache w !! dataset = None /\
  read_file fs (dataset_file dataset) (dataset_layer dataset) = Raise e /\
  _dataset_cache w1 = _dataset_cache w.
Proof.
  destruct (_dataset_cache w !! dataset) as [x|] eqn:Hc.
  - rewrite (clip_data_load_hit _ _ _ _ Hc). discriminate.
  - rewrite (clip_data_load_miss _ _ _ Hc). simpl.
    destruct (read_file fs _ _); intros [= <- <-]; auto.
Qed.

(** The clip step, run on an AOI in another reference system. *)
Lemma clip_data_overlay_reprojects (full_data aoi : GeoDataFrame G) w :
  crs aoi <> crs full_data ->
  clip_data_overlay full_data aoi w =
    match to_crs aoi (crs full_data) with
    | Return aoi' =>
        (overlay full_data aoi',
         mkWorld (_dataset_cache w)
                 (trace w ++ [EvToCrs aoi (crs full_data); EvOverlay full_data aoi'])
                 (tmp_count w))
    | Raise e =>
        (Raise e,
         mkWorld (_dataset_cache w) (trace w ++ [EvToCrs aoi (crs full_data)])
                 (tmp_count w))
    end.
Proof.
  intros Hne. unfold clip_data_overlay. rewrite bool_decide_eq_true_2 by assumption.
  run. destruct (to_crs aoi (crs full_data)); simpl; [|reflexivity].
  rewrite <- app_assoc. reflexivity.
Qed.


(** Saving a result never reprojects. *)
Lemma save_result_trace (gdf : GeoDataFrame G) format w :
  exists evs,
    trace (snd (_save_result gdf format w)) = trace w ++ evs /\
    reprojections evs = [] /\
    _dataset_cache (snd (_save_result gdf format w)) = _dataset_cache w.
Proof.
  unfold _save_result. destruct (format_config !! format) as [[suffix driver]|].
  - unfold NamedTemporaryFile. run. eexists [_; _].
    destruct (to_file gdf _ driver); simpl; rewrite <- app_assoc; auto.
  - exists []. run. rewrite app_nil_r. auto.
Qed.

End Clip_service.

(** ** The request handler *)

Section Handler.
Context {G : Type} {PY : PyStdlib} {E : GeoEngine G}.
Implicit Types (w : World G) (fs : Storage G).

(** For the datasets of the API the registry looks at the dataset's file. *)
Lemma is_dataset_available_value fs (dataset : DatasetType) w :
  is_dataset_available fs (DatasetType_value dataset) w =
    (Return (path_exists fs (DatasetType_path dataset)),
     mkWorld (_dataset_cache w)
             (trace w ++ [EvExists (DatasetType_path dataset)
                                   (path_exists fs (DatasetType_path dataset))])
             (tmp_count w)).
Proof. destruct dataset; reflexivity. Qed.

Lemma clip_dataset_check_value fs (dataset : DatasetType) w :
  exists detail,
    clip_dataset_check fs dataset w =
      ((if path_exists fs (DatasetType_path dataset)
        then Return tt else Raise (HTTPException 404 detail)),
       mkWorld (_dataset_cache w)
               (trace w ++ [EvExists (DatasetType_path dataset)
                                     (path_exists fs (DatasetType_path dataset))])
               (tmp_count w)).
Proof.
  eexists. unfold clip_dataset_check, bind. rewrite is_dataset_available_value.
  destruct (path_exists fs _); reflexivity.
Qed.

End Handler.

(** C1 (defect of the code).  When the registry reports the dataset file
    absent, the [try] block of [clip_dataset] raises the [HTTPException] with
    status 404 the claim asks for and the dataset cache is left as it was,
    but the handler's own [except Exception] clause catches that exception
    and raises another one: the response has status 500, not 404. *)
Theorem clip_dataset_unavailable_answers_500
        {G : Type} {PY : PyStdlib} {E : GeoEngine G}
        (fs : Storage G) (dataset : DatasetType) (geojson_file : bytes)
        (output_format : OutputFormat) (w : World G) :
  fst (is_dataset_available fs (DatasetType_value dataset) w) = Return false ->
  (exists detail,
      fst (clip_dataset_try fs dataset geojson_file output_format w) =
        Raise (HTTPException 404 detail)) /\
  http_status (fst (clip_dataset fs dataset geojson_file output_format w)) = 500 /\
  _dataset_cache (snd (clip_dataset fs dataset geojson_file output_format w)) =
    _dataset_cache w.
Proof.
  rewrite is_dataset_available_value. simpl. intros [= Hex].
  unfold clip_dataset, clip_dataset_try, try_except, bind.
  destruct (clip_dataset_check_value fs dataset w) as [detail ->].
  rewrite Hex. simpl. eauto.
Qed.

(** C2 (defect of the code).  An upload of more than [MAX_FILE_SIZE] bytes
    is turned away before anything decodes or parses it, and for an
    available dataset the [try] block raises the [HTTPException] with status
    413 the claim asks for; the handler's [except Exception] clause catches
    it, so the response has status 500, not 413. *)
Theorem clip_dataset_oversized_answers_500
        {G : Type} {PY : PyStdlib} {E : GeoEngine G}
        (fs : Storage G) (dataset : DatasetType) (contents : bytes)
        (output_format : OutputFormat) (w : World G) :
  len contents > MAX_FILE_SIZE ->
  http_status (fst (clip_dataset fs dataset contents output_format w)) = 500 /\
  (exists evs,
      only_traced w (snd (clip_dataset fs dataset contents output_format w)) evs /\
      forallb (fun ev => negb (is_parse_event ev)) evs = true) /\
  (fst (is_dataset_available fs (DatasetType_value dataset) w) = Return true ->
   fst (clip_dataset_try fs dataset contents output_format w) =
     Raise (HTTPException 413 "File too large. Max size: 50.0MB")).
Proof.
  intros Hlen. rewrite is_dataset_available_value.
  unfold clip_dataset, clip_dataset_try, try_except, bind, only_traced.
  destruct (clip_dataset_check_value fs dataset w) as [detail ->].
  unfold clip_dataset_process, ret.
  assert ((len contents >? MAX_FILE_SIZE) = true) as -> by (apply Z.gtb_lt; lia).
  destruct (path_exists fs _); simpl.
  - repeat split; eauto.
  - repeat split; eauto. discriminate.
Qed.

(** C3 (defect of the code).  Whatever the upload, if it does not decode
    and parse as one JSON value, or the value is not an object with a
    ["type"] member, then the validator raises an [HTTPException] with status
    400, saying "Invalid JSON format" or "Invalid GeoJSON file", and a
    request that carries this upload neither reads a dataset file nor looks
    a dataset up in the cache, and leaves the cache as it was.  But the 400
    does not reach the client: for an available dataset and an upload of
    admissible size the [try] block raises it, the handler's own
    [except Exception] clause catches it, and the response has status 500,
    as it has for every request with such an upload. *)
Theorem malformed_upload_answers_500
        {G : Type} {PY : PyStdlib} {E : GeoEngine G} (contents : bytes) :
  malformed contents ->
  (forall w : World G,
      exists msg,
        fst (validate_geojson_file contents w) =
          Raise (HTTPException 400 ("Invalid JSON format: " +:+ msg)) \/
        fst (validate_geojson_file contents w) =
          Raise (HTTPException 400 ("Invalid GeoJSON file: " +:+ msg))) /\
  (forall (fs : Storage G) dataset output_format (w : World G),
      http_status (fst (clip_dataset fs dataset contents output_format w)) = 500 /\
      (fst (is_dataset_available fs (DatasetType_value dataset) w) = Return true ->
       len contents <= MAX_FILE_SIZE ->
       exists detail,
         fst (clip_dataset_try fs dataset contents output_format w) =
           Raise (HTTPException 400 detail) /\
         fst (clip_dataset fs dataset contents output_format w) =
           Raise (HTTPException 500 ("Clipping failed: 400: " +:+ detail))) /\
      exists evs,
        only_traced w (snd (clip_dataset fs dataset contents output_format w)) evs /\
        forallb (fun ev => negb (is_dataset_access ev)) evs = true).
Proof.
  intros Hbad. split; [intros w; apply validate_geojson_file_malformed; assumption|].
  intros fs dataset output_format w.
  rewrite is_dataset_available_value.
  unfold clip_dataset, clip_dataset_try, try_except, bind.
  destruct (clip_dataset_check_value fs dataset w) as [detail ->].
  destruct (path_exists fs _); simpl.
  2:{ split; [reflexivity|]. split; [discriminate|].
      eexists [_]. split; [split; reflexivity | reflexivity]. }
  unfold ret, clip_dataset_process.
  destruct (len contents >? MAX_FILE_SIZE) eqn:Hsize; simpl.
  { split; [reflexivity|]. split.
    - intros _ Hlen. rewrite Z.gtb_ltb in Hsize. apply Z.ltb_lt in Hsize. lia.
    - eexists [_]. split; [split; reflexivity | reflexivity]. }
  unfold bind.
  match goal with |- context [validate_geojson_file contents ?w1] =>
    destruct (validate_geojson_file_malformed contents w1 Hbad) as [msg Hr];
    destruct (validate_geojson_file_effect contents w1) as (evs & [Hc Ht] & Hp & _);
    destruct (validate_geojson_file contents w1) as [r w2]
  end.
  simpl in *.
  destruct Hr as [-> | ->]; simpl;
    (split; [reflexivity|]; split;
     [intros _ _; eexists; split; reflexivity|];
     exists (EvExists (DatasetType_path dataset) true :: evs);
     split; [split; [exact Hc | rewrite Ht, <- app_assoc; reflexivity]
            |simpl; apply parse_events_quiet; assumption]).
Qed.

(** ** Histories of the serving process *)

Section Histories.
Context {G : Type} {PY : PyStdlib} {E : GeoEngine G}.
Implicit Types (w : World G) (fs : Storage G).

Lemma clip_data_calls_consistent calls w :
  cache_consistent w -> cache_consistent (clip_data_calls calls w).
Proof.
  revert w. induction calls as [|[[[fs dataset] aoi] output_format] calls IH];
    intros w Hw; simpl; [assumption|].
  apply IH. eapply cache_consistent_step; [exact Hw | apply Steps_clip_data].
Qed.

Lemma clip_data_calls_api_keyed calls w :
  api_keyed (trace w) -> api_keyed (trace (clip_data_calls calls w)).
Proof.
  revert w. induction calls as [|[[[fs dataset] aoi] output_format] calls IH];
    intros w Hw; simpl; [assumption|].
  apply IH. eapply api_keyed_step; [exact Hw | apply Steps_clip_data].
Qed.

Lemma turn_cache_step tasks w i fs :
  exists dataset : DatasetType,
    cache_step fs (DatasetType_value dataset) w (snd (turn tasks w i fs)).
Proof.
  unfold turn. destruct (tasks !! i) as [t|].
  - exists (req_dataset (task_request t)).
    pose proof (resume_cache_step fs t w) as H.
    destruct (resume fs t w) as [t' w']. exact H.
  - exists GLIM. apply (Quiet_Steps fs _ (ret tt)), Quiet_ret.
Qed.

Lemma event_loop_consistent schedule tasks w :
  cache_consistent w -> cache_consistent (snd (event_loop schedule tasks w)).
Proof.
  revert tasks w. induction schedule as [|[i fs] schedule IH];
    intros tasks w Hw; simpl; [assumption|].
  destruct (turn_cache_step tasks w i fs) as [dataset Hstep].
  destruct (turn tasks w i fs) as [tasks' w']. apply IH.
  eapply cache_consistent_step; eassumption.
Qed.

Lemma event_loop_api_keyed schedule tasks w :
  api_keyed (trace w) -> api_keyed (trace (snd (event_loop schedule tasks w))).
Proof.
  revert tasks w. induction schedule as [|[i fs] schedule IH];
    intros tasks w Hw; simpl; [assumption|].
  destruct (turn_cache_step tasks w i fs) as [dataset Hstep].
  destruct (turn tasks w i fs) as [tasks' w']. apply IH.
  eapply api_keyed_step; eassumption.
Qed.

Lemma event_loop_no_failed_load schedule tasks w (dataset : DatasetType) :
  Forall (fun turn => dataset_readable (snd turn) dataset) schedule ->
  load_attempts (DatasetType_value dataset) (trace w) =
    loads_completed (DatasetType_value dataset) (trace w) ->
  load_attempts (DatasetType_value dataset) (trace (snd (event_loop schedule tasks w))) =
    loads_completed (DatasetType_value dataset)
                    (trace (snd (event_loop schedule tasks w))).
Proof.
  revert tasks w. induction schedule as [|[i fs] schedule IH];
    intros tasks w Hfs Hw; simpl; [assumption|].
  apply Forall_cons_1 in Hfs as [Hfs Hrest].
  destruct (turn_cache_step tasks w i fs) as [d Hstep].
  destruct (turn tasks w i fs) as [tasks' w']. apply IH; [assumption|].
  eapply cache_step_no_failed_load; [|exact Hstep|exact Hw]. intros _. exact Hfs.
Qed.

(** A caller resumed with a well-formed upload of admissible size goes to
    the load step: after the validator's events it looks the dataset up, and
    what follows leaves the cache and the dataset files alone. *)
Lemma resume_awaiting_loads fs (r : Request) (gdf : GeoDataFrame G) w :
  len (req_upload r) <= MAX_FILE_SIZE ->
  well_formed (req_upload r) gdf ->
  exists w2 before after,
    _dataset_cache w2 = _dataset_cache w /\
    trace w2 = trace w ++ before /\ quiet before /\ quiet after /\
    trace (snd (resume fs (Awaiting r) w)) =
      trace (snd (clip_data_load fs (DatasetType_value (req_dataset r)) w2)) ++ after /\
    _dataset_cache (snd (resume fs (Awaiting r) w)) =
      _dataset_cache (snd (clip_data_load fs (DatasetType_value (req_dataset r)) w2)).
Proof.
  intros Hlen Hok. simpl. unfold try_except, clip_dataset_process.
  assert ((len (req_upload r) >? MAX_FILE_SIZE) = false) as ->
      by (rewrite Z.gtb_ltb; apply Z.ltb_ge; exact Hlen).
  unfold bind.
  pose proof (validate_geojson_file_well_formed (req_upload r) gdf w Hok) as Hv.
  destruct (validate_geojson_file_effect (req_upload r) w) as (before & [Hc Ht] & Hp & _).
  destruct (validate_geojson_file (req_upload r) w) as [[aoi|e] w2];
    simpl in Hv, Hc, Ht; [|discriminate].
  exists w2, before.
  unfold clip_data, bind.
  destruct (clip_data_load fs (DatasetType_value (req_dataset r)) w2)
    as [[full_data|e] w3]; simpl.
  - destruct (Quiet_bind (clip_data_overlay full_data aoi)
                (fun clipped => bind (_save_result clipped
                                        (OutputFormat_value (req_format r)))
                                     (fun p => ret (clipped, p)))
                (Quiet_clip_data_overlay full_data aoi)
                (fun clipped => Quiet_bind _ _
                                  (Quiet_save_result clipped
                                     (OutputFormat_value (req_format r)))
                                  (fun p => Quiet_ret _)) w3)
      as (after & [Hc3 Ht3] & Hq3).
    unfold bind in Hc3, Ht3.
    destruct (clip_data_overlay full_data aoi w3) as [[clipped|e] w4]; simpl in *.
    + destruct (_save_result clipped (OutputFormat_value (req_format r)) w4)
        as [[p|e] w5]; simpl in *;
        exists after; repeat split; auto using parse_events_quiet.
    + exists after; repeat split; auto using parse_events_quiet.
  - exists []. rewrite app_nil_r. repeat split; auto using parse_events_quiet, quiet_nil.
Qed.

(** Resuming a request twice on one file system is running the handler. *)
Lemma resume_twice_is_clip_dataset fs (r : Request) w :
  (let '(t, w1) := resume fs (Accepted r) w in resume fs t w1) =
  (let '(o, w') := clip_dataset fs (req_dataset r) (req_upload r) (req_format r) w in
   (Responded r o, w')).
Proof.
  unfold clip_dataset, clip_dataset_try, try_except, bind, ret. simpl.
  destruct (clip_dataset_check fs (req_dataset r) w) as [[u|e] w1]; simpl.
  - unfold try_except.
    destruct (clip_dataset_process fs (req_dataset r) (req_upload r) (req_format r) w1)
      as [[o|e] w2]; reflexivity.
  - reflexivity.
Qed.

End Histories.

(** C4.  At any time in the life of the serving process, if a lookup of a
    dataset in the dataset cache returns a frame, then the next lookup of
    that dataset returns the same frame and is answered from the cache,
    without any read of the dataset file, whatever the file system then
    holds; and over the whole life of the process, these two lookups
    included, the file of no dataset has been read with success more than
    once. *)
Theorem dataset_cache_get_twice
        {G : Type} {PY : PyStdlib} {E : GeoEngine G}
        (calls : list (Storage G * DatasetType * GeoDataFrame G * OutputFormat))
        (fs1 fs2 : Storage G) (dataset : DatasetType)
        (full_data : GeoDataFrame G) (w1 : World G) :
  clip_data_load fs1 (DatasetType_value dataset)
                 (clip_data_calls calls process_start) = (Return full_data, w1) ->
  clip_data_load fs2 (DatasetType_value dataset) w1 =
    (Return full_data,
     mkWorld (_dataset_cache w1)
             (trace w1 ++ [EvCacheHit (DatasetType_value dataset) full_data])
             (tmp_count w1)) /\
  forall d : DatasetType,
    (file_reads (DatasetType_path d)
                (trace (snd (clip_data_load fs2 (DatasetType_value dataset) w1)))
     <= 1)%nat.
Proof.
  intros Hfirst.
  pose proof (clip_data_load_cached _ _ _ _ _ Hfirst) as Hcached.
  split; [apply clip_data_load_hit; assumption|].
  pose proof (Steps_clip_data_load fs1 (DatasetType_value dataset)
                (clip_data_calls calls process_start)) as Hstep1.
  rewrite Hfirst in Hstep1. simpl in Hstep1.
  pose proof (Steps_clip_data_load fs2 (DatasetType_value dataset) w1) as Hstep2.
  intros d.
  assert (api_keyed (trace (snd (clip_data_load fs2 (DatasetType_value dataset) w1))))
    as Hkeyed.
  { eapply api_keyed_step; [|exact Hstep2].
    eapply api_keyed_step; [|exact Hstep1].
    apply clip_data_calls_api_keyed. intros ev []. }
  destruct (api_keyed_file_reads d _ Hkeyed) as [-> _].
  apply cache_consistent_use.
  eapply cache_consistent_step; [|exact Hstep2].
  eapply cache_consistent_step; [|exact Hstep1].
  apply clip_data_calls_consistent, cache_consistent_start.
Qed.

(** C5.  If the load of a dataset raises, then [clip_data] raises the same
    exception, the dataset cache is as it was before the call and holds no
    entry for that dataset, and the next call for the same dataset reads the
    dataset file again: it returns or raises as that read does. *)
Theorem failed_load_is_retried
        {G : Type} {PY : PyStdlib} {E : GeoEngine G}
        (fs : Storage G) (dataset : string) (aoi : GeoDataFrame G)
        (output_format : string) (w : World G) (e : PyExc) (w1 : World G) :
  clip_data_load fs dataset w = (Raise e, w1) ->
  clip_data fs dataset aoi output_format w = (Raise e, w1) /\
  _dataset_cache w1 = _dataset_cache w /\
  _dataset_cache w1 !! dataset = None /\
  forall fs2 : Storage G,
    let again := read_file fs2 (dataset_file dataset) (dataset_layer dataset) in
    fst (clip_data_load fs2 dataset w1) = again /\
    trace (snd (clip_data_load fs2 dataset w1)) =
      trace w1 ++ [EvReadFile dataset (dataset_file dataset) (dataset_layer dataset) again].
Proof.
  intros Hload.
  destruct (clip_data_load_raised _ _ _ _ _ Hload) as (Hmiss & Hread & Hcache).
  assert (_dataset_cache w1 !! dataset = None) as Hmiss1 by (rewrite Hcache; exact Hmiss).
  repeat split; auto.
  - unfold clip_data, bind. rewrite Hload. reflexivity.
  - rewrite (clip_data_load_miss _ _ _ Hmiss1). simpl.
    destruct (read_file fs2 _ _); reflexivity.
  - rewrite (clip_data_load_miss _ _ _ Hmiss1). simpl.
    destruct (read_file fs2 _ _); reflexivity.
Qed.

(** C6.  When the AOI's reference system differs from that of the loaded
    dataset, [clip_data] makes exactly one reprojection, of the AOI to the
    dataset's reference system; the cache still holds the dataset as it was
    loaded; and a result, if there is one, is the overlay of that dataset
    with the reprojected AOI and carries the dataset's reference system. *)
Theorem clip_data_reprojects_the_aoi
        {G : Type} {PY : PyStdlib} {E : GeoEngine G} {L : GeoEngineLaws E}
        (fs : Storage G) (dataset : string) (aoi : GeoDataFrame G)
        (output_format : string) (w : World G)
        (full_data : GeoDataFrame G) (w1 : World G) :
  clip_data_load fs dataset w = (Return full_data, w1) ->
  crs aoi <> crs full_data ->
  exists evs,
    trace (snd (clip_data fs dataset aoi output_format w)) = trace w1 ++ evs /\
    reprojections evs = [(aoi, crs full_data)] /\
    _dataset_cache (snd (clip_data fs dataset aoi output_format w)) !! dataset =
      Some full_data /\
    forall clipped p,
      fst (clip_data fs dataset aoi output_format w) = Return (clipped, p) ->
      exists aoi',
        to_crs aoi (crs full_data) = Return aoi' /\
        crs aoi' = crs full_data /\
        overlay full_data aoi' = Return clipped /\
        crs clipped = crs full_data.
Proof.
  intros Hload Hne.
  pose proof (clip_data_load_cached _ _ _ _ _ Hload) as Hcached.
  unfold clip_data, bind. rewrite Hload.
  rewrite (clip_data_overlay_reprojects full_data aoi w1 Hne).
  destruct (to_crs aoi (crs full_data)) as [aoi'|e] eqn:Hto; simpl.
  2:{ eexists [_]. repeat split; auto. discriminate. }
  destruct (overlay full_data aoi') as [clipped|e] eqn:Hov; simpl.
  2:{ eexists [_; _]. repeat split; auto. discriminate. }
  match goal with |- context [_save_result clipped output_format ?w2] =>
    destruct (save_result_trace clipped output_format w2) as (evs & Ht & Hr & Hc);
    destruct (_save_result clipped output_format w2) as [[p|e] w3]
  end; simpl in *.
  - exists ([EvToCrs aoi (crs full_data); EvOverlay full_data aoi'] ++ evs).
    rewrite Ht, <- app_assoc, reprojections_app, Hr, Hc.
    repeat split; auto. intros clipped' p' [= <- <-].
    exists aoi'. repeat split; eauto using to_crs_crs, overlay_crs.
  - exists ([EvToCrs aoi (crs full_data); EvOverlay full_data aoi'] ++ evs).
    rewrite Ht, <- app_assoc, reprojections_app, Hr, Hc.
    repeat split; auto. discriminate.
Qed.


(** C8.  An upload that passes every check of the validator and is read as
    a frame without a reference system is returned with the reference
    system EPSG:4326 and the same features. *)
Theorem validator_defaults_to_wgs84
        {G : Type} {PY : PyStdlib} {E : GeoEngine G}
        (contents : bytes) (gdf : GeoDataFrame G) (w : World G) :
  well_formed contents gdf ->
  crs gdf = None ->
  exists aoi,
    fst (validate_geojson_file contents w) = Return aoi /\
    crs aoi = Some "EPSG:4326" /\
    features aoi = features gdf.
Proof.
  intros Hok Hcrs. exists (set_crs gdf "EPSG:4326").
  rewrite (validate_geojson_file_well_formed contents gdf w Hok), Hcrs. auto.
Qed.

(** C9 (corrected).  Whatever requests are in flight and in whatever order
    the event loop has resumed them, on whatever file systems, from the
    start of the process: when a caller that waits with a well-formed upload
    of admissible size is resumed while the file of its dataset can be read,
    it is handed a frame, which is the one every caller of that dataset has
    been handed so far and the one the cache holds afterwards, and the file
    of the dataset has then been read with success exactly once.  A caller
    that finds the dataset in the cache reads nothing; the caller that does
    not is handed what its own read returns.  If the file could be read at
    every earlier turn, it has been read exactly once at all.  Without that
    the claim fails: a read that raises is not shared, and each caller
    reads the file again. *)
Theorem concurrent_first_access_loads_once
        {G : Type} {PY : PyStdlib} {E : GeoEngine G}
        (requests : list Request) (schedule : list (nat * Storage G))
        (i : nat) (fs : Storage G) (r : Request) (gdf full_data : GeoDataFrame G) :
  let tasks := fst (event_loop schedule (map Accepted requests) process_start) in
  let w := snd (event_loop schedule (map Accepted requests) process_start) in
  let dataset := DatasetType_value (req_dataset r) in
  let file := DatasetType_path (req_dataset r) in
  let w' := snd (turn tasks w i fs) in
  tasks !! i = Some (Awaiting r) ->
  len (req_upload r) <= MAX_FILE_SIZE ->
  well_formed (req_upload r) gdf ->
  read_file fs file (dataset_layer dataset) = Return full_data ->
  exists the_load,
    frames_served dataset (trace w') = frames_served dataset (trace w) ++ [the_load] /\
    (forall x, In x (frames_served dataset (trace w')) -> x = the_load) /\
    _dataset_cache w' !! dataset = Some the_load /\
    file_reads file (trace w') = 1%nat /\
    match _dataset_cache w !! dataset with
    | Some cached =>
        the_load = cached /\
        file_read_attempts file (trace w') = file_read_attempts file (trace w)
    | None =>
        the_load = full_data /\
        file_read_attempts file (trace w') = S (file_read_attempts file (trace w))
    end /\
    (Forall (fun turn => dataset_readable (snd turn) (req_dataset r)) schedule ->
     file_read_attempts file (trace w') = 1%nat).
Proof.
  intros tasks w dataset file w' Htask Hlen Hok Hread. subst file.
  assert (cache_consistent w) as Hinv
      by (apply event_loop_consistent, cache_consistent_start).
  assert (api_keyed (trace w)) as Hkeyed
      by (apply event_loop_api_keyed; intros ev []).
  assert (api_keyed (trace w')) as Hkeyed'.
  { destruct (turn_cache_step tasks w i fs) as [d Hstep].
    eapply api_keyed_step; eassumption. }
  destruct (api_keyed_file_reads (req_dataset r) _ Hkeyed) as [Hreads Hattempts].
  destruct (api_keyed_file_reads (req_dataset r) _ Hkeyed') as [-> ->].
  rewrite Hattempts. fold dataset. fold dataset in Hreads, Hattempts.
  assert (Forall (fun turn => dataset_readable (snd turn) (req_dataset r)) schedule ->
          load_attempts dataset (trace w) = loads_completed dataset (trace w)) as Hpast.
  { intros Hfs. apply event_loop_no_failed_load; [exact Hfs | reflexivity]. }
  assert (w' = snd (resume fs (Awaiting r) w)) as Hw'.
  { unfold w', turn. rewrite Htask. destruct (resume fs (Awaiting r) w). reflexivity. }
  destruct (resume_awaiting_loads fs r gdf w Hlen Hok)
    as (w2 & before & after & Hc2 & Ht2 & Hqb & Hqa & Ht & Hc).
  rewrite <- Hw' in Ht, Hc. fold dataset in Ht, Hc.
  specialize (Hinv dataset).
  destruct (_dataset_cache w !! dataset) as [cached|] eqn:Hcache.
  - destruct Hinv as [Hone Hsame].
    rewrite (clip_data_load_hit fs dataset w2 cached) in Ht, Hc
      by (rewrite Hc2; exact Hcache).
    simpl in Ht, Hc. rewrite Ht, Ht2, Hc, Hc2.
    rewrite !frames_served_app, !loads_completed_app, !load_attempts_app.
    rewrite (quiet_frames_served _ _ Hqb), (quiet_frames_served _ _ Hqa).
    rewrite (quiet_loads_completed _ _ Hqb), (quiet_loads_completed _ _ Hqa).
    rewrite (quiet_load_attempts _ _ Hqb), (quiet_load_attempts _ _ Hqa).
    destruct (cache_hit_counts dataset cached) as (-> & -> & ->).
    rewrite !app_nil_r, !Nat.add_0_r.
    exists cached.
    split; [reflexivity|].
    split; [intros x [Hin|[<-|[]]]%in_app_or; auto|].
    split; [exact Hcache|]. split; [exact Hone|].
    split; [split; reflexivity|].
    intros Hfs. rewrite (Hpast Hfs). exact Hone.
  - destruct Hinv as [Hzero Hnone].
    rewrite (clip_data_load_miss fs dataset w2) in Ht, Hc by (rewrite Hc2; exact Hcache).
    unfold dataset in Ht, Hc. rewrite dataset_file_value in Ht, Hc.
    fold dataset in Ht, Hc. rewrite Hread in Ht, Hc.
    simpl in Ht, Hc. rewrite Ht, Ht2, Hc.
    rewrite !frames_served_app, !loads_completed_app, !load_attempts_app.
    rewrite (quiet_frames_served _ _ Hqb), (quiet_frames_served _ _ Hqa).
    rewrite (quiet_loads_completed _ _ Hqb), (quiet_loads_completed _ _ Hqa).
    rewrite (quiet_load_attempts _ _ Hqb), (quiet_load_attempts _ _ Hqa).
    destruct (completed_read_counts dataset (DatasetType_path (req_dataset r))
                (dataset_layer dataset) full_data) as (-> & -> & ->).
    rewrite !app_nil_r, !Nat.add_0_r, Hnone, Hzero, Nat.add_1_r. simpl.
    exists full_data.
    split; [reflexivity|]. split; [intros x [<-|[]]; reflexivity|].
    split; [apply lookup_insert_eq|]. split; [reflexivity|].
    split; [split; [reflexivity | lia]|].
    intros Hfs. rewrite (Hpast Hfs), Hzero. reflexivity.
Qed.

(** C10.  An upload that passes every check of the validator is accepted
    also when none of its geometries is a polygon: the validator returns a
    frame with the same features, none of which is a polygon. *)
Theorem validator_accepts_non_polygons
        {G : Type} {PY : PyStdlib} {E : GeoEngine G}
        (contents : bytes) (gdf : GeoDataFrame G) (w : World G) :
  well_formed contents gdf ->
  Forall (fun f => geom_type (geometry f) <> Polygon) (features gdf) ->
  exists aoi,
    fst (validate_geojson_file contents w) = Return aoi /\
    features aoi = features gdf /\
    Forall (fun f => geom_type (geometry f) <> Polygon) (features aoi).
Proof.
  intros Hok Hgeom.
  rewrite (validate_geojson_file_well_formed contents gdf w Hok).
  eexists. split; [reflexivity|].
  destruct (crs gdf); simpl; auto.
Qed.

(** ** The reference engine keeps the engine's laws *)

Lemma shape_intersection_intersects (g h r : Reference.Shape) :
  Reference.shape_intersection g h = Some r ->
  Reference.shape_intersects g h = true.
Proof.
  destruct g as [x y|a b c d|a b c d], h as [x' y'|a' b' c' d'|a' b' c' d'];
    simpl; try discriminate.
  destruct (Z.max a a' <? Z.min c c')%Z eqn:Hx; [|discriminate].
  destruct (Z.max b b' <? Z.min d d')%Z eqn:Hy; [|discriminate].
  intros _. apply Z.ltb_lt in Hx, Hy.
  apply andb_true_intro. split; apply Z.leb_le; lia.
Qed.

Lemma reference_engine_laws : GeoEngineLaws Reference.engine.
Proof.
  split; simpl.
  - intros gdf target gdf'. unfold Reference.ref_to_crs.
    destruct (crs gdf), target; intros [= <-]; reflexivity.
  - intros df1 df2 r [= <-]. reflexivity.
  - intros df1 df2 r f [= <-]. simpl. unfold Reference.overlay_features.
    rewrite in_flat_map. intros (x & Hx & Hin).
    rewrite in_flat_map in Hin. destruct Hin as (y & Hy & Hin).
    exists x, y. repeat split; auto.
    destruct (Reference.shape_intersection (geometry x) (geometry y)) eqn:Hi;
      [|contradiction].
    eapply shape_intersection_intersects. exact Hi.
Qed.

(** ** The scenario, run *)

Section Scenario_runs.
Import Reference Scenario.
#[local] Existing Instance py.
#[local] Existing Instance engine.

(** The scenario of the specification: two of the three features come
    back, the one across the border cut to the box. *)
Example scenario_clip :
  clip_data files "glhymps" nyc_frame "geojson" process_start =
    (Return
       (mkGeoDataFrame (Some "EPSG:4326")
          [mkFeature [("unit", "inside"); ("name", "NYC Test Area")]
                     (Box (-740) 407 (-739) 408);
           mkFeature [("unit", "across"); ("name", "NYC Test Area")]
                     (Box (-741) 406 (-740) 407)],
        "/tmp/tmp0.geojson"),
     snd (clip_data files "glhymps" nyc_frame "geojson" process_start)).
Proof. vm_compute. reflexivity. Qed.

Example scenario_response :
  fst (clip_dataset files GLHYMPS (upload nyc_aoi) GEOJSON process_start) =
    Return (mkFileResponse "/tmp/tmp0.geojson" "application/octet-stream"
              "glhymps_clipped.geojson" [("X-Feature-Count", "2")]).
Proof. vm_compute. reflexivity. Qed.

Example scenario_validator :
  fst (validate_geojson_file (upload nyc_aoi) process_start) = Return nyc_frame.
Proof. vm_compute. reflexivity. Qed.

(** The truncated upload, sent for a dataset whose file is there. *)
Example scenario_malformed :
  exists detail,
    fst (clip_dataset files GLHYMPS (upload truncated) GEOJSON process_start) =
      Raise (HTTPException 500 ("Clipping failed: 400: Invalid JSON format: " +:+ detail)).
Proof. vm_compute. eexists. reflexivity. Qed.

(** A name in capitals misses the cache entry of its dataset and reads
    the same file again, without the layer. *)
Example scenario_capitals :
  trace (snd (clip_data_load files "GLIM" glim_loaded)) =
    trace glim_loaded ++ [EvReadFile "GLIM" GLIM_PATH None (Return mercator_layer)].
Proof. vm_compute. reflexivity. Qed.

End Scenario_runs.

(** ** The statements at the scenario *)

Section Witnesses.
Import Reference Scenario.
#[local] Existing Instance py.
#[local] Existing Instance engine.

Example scenario_two_requests :
  let r := mkRequest GLHYMPS (upload nyc_aoi) GEOJSON in
  trace (snd (event_loop [(0%nat, files); (1%nat, files); (1%nat, files); (0%nat, no_files)]
                         (map Accepted [r; r]) process_start)) =
    [EvExists GLHYMPS_PATH true; EvExists GLHYMPS_PATH true;
     EvDecode (upload nyc_aoi); EvJsonLoads nyc_aoi; EvReadGeoJSON nyc_aoi;
     glhymps_read;
     EvOverlay layer nyc_frame; EvTempFile "/tmp/tmp0.geojson";
     EvToFile (mkGeoDataFrame (Some "EPSG:4326")
                 (overlay_features (features layer) (features nyc_frame)))
              "/tmp/tmp0.geojson" "GeoJSON";
     EvDecode (upload nyc_aoi); EvJsonLoads nyc_aoi; EvReadGeoJSON nyc_aoi;
     EvCacheHit "glhymps" layer;
     EvOverlay layer nyc_frame; EvTempFile "/tmp/tmp1.geojson";
     EvToFile (mkGeoDataFrame (Some "EPSG:4326")
                 (overlay_features (features layer) (features nyc_frame)))
              "/tmp/tmp1.geojson" "GeoJSON"].
Proof. vm_compute. reflexivity. Qed.

Lemma clip_dataset_unavailable_answers_500_witness :
  fst (is_dataset_available no_files (DatasetType_value GLIM) process_start) =
    Return false /\
  ((exists detail,
       fst (clip_dataset_try no_files GLIM (upload nyc_aoi) GEOJSON process_start) =
         Raise (HTTPException 404 detail)) /\
   http_status (fst (clip_dataset no_files GLIM (upload nyc_aoi) GEOJSON process_start))
     = 500 /\
   _dataset_cache (snd (clip_dataset no_files GLIM (upload nyc_aoi) GEOJSON
                                     process_start)) =
     _dataset_cache process_start).
Proof.
  split; [reflexivity|].
  apply clip_dataset_unavailable_answers_500. reflexivity.
Defined.

Lemma clip_dataset_oversized_answers_500_witness :
  len oversized > MAX_FILE_SIZE /\
  (http_status (fst (clip_dataset files GLHYMPS oversized GEOJSON process_start)) = 500 /\
   (exists evs,
       only_traced process_start
                   (snd (clip_dataset files GLHYMPS oversized GEOJSON process_start))
                   evs /\
       forallb (fun ev => negb (is_parse_event ev)) evs = true) /\
   (fst (is_dataset_available files (DatasetType_value GLHYMPS) process_start) =
      Return true ->
    fst (clip_dataset_try files GLHYMPS oversized GEOJSON process_start) =
      Raise (HTTPException 413 "File too large. Max size: 50.0MB"))).
Proof.
  assert (len oversized > MAX_FILE_SIZE) as Hlen.
  { unfold len, oversized. rewrite repeat_length, Z2Nat.id; vm_compute; congruence. }
  split; [exact Hlen|].
  apply clip_dataset_oversized_answers_500. exact Hlen.
Defined.

Lemma malformed_upload_answers_500_witness :
  malformed (upload truncated) /\
  ((forall w : World Shape,
       exists msg,
         fst (validate_geojson_file (upload truncated) w) =
           Raise (HTTPException 400 ("Invalid JSON format: " +:+ msg)) \/
         fst (validate_geojson_file (upload truncated) w) =
           Raise (HTTPException 400 ("Invalid GeoJSON file: " +:+ msg))) /\
   (forall (fs : Storage Shape) dataset output_format (w : World Shape),
       http_status (fst (clip_dataset fs dataset (upload truncated) output_format w))
         = 500 /\
       (fst (is_dataset_available fs (DatasetType_value dataset) w) = Return true ->
        len (upload truncated) <= MAX_FILE_SIZE ->
        exists detail,
          fst (clip_dataset_try fs dataset (upload truncated) output_format w) =
            Raise (HTTPException 400 detail) /\
          fst (clip_dataset fs dataset (upload truncated) output_format w) =
            Raise (HTTPException 500 ("Clipping failed: 400: " +:+ detail))) /\
       exists evs,
         only_traced w (snd (clip_dataset fs dataset (upload truncated)
                                          output_format w)) evs /\
         forallb (fun ev => negb (is_dataset_access ev)) evs = true)).
Proof.
  assert (malformed (upload truncated)) as Hbad by (vm_compute; exact I).
  split; [exact Hbad|].
  apply malformed_upload_answers_500. exact Hbad.
Defined.

Lemma dataset_cache_get_twice_witness :
  clip_data_load files (DatasetType_value GLHYMPS) (clip_data_calls [] process_start) =
    (Return layer, glhymps_loaded) /\
  (clip_data_load no_files (DatasetType_value GLHYMPS) glhymps_loaded =
     (Return layer,
      mkWorld (_dataset_cache glhymps_loaded)
              (trace glhymps_loaded ++ [EvCacheHit (DatasetType_value GLHYMPS) layer])
              (tmp_count glhymps_loaded)) /\
   forall d : DatasetType,
     (file_reads (DatasetType_path d)
                 (trace (snd (clip_data_load no_files (DatasetType_value GLHYMPS)
                                             glhymps_loaded)))
      <= 1)%nat).
Proof.
  split; [vm_compute; reflexivity|].
  apply (dataset_cache_get_twice [] files). vm_compute. reflexivity.
Defined.

Lemma failed_load_is_retried_witness :
  clip_data_load no_files "glim" process_start = (Raise missing, glim_failed) /\
  (clip_data no_files "glim" nyc_frame "geojson" process_start =
     (Raise missing, glim_failed) /\
   _dataset_cache glim_failed = _dataset_cache process_start /\
   _dataset_cache glim_failed !! "glim" = None /\
   forall fs2 : Storage Shape,
     let again := read_file fs2 (dataset_file "glim") (dataset_layer "glim") in
     fst (clip_data_load fs2 "glim" glim_failed) = again /\
     trace (snd (clip_data_load fs2 "glim" glim_failed)) =
       trace glim_failed ++
         [EvReadFile "glim" (dataset_file "glim") (dataset_layer "glim") again]).
Proof.
  split; [vm_compute; reflexivity|].
  apply failed_load_is_retried. vm_compute. reflexivity.
Defined.

Lemma clip_data_reprojects_the_aoi_witness :
  (clip_data_load files "glim" process_start = (Return mercator_layer, glim_loaded) /\
   crs nyc_frame <> crs mercator_layer) /\
  exists evs,
    trace (snd (clip_data files "glim" nyc_frame "gpkg" process_start)) =
      trace glim_loaded ++ evs /\
    reprojections evs = [(nyc_frame, crs mercator_layer)] /\
    _dataset_cache (snd (clip_data files "glim" nyc_frame "gpkg" process_start)) !! "glim" =
      Some mercator_layer /\
    forall clipped p,
      fst (clip_data files "glim" nyc_frame "gpkg" process_start) =
        Return (clipped, p) ->
      exists aoi',
        to_crs nyc_frame (crs mercator_layer) = Return aoi' /\
        crs aoi' = crs mercator_layer /\
        overlay mercator_layer aoi' = Return clipped /\
        crs clipped = crs mercator_layer.
Proof.
  assert (clip_data_load files "glim" process_start = (Return mercator_layer, glim_loaded))
    as Hload by (vm_compute; reflexivity).
  assert (crs nyc_frame <> crs mercator_layer) as Hcrs by (vm_compute; congruence).
  split; [split; assumption|].
  exact (clip_data_reprojects_the_aoi (L:=reference_engine_laws) files "glim" nyc_frame
           "gpkg" process_start mercator_layer glim_loaded Hload Hcrs).
Defined.


Lemma validator_defaults_to_wgs84_witness :
  (well_formed (upload well) well_frame /\ crs well_frame = None) /\
  exists aoi,
    fst (validate_geojson_file (upload well) process_start) = Return aoi /\
    crs aoi = Some "EPSG:4326" /\
    features aoi = features well_frame.
Proof.
  assert (well_formed (upload well) well_frame) as Hok.
  { eexists _, _. repeat split; try (vm_compute; reflexivity). vm_compute. congruence. }
  split; [split; [exact Hok | reflexivity]|].
  apply validator_defaults_to_wgs84; [exact Hok | reflexivity].
Defined.

Lemma concurrent_first_access_loads_once_witness :
  let r := mkRequest GLHYMPS (upload nyc_aoi) GEOJSON in
  let schedule := [(0%nat, files); (1%nat, files); (0%nat, files)] in
  let tasks := fst (event_loop schedule (map Accepted [r; r]) process_start) in
  let w := snd (event_loop schedule (map Accepted [r; r]) process_start) in
  let w' := snd (turn tasks w 1 files) in
  (tasks !! 1%nat = Some (Awaiting r) /\
   len (req_upload r) <= MAX_FILE_SIZE /\
   well_formed (req_upload r) nyc_read /\
   read_file files GLHYMPS_PATH (dataset_layer "glhymps") = Return layer) /\
  exists the_load,
    frames_served "glhymps" (trace w') = frames_served "glhymps" (trace w) ++ [the_load] /\
    (forall x, In x (frames_served "glhymps" (trace w')) -> x = the_load) /\
    _dataset_cache w' !! "glhymps" = Some the_load /\
    file_reads GLHYMPS_PATH (trace w') = 1%nat /\
    match _dataset_cache w !! "glhymps" with
    | Some cached =>
        the_load = cached /\
        file_read_attempts GLHYMPS_PATH (trace w') =
          file_read_attempts GLHYMPS_PATH (trace w)
    | None =>
        the_load = layer /\
        file_read_attempts GLHYMPS_PATH (trace w') =
          S (file_read_attempts GLHYMPS_PATH (trace w))
    end /\
    (Forall (fun turn => dataset_readable (snd turn) GLHYMPS) schedule ->
     file_read_attempts GLHYMPS_PATH (trace w') = 1%nat).
Proof.
  intros r schedule tasks w w'.
  assert (tasks !! 1%nat = Some (Awaiting r)) as Htask by (vm_compute; reflexivity).
  assert (len (req_upload r) <= MAX_FILE_SIZE) as Hlen by (vm_compute; congruence).
  assert (well_formed (req_upload r) nyc_read) as Hok.
  { eexists _, _. repeat split; try (vm_compute; reflexivity). vm_compute. congruence. }
  assert (read_file files GLHYMPS_PATH (dataset_layer "glhymps") = Return layer) as Hread
      by (vm_compute; reflexivity).
  split; [repeat split; assumption|].
  exact (concurrent_first_access_loads_once [r; r] schedule 1 files r nyc_read layer
           Htask Hlen Hok Hread).
Defined.

(** C9, the claim as it was stated: two requests for a dataset whose file
    is there but cannot be read, resumed in turn.  Each of them reads the
    file, so the file is read twice; nobody is handed a frame, and both are
    answered with status 500. *)
Lemma concurrent_loads_of_unreadable_file :
  let r := mkRequest GLHYMPS (upload nyc_aoi) GEOJSON in
  let schedule := [(0%nat, locked); (1%nat, locked); (0%nat, locked); (1%nat, locked)] in
  let tasks := fst (event_loop schedule (map Accepted [r; r]) process_start) in
  let w := snd (event_loop schedule (map Accepted [r; r]) process_start) in
  file_read_attempts GLHYMPS_PATH (trace w) = 2%nat /\
  file_reads GLHYMPS_PATH (trace w) = 0%nat /\
  frames_served "glhymps" (trace w) = [] /\
  _dataset_cache w !! "glhymps" = None /\
  Forall (fun t => exists o, t = Responded r o /\ http_status o = 500) tasks.
Proof.
  vm_compute. repeat split.
  repeat constructor; eexists; split; reflexivity.
Qed.

Lemma validator_accepts_non_polygons_witness :
  (well_formed (upload well) well_frame /\
   Forall (fun f => geom_type (geometry f) <> Polygon) (features well_frame)) /\
  exists aoi,
    fst (validate_geojson_file (upload well) process_start) = Return aoi /\
    features aoi = features well_frame /\
    Forall (fun f => geom_type (geometry f) <> Polygon) (features aoi).
Proof.
  assert (well_formed (upload well) well_frame) as Hok.
  { eexists _, _. repeat split; try (vm_compute; reflexivity). vm_compute. congruence. }
  assert (Forall (fun f => geom_type (geometry f) <> Polygon) (features well_frame))
    as Hgeom by (repeat constructor; vm_compute; congruence).
  split; [split; assumption|].
  apply validator_accepts_non_polygons; assumption.
Defined.

End Witnesses.

(** * The rest of the pipeline *)

(** ** The steps of a request, one equation each *)

Section Pipeline_steps.
Context {G : Type} {PY : PyStdlib} {E : GeoEngine G}.
Implicit Types (w : World G) (fs : Storage G).

(** The validator's answer does not depend on the world, and it only adds
    its own events to the trace. *)
Lemma validate_geojson_file_world (contents : bytes) w :
  exists evs,
    snd (validate_geojson_file contents w) =
      mkWorld (_dataset_cache w) (trace w ++ evs) (tmp_count w) /\
    forallb is_parse_event evs = true /\
    forall w', fst (validate_geojson_file contents w') =
               fst (validate_geojson_file contents w).
Proof.
  unfold validate_geojson_file. run.
  destruct (decode_utf8 contents) as [text|e0]; simpl.
  2:{ exists [EvDecode contents]. destruct (is_JSONDecodeError e0); auto. }
  destruct (json_loads text) as [v|e0]; simpl.
  2:{ exists [EvDecode contents; EvJsonLoads text]. rewrite <- app_assoc.
      destruct (is_JSONDecodeError e0); auto. }
  destruct (is_dict v); simpl.
  2:{ exists [EvDecode contents; EvJsonLoads text]. rewrite <- app_assoc. auto. }
  destruct (has_key "type" v); simpl.
  2:{ exists [EvDecode contents; EvJsonLoads text]. rewrite <- app_assoc. auto. }
  exists [EvDecode contents; EvJsonLoads text; EvReadGeoJSON text].
  rewrite <- !app_assoc.
  destruct (read_geojson text) as [gdf|e0]; simpl.
  2:{ destruct (is_JSONDecodeError e0); auto. }
  destruct (empty gdf); simpl; [auto|].
  destruct (forallb _ _); simpl; auto.
Qed.

Lemma clip_data_load_world fs dataset w :
  exists ev,
    is_dataset_access ev = true /\
    trace (snd (clip_data_load fs dataset w)) = trace w ++ [ev] /\
    tmp_count (snd (clip_data_load fs dataset w)) = tmp_count w.
Proof.
  destruct (_dataset_cache w !! dataset) as [full_data|] eqn:Hc.
  - rewrite (clip_data_load_hit _ _ _ _ Hc).
    exists (EvCacheHit dataset full_data). simpl. auto.
  - rewrite (clip_data_load_miss _ _ _ Hc). simpl.
    destruct (read_file fs _ _) as [x|e] eqn:Hr;
      [exists (EvReadFile dataset (dataset_file dataset) (dataset_layer dataset) (Return x))
      |exists (EvReadFile dataset (dataset_file dataset) (dataset_layer dataset) (Raise e))];
      simpl; auto.
Qed.

(** The clip step answers as the overlay of the dataset with the aligned
    AOI; it keeps the cache and the temporary files. *)
Lemma clip_data_overlay_value (full_data aoi : GeoDataFrame G) w :
  exists evs,
    clip_data_overlay full_data aoi w =
      (match aligned_aoi full_data aoi with
       | Return aoi' => overlay full_data aoi'
       | Raise e => Raise e
       end,
       mkWorld (_dataset_cache w) (trace w ++ evs) (tmp_count w)) /\
    quiet evs /\
    (crs aoi = crs full_data ->
     reprojections evs = [] /\ aligned_aoi full_data aoi = Return aoi).
Proof.
  unfold aligned_aoi, clip_data_overlay. run.
  destruct (bool_decide (crs aoi ≠ crs full_data)) eqn:Hd; simpl.
  - apply bool_decide_eq_true_1 in Hd.
    destruct (to_crs aoi (crs full_data)) as [aoi'|e]; simpl.
    + eexists [_; _]. rewrite <- app_assoc. repeat split; auto; contradiction.
    + eexists [_]. repeat split; auto; contradiction.
  - eexists [_]. repeat split; auto.
Qed.

(** Saving in one of the three formats: the temporary file is made first,
    then written. *)
Lemma save_result_value (gdf : GeoDataFrame G) (f : OutputFormat) w :
  let name := "/tmp/tmp" +:+ pretty (tmp_count w) +:+ suffix_of f in
  _save_result gdf (OutputFormat_value f) w =
    (match to_file gdf name (driver_of f) with
     | Return _ => Return name
     | Raise e => Raise e
     end,
     mkWorld (_dataset_cache w)
             (trace w ++ [EvTempFile name; EvToFile gdf name (driver_of f)])
             (S (tmp_count w))).
Proof.
  intros name. unfold _save_result. rewrite format_config_value.
  unfold NamedTemporaryFile. run. fold name. rewrite <- app_assoc.
  destruct (to_file gdf name (driver_of f)) as [[]|e]; reflexivity.
Qed.

End Pipeline_steps.

(** ** What the clip endpoint answers *)

Section Clip_endpoint.
Context {G : Type} {PY : PyStdlib} {E : GeoEngine G}.
Implicit Types (w : World G) (fs : Storage G).

Lemma clip_data_load_dataset_in fs dataset w :
  fst (clip_data_load fs dataset w) = dataset_in fs w dataset /\
  tmp_count (snd (clip_data_load fs dataset w)) = tmp_count w /\
  match dataset_in fs w dataset with
  | Return full_data =>
      _dataset_cache (snd (clip_data_load fs dataset w)) =
        <[dataset := full_data]> (_dataset_cache w)
  | Raise _ => _dataset_cache (snd (clip_data_load fs dataset w)) = _dataset_cache w
  end.
Proof.
  unfold dataset_in. destruct (_dataset_cache w !! dataset) as [full_data|] eqn:Hc.
  - rewrite (clip_data_load_hit _ _ _ _ Hc). simpl. repeat split.
    symmetry. apply insert_id. assumption.
  - rewrite (clip_data_load_miss _ _ _ Hc). simpl.
    destruct (read_file fs _ _); simpl; auto.
Qed.

(** [clip_data], step by step, for one of the three formats. *)
Lemma clip_data_value fs dataset (aoi : GeoDataFrame G) (f : OutputFormat) w :
  fst (clip_data fs dataset aoi (OutputFormat_value f) w) =
    clip_outcome fs w dataset aoi f.
Proof.
  unfold clip_outcome, clip_data, bind.
  destruct (clip_data_load_dataset_in fs dataset w) as (Hfst & Htmp & _).
  destruct (clip_data_load fs dataset w) as [r w1]. simpl in *. subst r.
  destruct (dataset_in fs w dataset) as [full_data|e]; [|reflexivity].
  destruct (clip_data_overlay_value full_data aoi w1) as (evs & -> & _).
  destruct (aligned_aoi full_data aoi) as [aoi'|e]; [|reflexivity].
  destruct (overlay full_data aoi') as [clipped|e]; [|reflexivity].
  rewrite save_result_value. simpl. rewrite Htmp.
  destruct (to_file clipped _ (driver_of f)); reflexivity.
Qed.

(** Whatever the format, [clip_data] changes the cache only by the load. *)
Lemma clip_data_cache fs dataset (aoi : GeoDataFrame G) output_format w :
  _dataset_cache (snd (clip_data fs dataset aoi output_format w)) =
    match dataset_in fs w dataset with
    | Return full_data => <[dataset := full_data]> (_dataset_cache w)
    | Raise _ => _dataset_cache w
    end.
Proof.
  unfold clip_data, bind.
  destruct (clip_data_load_dataset_in fs dataset w) as (Hfst & _ & Hcache).
  destruct (clip_data_load fs dataset w) as [r w1]. simpl in *. subst r.
  destruct (dataset_in fs w dataset) as [full_data|e]; [|assumption].
  rewrite <- Hcache.
  destruct (Quiet_bind (clip_data_overlay full_data aoi)
              (fun clipped => bind (_save_result clipped output_format)
                                   (fun p => ret (clipped, p)))
              (Quiet_clip_data_overlay full_data aoi)
              (fun clipped => Quiet_bind _ _ (Quiet_save_result clipped output_format)
                                         (fun p => Quiet_ret _)) w1)
    as (evs & [Hc _] & _).
  exact Hc.
Qed.

Lemma clip_dataset_check_run fs (dataset : DatasetType) w :
  clip_dataset_check fs dataset w =
    ((if path_exists fs (DatasetType_path dataset)
      then Return tt else Raise (HTTPException 404 (not_found_detail dataset))),
     mkWorld (_dataset_cache w)
             (trace w ++ [EvExists (DatasetType_path dataset)
                                   (path_exists fs (DatasetType_path dataset))])
             (tmp_count w)).
Proof.
  unfold clip_dataset_check, bind. rewrite is_dataset_available_value.
  destruct (path_exists fs _); reflexivity.
Qed.

(** The [try] block of [clip_dataset] as a function of the answers of the
    file system, the validator and the engine, with the cache it leaves. *)
Lemma clip_dataset_try_value fs (dataset : DatasetType) contents (f : OutputFormat) w :
  fst (clip_dataset_try fs dataset contents f w) =
    (if path_exists fs (DatasetType_path dataset)
     then if len contents >? MAX_FILE_SIZE
          then Raise (HTTPException 413 "File too large. Max size: 50.0MB")
          else match fst (validate_geojson_file contents w) with
               | Raise e => Raise e
               | Return aoi =>
                   match clip_outcome fs w (DatasetType_value dataset) aoi f with
                   | Raise e => Raise e
                   | Return (clipped, p) =>
                       Return (clip_response dataset f p (length (features clipped)))
                   end
               end
     else Raise (HTTPException 404 (not_found_detail dataset))) /\
  _dataset_cache (snd (clip_dataset_try fs dataset contents f w)) =
    (if path_exists fs (DatasetType_path dataset) && negb (len contents >? MAX_FILE_SIZE)
     then match fst (validate_geojson_file contents w) with
          | Raise _ => _dataset_cache w
          | Return _ =>
              match dataset_in fs w (DatasetType_value dataset) with
              | Return full_data =>
                  <[DatasetType_value dataset := full_data]> (_dataset_cache w)
              | Raise _ => _dataset_cache w
              end
          end
     else _dataset_cache w).
Proof.
  unfold clip_dataset_try, bind. rewrite clip_dataset_check_run.
  destruct (path_exists fs _); simpl; [|auto].
  unfold ret, clip_dataset_process.
  destruct (len contents >? MAX_FILE_SIZE); simpl; [auto|].
  unfold bind.
  match goal with |- context [validate_geojson_file contents ?w1] =>
    destruct (validate_geojson_file_world contents w1) as (evs & Hsnd & _ & Hfst);
    rewrite (Hfst w);
    destruct (validate_geojson_file contents w1) as [[aoi|e] w2]
  end; simpl in *; [|subst w2; auto].
  subst w2.
  match goal with |- context [clip_data _ _ _ _ ?w2] =>
    pose proof (clip_data_value fs (DatasetType_value dataset) aoi f w2) as Hv;
    pose proof (clip_data_cache fs (DatasetType_value dataset) aoi
                                (OutputFormat_value f) w2) as Hc;
    destruct (clip_data fs (DatasetType_value dataset) aoi (OutputFormat_value f) w2)
      as [r w3]
  end.
  change (r = clip_outcome fs w (DatasetType_value dataset) aoi f) in Hv.
  change (_dataset_cache w3 =
          match dataset_in fs w (DatasetType_value dataset) with
          | Return full_data =>
              <[DatasetType_value dataset := full_data]> (_dataset_cache w)
          | Raise _ => _dataset_cache w
          end) in Hc.
  subst r.
  destruct (clip_outcome fs w (DatasetType_value dataset) aoi f) as [[clipped p]|e];
    simpl; rewrite Hc; auto.
Qed.

Lemma clip_dataset_run fs (dataset : DatasetType) contents (f : OutputFormat) w :
  fst (clip_dataset fs dataset contents f w) =
    match fst (clip_dataset_try fs dataset contents f w) with
    | Return r => Return r
    | Raise e => Raise (HTTPException 500 ("Clipping failed: " +:+ str e))
    end /\
  snd (clip_dataset fs dataset contents f w) =
    snd (clip_dataset_try fs dataset contents f w).
Proof.
  unfold clip_dataset, try_except.
  destruct (clip_dataset_try fs dataset contents f w) as [[r|e] w1]; auto.
Qed.

Lemma validate_geojson_file_returns (contents : bytes) (aoi : GeoDataFrame G) w :
  fst (validate_geojson_file contents w) = Return aoi ->
  exists gdf, well_formed contents gdf /\ aoi = validated gdf.
Proof.
  unfold validate_geojson_file, well_formed, validated. run.
  destruct (decode_utf8 contents) as [text|e0] eqn:Hd; simpl.
  2:{ destruct (is_JSONDecodeError e0); discriminate. }
  destruct (json_loads text) as [v|e0] eqn:Hj; simpl.
  2:{ destruct (is_JSONDecodeError e0); discriminate. }
  destruct (is_dict v) eqn:Hdict; simpl; [|discriminate].
  destruct (has_key "type" v) eqn:Hkey; simpl; [|discriminate].
  destruct (read_geojson text) as [gdf|e0] eqn:Hr; simpl.
  2:{ destruct (is_JSONDecodeError e0); discriminate. }
  destruct (empty gdf) eqn:He; simpl; [discriminate|].
  destruct (forallb _ _) eqn:Hv; simpl; [|discriminate].
  intros [= <-]. exists gdf. split; [|reflexivity].
  exists text, v. repeat split; auto.
  unfold empty in He. destruct (features gdf); congruence.
Qed.

End Clip_endpoint.

(** X1.  Whatever the request, the file system and the engine, the clip
    endpoint answers with status 200 or with status 500, and a 500 is an
    [HTTPException] whose detail is "Clipping failed: " followed by the text
    of the exception raised in the [try] block: no 400, 404 or 413 raised
    there reaches the client as such. *)
Theorem clip_dataset_answers_200_or_500
        {G : Type} {PY : PyStdlib} {E : GeoEngine G}
        (fs : Storage G) (dataset : DatasetType) (geojson_file : bytes)
        (output_format : OutputFormat) (w : World G) :
  http_status (fst (clip_dataset fs dataset geojson_file output_format w)) = 200 \/
  (http_status (fst (clip_dataset fs dataset geojson_file output_format w)) = 500 /\
   exists e,
     fst (clip_dataset_try fs dataset geojson_file output_format w) = Raise e /\
     fst (clip_dataset fs dataset geojson_file output_format w) =
       Raise (HTTPException 500 ("Clipping failed: " +:+ str e))).
Proof.
  destruct (clip_dataset_run fs dataset geojson_file output_format w) as [-> _].
  destruct (fst (clip_dataset_try fs dataset geojson_file output_format w)) as [r|e];
    simpl; eauto.
Qed.

(** X2.  A request is answered with the file response when the dataset
    file exists, the upload is within the size limit and passes the
    validator, the dataset is in the cache or its file can be read, and the
    engine answers the reprojection, the overlay and the writing.  The
    response names the first free temporary file, the download name
    "<dataset>_clipped.<format>" and, in X-Feature-Count, the number of
    features of the overlay; afterwards the dataset is in the cache. *)
Theorem clip_dataset_succeeds
        {G : Type} {PY : PyStdlib} {E : GeoEngine G}
        (fs : Storage G) (dataset : DatasetType) (contents : bytes)
        (output_format : OutputFormat) (w : World G)
        (gdf full_data aoi' clipped : GeoDataFrame G) :
  path_exists fs (DatasetType_path dataset) = true ->
  len contents <= MAX_FILE_SIZE ->
  well_formed contents gdf ->
  dataset_in fs w (DatasetType_value dataset) = Return full_data ->
  aligned_aoi full_data (validated gdf) = Return aoi' ->
  overlay full_data aoi' = Return clipped ->
  (forall p, to_file clipped p (driver_of output_format) = Return tt) ->
  fst (clip_dataset fs dataset contents output_format w) =
    Return (clip_response dataset output_format
              ("/tmp/tmp" +:+ pretty (tmp_count w) +:+ suffix_of output_format)
              (length (features clipped))) /\
  _dataset_cache (snd (clip_dataset fs dataset contents output_format w))
    !! DatasetType_value dataset = Some full_data.
Proof.
  intros Hex Hlen Hok Hds Haoi Hov Hwrite.
  destruct (clip_dataset_run fs dataset contents output_format w) as [-> ->].
  destruct (clip_dataset_try_value fs dataset contents output_format w) as [-> ->].
  rewrite Hex. assert ((len contents >? MAX_FILE_SIZE) = false) as ->
    by (rewrite Z.gtb_ltb; apply Z.ltb_ge; exact Hlen).
  rewrite (validate_geojson_file_well_formed contents gdf w Hok). fold (validated gdf).
  unfold clip_outcome. rewrite Hds, Haoi, Hov, Hwrite. simpl.
  split; [reflexivity | apply lookup_insert_eq].
Qed.

(** X3.  A 200 from the clip endpoint means all of this: the dataset file
    existed, the upload was within the size limit, the validator returned an
    AOI, the dataset came from the cache or from its file and is in the
    cache afterwards, the engine answered the reprojection, the overlay and
    the writing to the temporary file, and X-Feature-Count is the number of
    features of that overlay. *)
Theorem clip_dataset_200_means
        {G : Type} {PY : PyStdlib} {E : GeoEngine G}
        (fs : Storage G) (dataset : DatasetType) (contents : bytes)
        (output_format : OutputFormat) (w : World G) (r : FileResponse) :
  fst (clip_dataset fs dataset contents output_format w) = Return r ->
  path_exists fs (DatasetType_path dataset) = true /\
  len contents <= MAX_FILE_SIZE /\
  exists gdf full_data aoi' clipped,
    well_formed contents gdf /\
    dataset_in fs w (DatasetType_value dataset) = Return full_data /\
    aligned_aoi full_data (validated gdf) = Return aoi' /\
    overlay full_data aoi' = Return clipped /\
    to_file clipped (path r) (driver_of output_format) = Return tt /\
    r = clip_response dataset output_format
          ("/tmp/tmp" +:+ pretty (tmp_count w) +:+ suffix_of output_format)
          (length (features clipped)) /\
    _dataset_cache (snd (clip_dataset fs dataset contents output_format w))
      !! DatasetType_value dataset = Some full_data.
Proof.
  destruct (clip_dataset_run fs dataset contents output_format w) as [-> ->].
  destruct (clip_dataset_try_value fs dataset contents output_format w) as [-> ->].
  destruct (path_exists fs _); [|discriminate].
  destruct (len contents >? MAX_FILE_SIZE) eqn:Hlen; [discriminate|]. simpl.
  destruct (fst (validate_geojson_file contents w)) as [aoi|e] eqn:Hv; [|discriminate].
  destruct (validate_geojson_file_returns contents aoi w Hv) as (gdf & Hok & ->).
  unfold clip_outcome.
  destruct (dataset_in fs w (DatasetType_value dataset)) as [full_data|e]; [|discriminate].
  destruct (aligned_aoi full_data (validated gdf)) as [aoi'|e] eqn:Haoi; [|discriminate].
  destruct (overlay full_data aoi') as [clipped|e] eqn:Hov; [|discriminate].
  destruct (to_file clipped _ (driver_of output_format)) as [[]|e] eqn:Hw; [|discriminate].
  intros [= <-]. split; [reflexivity|]. split.
  { rewrite Z.gtb_ltb in Hlen. apply Z.ltb_ge in Hlen. exact Hlen. }
  exists gdf, full_data, aoi', clipped.
  repeat split; auto. apply lookup_insert_eq.
Qed.

(** ** More on the validator *)

Section Validator_more.
Context {G : Type} {PY : PyStdlib} {E : GeoEngine G}.
Implicit Types (w : World G) (fs : Storage G).

Lemma validate_geojson_file_read_as (contents : bytes) (gdf : GeoDataFrame G) w :
  read_as contents gdf ->
  fst (validate_geojson_file contents w) =
    if empty gdf
    then Raise (HTTPException 400 "Invalid GeoJSON file: GeoJSON contains no features")
    else if forallb (fun f => is_valid (geometry f)) (features gdf)
         then Return (validated gdf)
         else Raise (HTTPException 400
                       "Invalid GeoJSON file: GeoJSON contains invalid geometries").
Proof.
  intros (text & v & Hd & Hj & Hdict & Hkey & Hread).
  unfold validate_geojson_file, validated. run.
  rewrite Hd; simpl. rewrite Hj; simpl. rewrite Hdict, Hkey; simpl.
  rewrite Hread; simpl.
  destruct (empty gdf); simpl; [reflexivity|].
  destruct (forallb _ _); reflexivity.
Qed.

(** When the validator raises, the request stops there. *)
Lemma clip_dataset_stops_at_validator fs (dataset : DatasetType) contents
      (f : OutputFormat) w e :
  fst (validate_geojson_file contents w) = Raise e ->
  exists evs,
    only_traced w (snd (clip_dataset fs dataset contents f w)) evs /\
    forallb (fun ev => negb (is_dataset_access ev)) evs = true.
Proof.
  intros Hbad.
  unfold clip_dataset, clip_dataset_try, try_except, bind.
  rewrite clip_dataset_check_run.
  destruct (path_exists fs _); simpl.
  2:{ eexists [_]. split; [split; reflexivity | reflexivity]. }
  unfold ret, clip_dataset_process.
  destruct (len contents >? MAX_FILE_SIZE); simpl.
  { eexists [_]. split; [split; reflexivity | reflexivity]. }
  unfold bind.
  match goal with |- context [validate_geojson_file contents ?w1] =>
    destruct (validate_geojson_file_world contents w1) as (evs & Hsnd & Hp & Hfst);
    rewrite (Hfst w) in Hbad;
    destruct (validate_geojson_file contents w1) as [r w2]
  end.
  simpl in *. subst r w2. simpl.
  exists (EvExists (DatasetType_path dataset) true :: evs). split.
  - split; simpl; [reflexivity | rewrite <- app_assoc; reflexivity].
  - simpl. apply parse_events_quiet. assumption.
Qed.

End Validator_more.

(** X4.  What the validator returns is a usable AOI: it has at least one
    feature, every geometry is valid, and it carries a reference system,
    the one the upload was read with or else EPSG:4326; its features are
    those the engine read from the upload. *)
Theorem validator_returns_usable_aoi
        {G : Type} {PY : PyStdlib} {E : GeoEngine G}
        (contents : bytes) (aoi : GeoDataFrame G) (w : World G) :
  fst (validate_geojson_file contents w) = Return aoi ->
  features aoi <> [] /\
  forallb (fun f => is_valid (geometry f)) (features aoi) = true /\
  exists gdf,
    read_as contents gdf /\
    features aoi = features gdf /\
    crs aoi = Some (default "EPSG:4326" (crs gdf)).
Proof.
  intros Hv.
  destruct (validate_geojson_file_returns contents aoi w Hv)
    as (gdf & (text & v & Hd & Hj & Hdict & Hkey & Hread & Hne & Hvalid) & ->).
  assert (features (validated gdf) = features gdf) as Hf
      by (unfold validated; destruct (crs gdf); reflexivity).
  rewrite Hf. repeat split; auto.
  exists gdf. repeat split.
  - exists text, v. auto.
  - unfold validated. destruct (crs gdf) eqn:Hc; simpl; rewrite ?Hc; reflexivity.
Qed.

(** X5.  An upload that is read as a frame without features, or with a
    geometry that is not valid, is refused with status 400 by the
    validator, "GeoJSON contains no features" taking precedence over
    "GeoJSON contains invalid geometries"; a request carrying it makes no
    dataset access and leaves the cache as it was. *)
Theorem empty_or_invalid_aoi_is_refused
        {G : Type} {PY : PyStdlib} {E : GeoEngine G}
        (contents : bytes) (gdf : GeoDataFrame G) :
  read_as contents gdf ->
  features gdf = [] \/
  forallb (fun f => is_valid (geometry f)) (features gdf) = false ->
  (forall w : World G,
      fst (validate_geojson_file contents w) =
        Raise (HTTPException 400
                 (if empty gdf
                  then "Invalid GeoJSON file: GeoJSON contains no features"
                  else "Invalid GeoJSON file: GeoJSON contains invalid geometries"))) /\
  (forall (fs : Storage G) dataset output_format (w : World G),
      exists evs,
        only_traced w (snd (clip_dataset fs dataset contents output_format w)) evs /\
        forallb (fun ev => negb (is_dataset_access ev)) evs = true).
Proof.
  intros Hread Hbad.
  assert (forall w : World G,
             fst (validate_geojson_file contents w) =
               Raise (HTTPException 400
                 (if empty gdf
                  then "Invalid GeoJSON file: GeoJSON contains no features"
                  else "Invalid GeoJSON file: GeoJSON contains invalid geometries")))
    as Hv.
  { intros w. rewrite (validate_geojson_file_read_as contents gdf w Hread).
    destruct Hbad as [Hnil | Hinvalid].
    - unfold empty. rewrite Hnil. reflexivity.
    - rewrite Hinvalid. destruct (empty gdf); reflexivity. }
  split; [exact Hv|].
  intros fs dataset output_format w.
  eapply clip_dataset_stops_at_validator. apply Hv.
Qed.

(** ** More on the dataset cache *)

Section Cache_more.
Context {G : Type} {PY : PyStdlib} {E : GeoEngine G}.
Implicit Types (w : World G) (fs : Storage G).

Lemma cache_step_keeps fs d w w' name (x : GeoDataFrame G) :
  cache_step fs d w w' ->
  _dataset_cache w !! name = Some x -> _dataset_cache w' !! name = Some x.
Proof.
  intros (before & access & after & _ & _ & _ & Hs) Hx.
  destruct Hs as [Hc'|full_data Hc Hc'|full_data Hc Hr Hc'|e Hc Hr Hc'];
    rewrite Hc'; auto.
  rewrite lookup_insert_ne; [assumption|]. intros <-. congruence.
Qed.

Lemma api_cache_step fs (dataset : DatasetType) w w' :
  api_cache w -> cache_step fs (DatasetType_value dataset) w w' -> api_cache w'.
Proof.
  intros Hinv (before & access & after & _ & _ & _ & Hs) name.
  destruct Hs as [Hc'|full_data Hc Hc'|full_data Hc Hr Hc'|e Hc Hr Hc'];
    rewrite Hc'; auto.
  destruct (decide (DatasetType_value dataset = name)) as [<-|Hne].
  - right. eauto.
  - rewrite lookup_insert_ne by assumption. apply Hinv.
Qed.

Lemma event_loop_api_cache schedule tasks w :
  api_cache w -> api_cache (snd (event_loop schedule tasks w)).
Proof.
  revert tasks w. induction schedule as [|[i fs] schedule IH];
    intros tasks w Hw; simpl; [assumption|].
  destruct (turn_cache_step tasks w i fs) as [dataset Hstep].
  destruct (turn tasks w i fs) as [tasks' w']. apply IH.
  eapply api_cache_step; eassumption.
Qed.

Lemma api_cache_size w : api_cache w -> (size (_dataset_cache w) <= 2)%nat.
Proof.
  intros Hinv.
  rewrite <- size_dom.
  transitivity (size ({["glim"; "glhymps"]} : gset string)).
  - apply subseteq_size. intros name [x Hx]%elem_of_dom.
    destruct (Hinv name) as [Hnone|[[] ->]]; [congruence| |]; set_solver.
  - rewrite size_union, !size_singleton; [lia|]. set_solver.
Qed.

End Cache_more.

(** X6.  The dataset cache never drops or replaces an entry: whatever
    requests are resumed, in whatever order and on whatever file systems, a
    dataset once in the cache stays there with the same frame. *)
Theorem cache_entries_persist
        {G : Type} {PY : PyStdlib} {E : GeoEngine G}
        (schedule : list (nat * Storage G)) (tasks : list Task) (w : World G)
        (name : string) (full_data : GeoDataFrame G) :
  _dataset_cache w !! name = Some full_data ->
  _dataset_cache (snd (event_loop schedule tasks w)) !! name = Some full_data.
Proof.
  revert tasks w. induction schedule as [|[i fs] schedule IH];
    intros tasks w Hw; simpl; [assumption|].
  destruct (turn_cache_step tasks w i fs) as [dataset Hstep].
  destruct (turn tasks w i fs) as [tasks' w']. apply IH.
  eapply cache_step_keeps; eassumption.
Qed.

(** X7.  Whatever requests are served from the start of the process, the
    dataset cache holds entries only under the names "glim" and "glhymps",
    so never more than two. *)
Theorem cache_holds_only_api_datasets
        {G : Type} {PY : PyStdlib} {E : GeoEngine G}
        (requests : list Request) (schedule : list (nat * Storage G)) :
  let w := snd (event_loop schedule (map Accepted requests) process_start) in
  (forall name,
      _dataset_cache w !! name = None \/ name = "glim" \/ name = "glhymps") /\
  (size (_dataset_cache w) <= 2)%nat.
Proof.
  intros w.
  assert (api_cache w) as Hinv.
  { apply event_loop_api_cache. intros name. left. apply lookup_empty. }
  split; [|apply api_cache_size; assumption].
  intros name. destruct (Hinv name) as [Hnone|[[] ->]]; auto.
Qed.

(** ** More on [clip_data] *)

Section Clip_data_more.
Context {G : Type} {PY : PyStdlib} {E : GeoEngine G}.
Implicit Types (w : World G) (fs : Storage G).

Lemma paths_lookup (name : string) :
  paths !! name =
    if String.eqb name "glim" then Some GLIM_PATH
    else if String.eqb name "glhymps" then Some GLHYMPS_PATH
    else None.
Proof.
  unfold paths.
  destruct (String.eqb_spec name "glim") as [->|H1]; [apply lookup_insert_eq|].
  rewrite lookup_insert_ne by congruence.
  destruct (String.eqb_spec name "glhymps") as [->|H2]; [apply lookup_insert_eq|].
  rewrite lookup_insert_ne by congruence. apply lookup_empty.
Qed.

(** The world after the load and the clip step. *)
Lemma clip_data_overlay_run fs dataset (aoi : GeoDataFrame G) w :
  exists ev evs,
    is_dataset_access ev = true /\ quiet evs /\
    (crs aoi = crs (match dataset_in fs w dataset with
                    | Return full_data => full_data
                    | Raise _ => aoi
                    end) -> reprojections evs = []) /\
    match dataset_in fs w dataset with
    | Raise e => clip_data_load fs dataset w =
                   (Raise e, mkWorld (_dataset_cache w) (trace w ++ [ev]) (tmp_count w))
    | Return full_data =>
        bind (clip_data_load fs dataset) (fun x => clip_data_overlay x aoi) w =
          (match aligned_aoi full_data aoi with
           | Return aoi' => overlay full_data aoi'
           | Raise e => Raise e
           end,
           mkWorld (<[dataset := full_data]> (_dataset_cache w))
                   (trace w ++ ev :: evs) (tmp_count w))
    end.
Proof.
  destruct (clip_data_load_dataset_in fs dataset w) as (Hfst & Htmp & Hcache).
  destruct (clip_data_load_world fs dataset w) as (ev & Hev & Htrace & _).
  unfold bind.
  destruct (clip_data_load fs dataset w) as [r [c t n]]. simpl in *. subst r n.
  destruct (dataset_in fs w dataset) as [full_data|e].
  - destruct (clip_data_overlay_value full_data aoi (mkWorld c t (tmp_count w)))
      as (evs & -> & Hq & Hcrs).
    exists ev, evs. simpl. subst c t. rewrite <- app_assoc.
    repeat split; auto. intros H. apply Hcrs. exact H.
  - exists ev, []. subst c t. repeat split; auto using quiet_nil.
Qed.

End Clip_data_more.

(** X8.  A call of [clip_data] with a format that is not a key of
    [format_config] raises [KeyError] only at the end: by then the dataset
    was loaded and put in the cache and the overlay was computed; no
    temporary file was made. *)
Theorem clip_data_unknown_format
        {G : Type} {PY : PyStdlib} {E : GeoEngine G}
        (fs : Storage G) (dataset : string) (aoi aoi' : GeoDataFrame G)
        (output_format : string) (w : World G) (full_data clipped : GeoDataFrame G) :
  format_config !! output_format = None ->
  dataset_in fs w dataset = Return full_data ->
  aligned_aoi full_data aoi = Return aoi' ->
  overlay full_data aoi' = Return clipped ->
  fst (clip_data fs dataset aoi output_format w) = Raise (KeyError output_format) /\
  _dataset_cache (snd (clip_data fs dataset aoi output_format w)) !! dataset =
    Some full_data /\
  In (EvOverlay full_data aoi') (trace (snd (clip_data fs dataset aoi output_format w))) /\
  tmp_count (snd (clip_data fs dataset aoi output_format w)) = tmp_count w.
Proof.
  intros Hfmt Hds Haoi Hov.
  destruct (clip_data_load_dataset_in fs dataset w) as (Hfst & Htmp & Hcache).
  rewrite Hds in Hfst, Hcache.
  unfold clip_data, bind.
  destruct (clip_data_load fs dataset w) as [r w1]. simpl in *. subst r.
  unfold clip_data_overlay, bind, call, ret.
  unfold aligned_aoi in Haoi.
  destruct (bool_decide (crs aoi ≠ crs full_data)); simpl.
  - rewrite Haoi. simpl. rewrite Hov. unfold _save_result. rewrite Hfmt. simpl.
    rewrite Hcache, lookup_insert_eq. repeat split; auto.
    apply in_or_app. right. left. reflexivity.
  - injection Haoi as ->. rewrite Hov. unfold _save_result. rewrite Hfmt. simpl.
    rewrite Hcache, lookup_insert_eq. repeat split; auto.
    apply in_or_app. right. left. reflexivity.
Qed.

(** X9.  When the AOI is already in the dataset's reference system,
    [clip_data] makes no reprojection at all, and a result, if there is
    one, is the overlay of the dataset with the AOI as it was given. *)
Theorem clip_data_same_crs_no_reprojection
        {G : Type} {PY : PyStdlib} {E : GeoEngine G}
        (fs : Storage G) (dataset : string) (aoi : GeoDataFrame G)
        (output_format : string) (w : World G) (full_data : GeoDataFrame G) :
  dataset_in fs w dataset = Return full_data ->
  crs aoi = crs full_data ->
  exists evs,
    trace (snd (clip_data fs dataset aoi output_format w)) = trace w ++ evs /\
    reprojections evs = [] /\
    forall clipped p,
      fst (clip_data fs dataset aoi output_format w) = Return (clipped, p) ->
      overlay full_data aoi = Return clipped.
Proof.
  intros Hds Hcrs.
  destruct (clip_data_overlay_run fs dataset aoi w) as (ev & evs & Hev & _ & Hrep & Hrun).
  destruct (clip_data_overlay_value full_data aoi w) as (evs0 & _ & _ & Hal).
  rewrite Hds in Hrun, Hrep. destruct (Hal Hcrs) as [_ Haoi]. rewrite Haoi in Hrun.
  specialize (Hrep Hcrs).
  unfold clip_data. unfold bind in Hrun |- *.
  destruct (clip_data_load_dataset_in fs dataset w) as (Hfst & _ & _).
  rewrite Hds in Hfst.
  destruct (clip_data_load fs dataset w) as [[x|e0] w1]; [|discriminate].
  rewrite Hrun. clear Hrun.
  assert (reprojections (ev :: evs) = []) as Hrep'.
  { change (reprojections (ev :: evs)) with (reprojected ev ++ reprojections evs).
    rewrite Hrep. destruct ev; try discriminate; reflexivity. }
  destruct (overlay full_data aoi) as [clipped|e]; simpl.
  - unfold ret.
    match goal with |- context [_save_result clipped output_format ?w2] =>
      destruct (save_result_trace clipped output_format w2) as (evs2 & Ht & Hr & _);
      destruct (_save_result clipped output_format w2) as [[p|e] w3]
    end; simpl in *; rewrite Ht;
      exists ((ev :: evs) ++ evs2);
      (repeat split;
       [rewrite <- app_assoc; reflexivity
       |rewrite reprojections_app, Hr, app_nil_r; exact Hrep'
       |]).
    + intros c p' H. congruence.
    + discriminate.
  - exists (ev :: evs). repeat split; auto. discriminate.
Qed.

(** X10.  A name that is "glim" up to the case of its letters, but not
    "glim" itself, misses the cache whatever is cached under "glim",
    resolves to the file of GLiM, and is read without the layer selector
    that the GLiM geodatabase needs; what that read returns is cached under
    the name as it was written. *)
Theorem clip_data_load_other_case
        {G : Type} {PY : PyStdlib} {E : GeoEngine G}
        (fs : Storage G) (name : string) (w : World G) :
  lower name = "glim" ->
  name <> "glim" ->
  _dataset_cache w !! name = None ->
  let result := read_file fs GLIM_PATH None in
  fst (clip_data_load fs name w) = result /\
  trace (snd (clip_data_load fs name w)) =
    trace w ++ [EvReadFile name GLIM_PATH None result] /\
  forall full_data,
    result = Return full_data ->
    _dataset_cache (snd (clip_data_load fs name w)) =
      <[name := full_data]> (_dataset_cache w).
Proof.
  intros Hlower Hne Hmiss result.
  assert (dataset_file name = GLIM_PATH) as Hfile
      by (unfold dataset_file; rewrite Hlower; reflexivity).
  assert (dataset_layer name = None) as Hlayer.
  { unfold dataset_layer. apply String.eqb_neq in Hne. rewrite Hne. reflexivity. }
  rewrite (clip_data_load_miss _ _ _ Hmiss). simpl. rewrite Hfile, Hlayer.
  fold result. destruct result as [x|e]; simpl; repeat split; auto.
  - intros full_data [= <-]. reflexivity.
  - intros full_data; discriminate.
Qed.

(** X11.  A name that is neither "glim" nor "glhymps" up to the case of its
    letters has no path: the registry reports it unavailable without
    looking at the file system, and [clip_data], called with it, asks the
    engine to read the file called "None". *)
Theorem unknown_dataset_name
        {G : Type} {PY : PyStdlib} {E : GeoEngine G}
        (fs : Storage G) (name : string) (w : World G) :
  lower name <> "glim" ->
  lower name <> "glhymps" ->
  get_data_path name = Return None /\
  is_dataset_available fs name w = (Return false, w) /\
  (_dataset_cache w !! name = None ->
   fst (clip_data_load fs name w) = read_file fs "None" None /\
   trace (snd (clip_data_load fs name w)) =
     trace w ++ [EvReadFile name "None" None (read_file fs "None" None)]).
Proof.
  intros H1 H2.
  assert (paths !! lower name = None) as Hpath.
  { rewrite paths_lookup. apply String.eqb_neq in H1, H2. rewrite H1, H2. reflexivity. }
  assert (get_data_path name = Return None) as Hget
      by (unfold get_data_path; simpl; rewrite Hpath; reflexivity).
  split; [exact Hget|]. split.
  { unfold is_dataset_available, bind, lift. rewrite Hget. reflexivity. }
  intros Hmiss.
  assert (dataset_file name = "None") as Hfile
      by (unfold dataset_file; rewrite Hpath; reflexivity).
  assert (dataset_layer name = None) as Hlayer.
  { unfold dataset_layer. destruct (String.eqb_spec name "glim") as [->|]; [|reflexivity].
    exfalso. apply H1. reflexivity. }
  rewrite (clip_data_load_miss _ _ _ Hmiss). simpl. rewrite Hfile, Hlayer.
  destruct (read_file fs "None" None); auto.
Qed.

(** X12.  The temporary file is made before the result is written and is
    not removed when the writing fails: [clip_data] raises what the writer
    raised, and the temporary file it had made is left behind. *)
Theorem failed_write_leaves_temp_file
        {G : Type} {PY : PyStdlib} {E : GeoEngine G}
        (fs : Storage G) (dataset : string) (aoi aoi' : GeoDataFrame G)
        (output_format : OutputFormat) (w : World G)
        (full_data clipped : GeoDataFrame G) (e : PyExc) :
  let name := "/tmp/tmp" +:+ pretty (tmp_count w) +:+ suffix_of output_format in
  dataset_in fs w dataset = Return full_data ->
  aligned_aoi full_data aoi = Return aoi' ->
  overlay full_data aoi' = Return clipped ->
  to_file clipped name (driver_of output_format) = Raise e ->
  fst (clip_data fs dataset aoi (OutputFormat_value output_format) w) = Raise e /\
  tmp_count (snd (clip_data fs dataset aoi (OutputFormat_value output_format) w)) =
    S (tmp_count w) /\
  exists evs,
    trace (snd (clip_data fs dataset aoi (OutputFormat_value output_format) w)) =
      trace w ++ evs ++
        [EvTempFile name; EvToFile clipped name (driver_of output_format)].
Proof.
  intros name Hds Haoi Hov Hwrite.
  destruct (clip_data_overlay_run fs dataset aoi w) as (ev & evs & _ & _ & _ & Hrun).
  rewrite Hds, Haoi, Hov in Hrun.
  destruct (clip_data_load_dataset_in fs dataset w) as (Hfst & _ & _).
  rewrite Hds in Hfst.
  unfold clip_data. unfold bind in Hrun |- *.
  destruct (clip_data_load fs dataset w) as [[x|e0] w1]; [|discriminate].
  rewrite Hrun. rewrite save_result_value. simpl. fold name. rewrite Hwrite. simpl.
  repeat split. exists (ev :: evs). rewrite <- app_assoc. reflexivity.
Qed.

(** * The other endpoints *)

(** ** The area check, the info endpoint and the health check *)

Section Area_and_info.
Context {G : Type} {PY : PyStdlib} {E : GeoEngine G} {AE : AreaEngine G}.
Implicit Types (w : World G) (fs : Storage G).

Lemma validate_area_size_value (gdf : GeoDataFrame G) (max_area : Area) w :
  fst (validate_area_size gdf max_area w) =
    match measured_area gdf with
    | Raise e => Raise (HTTPException 400 ("Area validation failed: " +:+ str e))
    | Return a =>
        if exceeds (to_km2 a) max_area
        then Raise (HTTPException 400
                      ("Area validation failed: 413: Area too large: " +:+
                       format_1f (to_km2 a) +:+ " km². Max allowed: " +:+
                       format_area max_area +:+ " km²"))
        else Return true
    end /\
  _dataset_cache (snd (validate_area_size gdf max_area w)) = _dataset_cache w /\
  tmp_count (snd (validate_area_size gdf max_area w)) = tmp_count w.
Proof.
  unfold validate_area_size, measured_area. run.
  destruct (is_geographic gdf) as [[]|e]; simpl; auto.
  - destruct (to_crs gdf (Some "EPSG:3857")) as [gdf_proj|e]; simpl; auto.
    destruct (area_sum gdf_proj) as [a|e]; simpl; auto.
    destruct (exceeds (to_km2 a) max_area); simpl; auto.
  - destruct (area_sum gdf) as [a|e]; simpl; auto.
    destruct (exceeds (to_km2 a) max_area); simpl; auto.
Qed.

Lemma ClipService_get_dataset_info_value (sr : Sampling G) (dataset : DatasetType) :
  ClipService_get_dataset_info sr (DatasetType_value dataset) =
    match read_file_rows sr (DatasetType_path dataset)
                         (dataset_layer (DatasetType_value dataset)) 5 with
    | Raise e => Raise e
    | Return sample_gdf =>
        match features sample_gdf with
        | [] => Raise (EngineError "single positional indexer is out-of-bounds")
        | first :: _ =>
            Return (mkDatasetInfo (DatasetType_value dataset) (DatasetType_path dataset)
                      (str_crs (crs sample_gdf)) (columns sr sample_gdf)
                      (GeomType_name (geom_type (geometry first)))
                      (length (features sample_gdf)) true "local")
        end
    end.
Proof. destruct dataset; reflexivity. Qed.

Lemma get_dataset_info_run fs (sr : Sampling G) (dataset : DatasetType) w :
  get_dataset_info fs sr dataset w =
    ((if path_exists fs (DatasetType_path dataset)
      then ClipService_get_dataset_info sr (DatasetType_value dataset)
      else Raise (HTTPException 404
                    ("Dataset " +:+ DatasetType_value dataset +:+ " not available locally"))),
     mkWorld (_dataset_cache w)
             (trace w ++ [EvExists (DatasetType_path dataset)
                                   (path_exists fs (DatasetType_path dataset))])
             (tmp_count w)).
Proof.
  unfold get_dataset_info, bind. rewrite is_dataset_available_value.
  destruct (path_exists fs _); reflexivity.
Qed.

Lemma health_check_run fs w :
  health_check fs w =
    (Return (mkHealthResponse
               (if path_exists fs GLIM_PATH || path_exists fs GLHYMPS_PATH
                then "healthy" else "no_datasets")
               [("glim", path_exists fs GLIM_PATH);
                ("glhymps", path_exists fs GLHYMPS_PATH)]
               "1.0.0-local" "local"),
     mkWorld (_dataset_cache w)
             (trace w ++ [EvExists GLIM_PATH (path_exists fs GLIM_PATH);
                          EvExists GLHYMPS_PATH (path_exists fs GLHYMPS_PATH)])
             (tmp_count w)).
Proof.
  unfold health_check, bind.
  rewrite (is_dataset_available_value fs GLIM). simpl.
  rewrite (is_dataset_available_value fs GLHYMPS). simpl.
  rewrite <- app_assoc, orb_false_r. reflexivity.
Qed.

End Area_and_info.

(** X13.  [validate_area_size] never raises its own 413: whatever the frame
    and the limit, it returns [True] or raises an [HTTPException] with
    status 400 whose detail starts with "Area validation failed: "; it
    leaves the dataset cache and the temporary files alone. *)
Theorem validate_area_size_never_413
        {G : Type} {E : GeoEngine G} {AE : AreaEngine G}
        (gdf : GeoDataFrame G) (max_area : Area) (w : World G) :
  (fst (validate_area_size gdf max_area w) = Return true \/
   exists msg,
     fst (validate_area_size gdf max_area w) =
       Raise (HTTPException 400 ("Area validation failed: " +:+ msg))) /\
  status_of (fst (validate_area_size gdf max_area w)) <> 413 /\
  _dataset_cache (snd (validate_area_size gdf max_area w)) = _dataset_cache w.
Proof.
  destruct (validate_area_size_value gdf max_area w) as (-> & -> & _).
  destruct (measured_area gdf) as [a|e].
  - destruct (exceeds (to_km2 a) max_area); simpl.
    + split; [right; eexists; reflexivity | split; [lia | reflexivity]].
    + split; [left; reflexivity | split; [lia | reflexivity]].
  - split; [right; eexists; reflexivity | split; [simpl; lia | reflexivity]].
Qed.

(** X14.  When the area can be measured, [validate_area_size] returns
    [True] exactly when the area in square kilometres does not exceed the
    limit; beyond the limit the answer is the 400 whose detail quotes the
    413 raised inside the [try]. *)
Theorem validate_area_size_measured
        {G : Type} {E : GeoEngine G} {AE : AreaEngine G}
        (gdf : GeoDataFrame G) (max_area a : Area) (w : World G) :
  measured_area gdf = Return a ->
  fst (validate_area_size gdf max_area w) =
    if exceeds (to_km2 a) max_area
    then Raise (HTTPException 400
                  ("Area validation failed: 413: Area too large: " +:+
                   format_1f (to_km2 a) +:+ " km². Max allowed: " +:+
                   format_area max_area +:+ " km²"))
    else Return true.
Proof.
  intros Ha. destruct (validate_area_size_value gdf max_area w) as (-> & _).
  rewrite Ha. reflexivity.
Qed.

(** X15.  For a dataset whose file is missing the two endpoints disagree:
    the info endpoint raises its 404 outside any [try] and answers 404, the
    clip endpoint answers 500; neither touches the dataset cache. *)
Theorem missing_dataset_info_404_clip_500
        {G : Type} {PY : PyStdlib} {E : GeoEngine G}
        (fs : Storage G) (sr : Sampling G) (dataset : DatasetType)
        (geojson_file : bytes) (output_format : OutputFormat) (w : World G) :
  path_exists fs (DatasetType_path dataset) = false ->
  fst (get_dataset_info fs sr dataset w) =
    Raise (HTTPException 404
             ("Dataset " +:+ DatasetType_value dataset +:+ " not available locally")) /\
  status_of (fst (get_dataset_info fs sr dataset w)) = 404 /\
  http_status (fst (clip_dataset fs dataset geojson_file output_format w)) = 500 /\
  _dataset_cache (snd (get_dataset_info fs sr dataset w)) = _dataset_cache w /\
  _dataset_cache (snd (clip_dataset fs dataset geojson_file output_format w)) =
    _dataset_cache w.
Proof.
  intros Hex. rewrite get_dataset_info_run, Hex. simpl.
  destruct (clip_dataset_run fs dataset geojson_file output_format w) as [-> ->].
  destruct (clip_dataset_try_value fs dataset geojson_file output_format w) as [-> ->].
  rewrite Hex. simpl. auto.
Qed.

(** X16.  A dataset file that exists but yields no rows makes the info
    endpoint fail: indexing the first geometry of the empty sample raises,
    nothing catches it, and the answer is a 500 although the dataset is
    reported as available. *)
Theorem dataset_info_empty_sample
        {G : Type} {PY : PyStdlib} {E : GeoEngine G}
        (fs : Storage G) (sr : Sampling G) (dataset : DatasetType)
        (sample_gdf : GeoDataFrame G) (w : World G) :
  path_exists fs (DatasetType_path dataset) = true ->
  read_file_rows sr (DatasetType_path dataset)
                 (dataset_layer (DatasetType_value dataset)) 5 = Return sample_gdf ->
  features sample_gdf = [] ->
  fst (is_dataset_available fs (DatasetType_value dataset) w) = Return true /\
  (exists msg, fst (get_dataset_info fs sr dataset w) = Raise (EngineError msg)) /\
  status_of (fst (get_dataset_info fs sr dataset w)) = 500.
Proof.
  intros Hex Hread Hnil.
  rewrite is_dataset_available_value, get_dataset_info_run, Hex.
  rewrite ClipService_get_dataset_info_value, Hread, Hnil. simpl.
  split; [reflexivity|]. split; [eexists|]; reflexivity.
Qed.

(** X17.  The info endpoint neither consults nor changes the dataset cache:
    its answer is the same in every state of the process, and an answer
    describes a fresh sample of at most five rows of the dataset file, read
    with the layer of GLiM for "glim" and without a layer otherwise: the
    geometry type is that of the first row, the count the number of rows of
    the sample. *)
Theorem dataset_info_reads_a_sample
        {G : Type} {PY : PyStdlib} {E : GeoEngine G}
        (fs : Storage G) (sr : Sampling G) (dataset : DatasetType) (w : World G) :
  (forall w' : World G,
      fst (get_dataset_info fs sr dataset w') = fst (get_dataset_info fs sr dataset w)) /\
  _dataset_cache (snd (get_dataset_info fs sr dataset w)) = _dataset_cache w /\
  forall info,
    fst (get_dataset_info fs sr dataset w) = Return info ->
    path_exists fs (DatasetType_path dataset) = true /\
    exists sample_gdf first,
      read_file_rows sr (DatasetType_path dataset)
                     (if dataset is GLIM then Some "GLiM_export" else None) 5 =
        Return sample_gdf /\
      head (features sample_gdf) = Some first /\
      info_geometry_type info = GeomType_name (geom_type (geometry first)) /\
      info_sample_feature_count info = length (features sample_gdf) /\
      info_crs info = str_crs (crs sample_gdf) /\
      info_available info = true.
Proof.
  split; [intros w'; rewrite !get_dataset_info_run; reflexivity|].
  rewrite get_dataset_info_run. simpl. split; [reflexivity|].
  intros info. destruct (path_exists fs _); [|discriminate].
  rewrite ClipService_get_dataset_info_value.
  assert (dataset_layer (DatasetType_value dataset) =
          if dataset is GLIM then Some "GLiM_export" else None) as ->
      by (destruct dataset; reflexivity).
  destruct (read_file_rows sr _ _ 5) as [sample_gdf|e]; [|discriminate].
  destruct (features sample_gdf) as [|first rest] eqn:Hf; [discriminate|].
  intros [= <-]. split; [reflexivity|].
  exists sample_gdf, first. rewrite Hf. simpl. repeat split; reflexivity.
Qed.

(** X18.  The health check always answers, with the availability of each
    dataset as the file system shows it.  It reports "no_datasets" exactly
    when neither dataset file exists, and then every clip request is
    answered with 500 and every info request with 404; when it reports
    "healthy" some dataset file exists. *)
Theorem health_check_reports
        {G : Type} {PY : PyStdlib} {E : GeoEngine G}
        (fs : Storage G) (w : World G) :
  exists r,
    fst (health_check fs w) = Return r /\
    datasets_available r = [("glim", path_exists fs GLIM_PATH);
                            ("glhymps", path_exists fs GLHYMPS_PATH)] /\
    _dataset_cache (snd (health_check fs w)) = _dataset_cache w /\
    (status r = "no_datasets" \/ status r = "healthy") /\
    (status r = "no_datasets" <->
     forall dataset, path_exists fs (DatasetType_path dataset) = false) /\
    (status r = "no_datasets" ->
     forall (sr : Sampling G) dataset geojson_file output_format (w' : World G),
       http_status (fst (clip_dataset fs dataset geojson_file output_format w')) = 500 /\
       status_of (fst (get_dataset_info fs sr dataset w')) = 404).
Proof.
  rewrite health_check_run. eexists. split; [reflexivity|]. simpl.
  split; [reflexivity|]. split; [reflexivity|].
  assert ((if path_exists fs GLIM_PATH || path_exists fs GLHYMPS_PATH
           then "healthy" else "no_datasets") = "no_datasets" <->
          forall dataset, path_exists fs (DatasetType_path dataset) = false) as Hiff.
  { split.
    - intros H [|]; simpl;
        destruct (path_exists fs GLIM_PATH), (path_exists fs GLHYMPS_PATH);
        simpl in H; congruence.
    - intros H. pose proof (H GLIM) as H1. pose proof (H GLHYMPS) as H2.
      simpl in H1, H2. rewrite H1, H2. reflexivity. }
  split; [destruct (_ || _); auto|]. split; [exact Hiff|].
  intros Hno sr dataset geojson_file output_format w'.
  pose proof (proj1 Hiff Hno dataset) as Hd. clear Hno. rename Hd into Hno.
  rewrite get_dataset_info_run, Hno.
  destruct (clip_dataset_run fs dataset geojson_file output_format w') as [-> _].
  destruct (clip_dataset_try_value fs dataset geojson_file output_format w') as [-> _].
  rewrite Hno. split; reflexivity.
Qed.

(** ** The client *)

Section Client_facts.
Context {G : Type} {PY : PyStdlib} (m : Client.Machine G) (s : Client.Session).

Lemma client_prepare_aoi_cases (aoi : Client.Aoi G) :
  (exists aoi_data,
      Client._prepare_aoi_try m aoi = Return aoi_data /\
      Client._prepare_aoi m aoi = Client.Returns aoi_data) \/
  (exists e,
      Client._prepare_aoi_try m aoi = Raise e /\
      Client._prepare_aoi m aoi =
        Client.Raises (Client.GeoGlimError ("Failed to prepare AOI data: " +:+ str e))).
Proof.
  unfold Client._prepare_aoi.
  destruct (Client._prepare_aoi_try m aoi) as [aoi_data|e]; eauto.
Qed.

(** The client's answer to a response with an error status. *)
Lemma client_clip_dataset_error_status dataset (aoi : Client.Aoi G) output_format
      output_path aoi_data response :
  Client._prepare_aoi m aoi = Client.Returns aoi_data ->
  Client.post s (Client.base_url s +:+ "/clip/" +:+ dataset) aoi_data output_format =
    Return response ->
  status_code response >= 400 ->
  Client.clip_dataset m s dataset aoi output_format output_path =
    if (status_code response =? 404)%Z
    then Client.Raises (Client.DatasetNotFoundError
                          ("Dataset '" +:+ dataset +:+ "' not found or not available"))
    else if (status_code response =? 413)%Z
    then Client.Raises (Client.ClippingError "File or area too large for processing")
    else match json_detail response with
         | Return error_detail =>
             Client.Raises (Client.ClippingError ("Clipping failed: " +:+ error_detail))
         | Raise e =>
             Client.Raises (Client.ClippingError ("Clipping operation failed: " +:+ str e))
         end.
Proof.
  intros Hp Hpost Hge.
  unfold Client.clip_dataset, Client.clip_dataset_try. rewrite Hp, Hpost.
  destruct (status_code response =? 404)%Z; [reflexivity|].
  destruct (status_code response =? 413)%Z; [reflexivity|].
  assert ((status_code response >=? 400)%Z = true) as ->
      by (rewrite Z.geb_leb; apply Z.leb_le; lia).
  destruct (json_detail response); reflexivity.
Qed.

(** After a response below 400 only the local machine can fail. *)
Lemma client_read_result_cases (response : Response) output_format output_path :
  (exists result_gdf,
      Client.read_result m response output_format output_path =
        Client.Returns result_gdf) \/
  (exists e,
      Client.read_result m response output_format output_path =
        Client.Raises (Client.Foreign e)).
Proof.
  unfold Client.read_result.
  destruct (Client.write_temp m _ _) as [name|e]; [|eauto].
  destruct (Client.gpd_read_file m name) as [result_gdf|e]; [|eauto].
  destruct (Client.given output_path) as [p|]; [|eauto].
  destruct (Client.gdf_to_file m result_gdf p); eauto.
Qed.

End Client_facts.

(** X19.  The client's [clip_dataset] returns a frame or raises a
    [ClippingError] or a [DatasetNotFoundError], never a plain
    [GeoGlimError] and never an exception of another library; it raises
    [DatasetNotFoundError] only after the AOI was prepared and the server
    answered the request with status 404. *)
Theorem client_clip_dataset_raises
        {G : Type} {PY : PyStdlib} (m : Client.Machine G) (s : Client.Session)
        (dataset : string) (aoi : Client.Aoi G) (output_format : string)
        (output_path : option string) :
  (exists result_gdf,
      Client.clip_dataset m s dataset aoi output_format output_path =
        Client.Returns result_gdf) \/
  (exists message,
      Client.clip_dataset m s dataset aoi output_format output_path =
        Client.Raises (Client.ClippingError message)) \/
  (Client.clip_dataset m s dataset aoi output_format output_path =
     Client.Raises (Client.DatasetNotFoundError
                      ("Dataset '" +:+ dataset +:+ "' not found or not available")) /\
   exists aoi_data response,
     Client._prepare_aoi m aoi = Client.Returns aoi_data /\
     Client.post s (Client.base_url s +:+ "/clip/" +:+ dataset) aoi_data output_format =
       Return response /\
     status_code response = 404).
Proof.
  unfold Client.clip_dataset, Client.clip_dataset_try.
  destruct (client_prepare_aoi_cases m aoi) as [(aoi_data & _ & Hp)|(e & _ & Hp)];
    rewrite Hp; [|right; left; eexists; reflexivity].
  destruct (Client.post s _ aoi_data output_format) as [response|e] eqn:Hpost;
    [|right; left; eexists; reflexivity].
  destruct (status_code response =? 404)%Z eqn:H404.
  { right; right. split; [reflexivity|].
    exists aoi_data, response. split; [reflexivity|]. split; [exact Hpost|].
    apply Z.eqb_eq. exact H404. }
  destruct (status_code response =? 413)%Z; [right; left; eexists; reflexivity|].
  destruct (status_code response >=? 400)%Z.
  { destruct (json_detail response); right; left; eexists; reflexivity. }
  destruct (client_read_result_cases m response output_format output_path)
    as [(result_gdf & ->)|(e & ->)]; [left | right; left]; eexists; reflexivity.
Qed.

(** X20.  An AOI that cannot be prepared (a frame that cannot be written
    as JSON, a text that is neither an existing file nor JSON, a value of
    another type) makes [_prepare_aoi] raise [GeoGlimError], which
    [clip_dataset] reports as a [ClippingError] quoting it, whatever the
    server would have answered. *)
Theorem client_aoi_failure_is_clipping_error
        {G : Type} {PY : PyStdlib} (m : Client.Machine G) (aoi : Client.Aoi G)
        (e : PyExc) :
  Client._prepare_aoi_try m aoi = Raise e ->
  Client._prepare_aoi m aoi =
    Client.Raises (Client.GeoGlimError ("Failed to prepare AOI data: " +:+ str e)) /\
  forall (s : Client.Session) dataset output_format output_path,
    Client.clip_dataset m s dataset aoi output_format output_path =
      Client.Raises
        (Client.ClippingError
           ("Clipping operation failed: Failed to prepare AOI data: " +:+ str e)).
Proof.
  intros He.
  assert (Client._prepare_aoi m aoi =
          Client.Raises (Client.GeoGlimError ("Failed to prepare AOI data: " +:+ str e)))
    as Hp by (unfold Client._prepare_aoi; rewrite He; reflexivity).
  split; [exact Hp|].
  intros s dataset output_format output_path.
  unfold Client.clip_dataset, Client.clip_dataset_try. rewrite Hp. reflexivity.
Qed.

(** X21.  The client against this backend: when the request is answered
    by the clip endpoint, the client never raises [DatasetNotFoundError].
    For a dataset whose file is missing it raises a [ClippingError] that
    quotes the server's 500 and, inside it, the 404; for an upload over the
    size limit it raises a [ClippingError] that quotes the 413, not the
    message the client has for status 413. *)
Theorem client_against_clip_endpoint
        {G : Type} {PY : PyStdlib} {E : GeoEngine G}
        (m : Client.Machine G) (s : Client.Session)
        (fs : Storage G) (w : World G) (encode : string -> bytes)
        (dataset : DatasetType) (aoi : Client.Aoi G) (output_format : OutputFormat)
        (output_path : option string) (aoi_data : string) (response : Response) :
  Client._prepare_aoi m aoi = Client.Returns aoi_data ->
  Client.post s (Client.base_url s +:+ "/clip/" +:+ DatasetType_value dataset) aoi_data
              (OutputFormat_value output_format) = Return response ->
  answers (fst (clip_dataset fs dataset (encode aoi_data) output_format w)) response ->
  let answer := Client.clip_dataset m s (DatasetType_value dataset) aoi
                                    (OutputFormat_value output_format) output_path in
  (forall message, answer <> Client.Raises (Client.DatasetNotFoundError message)) /\
  (path_exists fs (DatasetType_path dataset) = false ->
   answer = Client.Raises
              (Client.ClippingError
                 ("Clipping failed: Clipping failed: 404: " +:+ not_found_detail dataset))) /\
  (path_exists fs (DatasetType_path dataset) = true ->
   len (encode aoi_data) > MAX_FILE_SIZE ->
   answer = Client.Raises
              (Client.ClippingError
                 "Clipping failed: Clipping failed: 413: File too large. Max size: 50.0MB")).
Proof.
  intros Hp Hpost [Hstatus Hdetail] answer.
  destruct (clip_dataset_run fs dataset (encode aoi_data) output_format w) as [Hrun _].
  destruct (clip_dataset_try_value fs dataset (encode aoi_data) output_format w)
    as [Htry _].
  split; [|split].
  - intros message. unfold answer.
    assert (status_code response <> 404) as Hne.
    { rewrite Hstatus, Hrun.
      destruct (fst (clip_dataset_try fs dataset (encode aoi_data) output_format w));
        discriminate. }
    unfold Client.clip_dataset, Client.clip_dataset_try. rewrite Hp, Hpost.
    apply Z.eqb_neq in Hne. rewrite Hne.
    destruct (status_code response =? 413)%Z; [discriminate|].
    destruct (status_code response >=? 400)%Z.
    { destruct (json_detail response); discriminate. }
    destruct (client_read_result_cases m response (OutputFormat_value output_format)
                output_path) as [(result_gdf & ->)|(e & ->)]; discriminate.
  - intros Hex. rewrite Htry, Hex in Hrun. rewrite Hrun in Hstatus, Hdetail.
    simpl in Hstatus, Hdetail.
    unfold answer.
    rewrite (client_clip_dataset_error_status m s _ aoi _ output_path aoi_data response
               Hp Hpost) by lia.
    rewrite Hstatus, Hdetail. reflexivity.
  - intros Hex Hlen. rewrite Htry, Hex in Hrun.
    assert ((len (encode aoi_data) >? MAX_FILE_SIZE) = true) as Hgt
        by (rewrite Z.gtb_ltb; apply Z.ltb_lt; lia).
    rewrite Hgt in Hrun. rewrite Hrun in Hstatus, Hdetail.
    simpl in Hstatus, Hdetail.
    unfold answer.
    rewrite (client_clip_dataset_error_status m s _ aoi _ output_path aoi_data response
               Hp Hpost) by lia.
    rewrite Hstatus, Hdetail. reflexivity.
Qed.

(** X22.  The validator checks the shape of the parsed JSON before it
    hands the text to the engine: for a text that parses to something other
    than an object, or to an object without a "type" member, it raises the
    400 naming the failed check, and the engine is never asked to read the
    upload. *)
Theorem validator_checks_structure_before_reading
        {G : Type} {PY : PyStdlib} {E : GeoEngine G}
        (contents : bytes) (text : string) (v : Json) (w : World G) :
  decode_utf8 contents = Return text ->
  json_loads text = Return v ->
  is_dict v = false \/ has_key "type" v = false ->
  fst (validate_geojson_file contents w) =
    Raise (HTTPException 400
             (if is_dict v
              then "Invalid GeoJSON file: GeoJSON must have a 'type' field"
              else "Invalid GeoJSON file: GeoJSON must be a JSON object")) /\
  trace (snd (validate_geojson_file contents w)) =
    trace w ++ [EvDecode contents; EvJsonLoads text].
Proof.
  intros Hd Hj Hbad. unfold validate_geojson_file. run.
  rewrite Hd; simpl. rewrite Hj; simpl. rewrite <- app_assoc.
  destruct (is_dict v); simpl; [|auto].
  destruct Hbad as [Hbad|Hbad]; [discriminate|]. rewrite Hbad. simpl. auto.
Qed.


(** ** The statements of the rest of the pipeline at the scenario *)

Section More_witnesses.
Import Reference Scenario.
#[local] Existing Instance py.
#[local] Existing Instance engine.

Lemma nyc_aoi_well_formed : well_formed (upload nyc_aoi) nyc_read.
Proof.
  eexists _, _. repeat split; try (vm_compute; reflexivity). vm_compute. congruence.
Qed.

Lemma no_features_read_as : read_as (upload no_features) no_features_frame.
Proof. eexists _, _. repeat split; vm_compute; reflexivity. Qed.

Lemma clip_dataset_succeeds_witness :
  let clipped :=
    mkGeoDataFrame (Some "EPSG:4326")
      (overlay_features (features layer) (features nyc_frame)) in
  (path_exists files (DatasetType_path GLHYMPS) = true /\
   len (upload nyc_aoi) <= MAX_FILE_SIZE /\
   well_formed (upload nyc_aoi) nyc_read /\
   dataset_in files process_start (DatasetType_value GLHYMPS) = Return layer /\
   aligned_aoi layer (validated nyc_read) = Return nyc_frame /\
   overlay layer nyc_frame = Return clipped /\
   (forall p, to_file clipped p (driver_of GEOJSON) = Return tt)) /\
  (fst (clip_dataset files GLHYMPS (upload nyc_aoi) GEOJSON process_start) =
     Return (clip_response GLHYMPS GEOJSON
               ("/tmp/tmp" +:+ pretty (tmp_count (process_start (G:=Shape))) +:+
                suffix_of GEOJSON)
               (length (features clipped))) /\
   _dataset_cache (snd (clip_dataset files GLHYMPS (upload nyc_aoi) GEOJSON process_start))
     !! DatasetType_value GLHYMPS = Some layer).
Proof.
  intros clipped.
  assert (path_exists files (DatasetType_path GLHYMPS) = true) as Hex by reflexivity.
  assert (len (upload nyc_aoi) <= MAX_FILE_SIZE) as Hlen by (vm_compute; congruence).
  assert (dataset_in files process_start (DatasetType_value GLHYMPS) = Return layer)
    as Hds by (vm_compute; reflexivity).
  assert (aligned_aoi layer (validated nyc_read) = Return nyc_frame) as Haoi
      by (vm_compute; reflexivity).
  assert (overlay layer nyc_frame = Return clipped) as Hov by reflexivity.
  assert (forall p, to_file clipped p (driver_of GEOJSON) = Return tt) as Hwrite
      by (intros p; reflexivity).
  split; [repeat split; try assumption; exact nyc_aoi_well_formed|].
  exact (clip_dataset_succeeds files GLHYMPS (upload nyc_aoi) GEOJSON process_start
           nyc_read layer nyc_frame clipped Hex Hlen nyc_aoi_well_formed Hds Haoi Hov
           Hwrite).
Defined.

Lemma clip_dataset_200_means_witness :
  let r := mkFileResponse "/tmp/tmp0.geojson" "application/octet-stream"
             "glhymps_clipped.geojson" [("X-Feature-Count", "2")] in
  fst (clip_dataset files GLHYMPS (upload nyc_aoi) GEOJSON process_start) = Return r /\
  (path_exists files (DatasetType_path GLHYMPS) = true /\
   len (upload nyc_aoi) <= MAX_FILE_SIZE /\
   exists gdf full_data aoi' clipped,
     well_formed (upload nyc_aoi) gdf /\
     dataset_in files process_start (DatasetType_value GLHYMPS) = Return full_data /\
     aligned_aoi full_data (validated gdf) = Return aoi' /\
     overlay full_data aoi' = Return clipped /\
     to_file clipped (path r) (driver_of GEOJSON) = Return tt /\
     r = clip_response GLHYMPS GEOJSON
           ("/tmp/tmp" +:+ pretty (tmp_count (process_start (G:=Shape))) +:+
            suffix_of GEOJSON)
           (length (features clipped)) /\
     _dataset_cache (snd (clip_dataset files GLHYMPS (upload nyc_aoi) GEOJSON
                                       process_start))
       !! DatasetType_value GLHYMPS = Some full_data).
Proof.
  intros r.
  assert (fst (clip_dataset files GLHYMPS (upload nyc_aoi) GEOJSON process_start) =
          Return r) as Hrun by (vm_compute; reflexivity).
  split; [exact Hrun|].
  exact (clip_dataset_200_means files GLHYMPS (upload nyc_aoi) GEOJSON process_start r
           Hrun).
Defined.

Lemma validator_returns_usable_aoi_witness :
  fst (validate_geojson_file (upload well) process_start) =
    Return (validated well_frame) /\
  (features (validated well_frame) <> [] /\
   forallb (fun f => is_valid (geometry f)) (features (validated well_frame)) = true /\
   exists gdf,
     read_as (upload well) gdf /\
     features (validated well_frame) = features gdf /\
     crs (validated well_frame) = Some (default "EPSG:4326" (crs gdf))).
Proof.
  assert (fst (validate_geojson_file (upload well) (process_start (G:=Shape))) =
          Return (validated well_frame)) as Hv by (vm_compute; reflexivity).
  split; [exact Hv|].
  exact (validator_returns_usable_aoi (upload well) (validated well_frame) process_start
           Hv).
Defined.

Lemma empty_or_invalid_aoi_is_refused_witness :
  (read_as (upload no_features) no_features_frame /\
   (features no_features_frame = [] \/
    forallb (fun f => is_valid (geometry f)) (features no_features_frame) = false)) /\
  ((forall w : World Shape,
       fst (validate_geojson_file (upload no_features) w) =
         Raise (HTTPException 400
                  (if empty no_features_frame
                   then "Invalid GeoJSON file: GeoJSON contains no features"
                   else "Invalid GeoJSON file: GeoJSON contains invalid geometries"))) /\
   (forall (fs : Storage Shape) dataset output_format (w : World Shape),
       exists evs,
         only_traced w (snd (clip_dataset fs dataset (upload no_features)
                                          output_format w)) evs /\
         forallb (fun ev => negb (is_dataset_access ev)) evs = true)).
Proof.
  assert (features no_features_frame = [] \/
          forallb (fun f => is_valid (geometry f)) (features no_features_frame) = false)
    as Hbad by (left; reflexivity).
  split; [split; [exact no_features_read_as | exact Hbad]|].
  exact (empty_or_invalid_aoi_is_refused (upload no_features) no_features_frame
           no_features_read_as Hbad).
Defined.

Lemma cache_entries_persist_witness :
  let schedule := [(0%nat, no_files); (0%nat, no_files)] in
  let tasks := map Accepted [mkRequest GLIM (upload nyc_aoi) GEOJSON] in
  _dataset_cache glhymps_loaded !! "glhymps" = Some layer /\
  _dataset_cache (snd (event_loop schedule tasks glhymps_loaded)) !! "glhymps" =
    Some layer.
Proof.
  intros schedule tasks.
  assert (_dataset_cache glhymps_loaded !! "glhymps" = Some layer) as Hc
      by (vm_compute; reflexivity).
  split; [exact Hc|].
  exact (cache_entries_persist schedule tasks glhymps_loaded "glhymps" layer Hc).
Defined.

Lemma clip_data_unknown_format_witness :
  let clipped :=
    mkGeoDataFrame (Some "EPSG:4326")
      (overlay_features (features layer) (features nyc_frame)) in
  (format_config !! "kml" = None /\
   dataset_in files process_start "glhymps" = Return layer /\
   aligned_aoi layer nyc_frame = Return nyc_frame /\
   overlay layer nyc_frame = Return clipped) /\
  (fst (clip_data files "glhymps" nyc_frame "kml" process_start) =
     Raise (KeyError "kml") /\
   _dataset_cache (snd (clip_data files "glhymps" nyc_frame "kml" process_start))
     !! "glhymps" = Some layer /\
   In (EvOverlay layer nyc_frame)
      (trace (snd (clip_data files "glhymps" nyc_frame "kml" process_start))) /\
   tmp_count (snd (clip_data files "glhymps" nyc_frame "kml" process_start)) =
     tmp_count (process_start (G:=Shape))).
Proof.
  intros clipped.
  assert (format_config !! "kml" = None) as Hfmt by (vm_compute; reflexivity).
  assert (dataset_in files process_start "glhymps" = Return layer) as Hds
      by (vm_compute; reflexivity).
  assert (aligned_aoi layer nyc_frame = Return nyc_frame) as Haoi
      by (vm_compute; reflexivity).
  assert (overlay layer nyc_frame = Return clipped) as Hov by reflexivity.
  split; [repeat split; assumption|].
  exact (clip_data_unknown_format files "glhymps" nyc_frame nyc_frame "kml" process_start
           layer clipped Hfmt Hds Haoi Hov).
Defined.

Lemma clip_data_same_crs_no_reprojection_witness :
  (dataset_in files process_start "glhymps" = Return layer /\
   crs nyc_frame = crs layer) /\
  exists evs,
    trace (snd (clip_data files "glhymps" nyc_frame "geojson" process_start)) =
      trace (process_start (G:=Shape)) ++ evs /\
    reprojections evs = [] /\
    forall clipped p,
      fst (clip_data files "glhymps" nyc_frame "geojson" process_start) =
        Return (clipped, p) ->
      overlay layer nyc_frame = Return clipped.
Proof.
  assert (dataset_in files process_start "glhymps" = Return layer) as Hds
      by (vm_compute; reflexivity).
  assert (crs nyc_frame = crs layer) as Hcrs by reflexivity.
  split; [split; assumption|].
  exact (clip_data_same_crs_no_reprojection files "glhymps" nyc_frame "geojson"
           process_start layer Hds Hcrs).
Defined.

Lemma clip_data_load_other_case_witness :
  let result := read_file files GLIM_PATH None in
  (lower "GLIM" = "glim" /\ "GLIM" <> "glim" /\
   _dataset_cache glim_loaded !! "GLIM" = None) /\
  (fst (clip_data_load files "GLIM" glim_loaded) = result /\
   trace (snd (clip_data_load files "GLIM" glim_loaded)) =
     trace glim_loaded ++ [EvReadFile "GLIM" GLIM_PATH None result] /\
   forall full_data,
     result = Return full_data ->
     _dataset_cache (snd (clip_data_load files "GLIM" glim_loaded)) =
       <["GLIM" := full_data]> (_dataset_cache glim_loaded)).
Proof.
  intros result.
  assert (lower "GLIM" = "glim") as Hlower by reflexivity.
  assert ("GLIM" <> "glim") as Hne by congruence.
  assert (_dataset_cache glim_loaded !! "GLIM" = None) as Hmiss
      by (vm_compute; reflexivity).
  split; [repeat split; assumption|].
  exact (clip_data_load_other_case files "GLIM" glim_loaded Hlower Hne Hmiss).
Defined.

Lemma unknown_dataset_name_witness :
  (lower "soil" <> "glim" /\ lower "soil" <> "glhymps") /\
  (get_data_path "soil" = Return None /\
   is_dataset_available files "soil" process_start = (Return false, process_start) /\
   (_dataset_cache (process_start (G:=Shape)) !! "soil" = None ->
    fst (clip_data_load files "soil" process_start) = read_file files "None" None /\
    trace (snd (clip_data_load files "soil" process_start)) =
      trace (process_start (G:=Shape)) ++
        [EvReadFile "soil" "None" None (read_file files "None" None)])).
Proof.
  assert (lower "soil" <> "glim") as H1 by (vm_compute; congruence).
  assert (lower "soil" <> "glhymps") as H2 by (vm_compute; congruence).
  split; [split; assumption|].
  exact (unknown_dataset_name files "soil" process_start H1 H2).
Defined.

Lemma failed_write_leaves_temp_file_witness :
  let clipped :=
    mkGeoDataFrame (Some "EPSG:4326")
      (overlay_features (features layer) (features nyc_frame)) in
  let name := "/tmp/tmp" +:+ pretty (tmp_count (process_start (G:=Shape))) +:+
              suffix_of GPKG in
  let e := EngineError (name +:+ ": No space left on device") in
  (dataset_in files process_start "glhymps" = Return layer /\
   aligned_aoi (E:=full_disk) layer nyc_frame = Return nyc_frame /\
   overlay (GeoEngine:=full_disk) layer nyc_frame = Return clipped /\
   to_file (GeoEngine:=full_disk) clipped name (driver_of GPKG) = Raise e) /\
  (fst (clip_data (E:=full_disk) files "glhymps" nyc_frame (OutputFormat_value GPKG)
                  process_start) = Raise e /\
   tmp_count (snd (clip_data (E:=full_disk) files "glhymps" nyc_frame
                             (OutputFormat_value GPKG) process_start)) =
     S (tmp_count (process_start (G:=Shape))) /\
   exists evs,
     trace (snd (clip_data (E:=full_disk) files "glhymps" nyc_frame
                           (OutputFormat_value GPKG) process_start)) =
       trace (process_start (G:=Shape)) ++ evs ++
         [EvTempFile name; EvToFile clipped name (driver_of GPKG)]).
Proof.
  intros clipped name e.
  assert (dataset_in files process_start "glhymps" = Return layer) as Hds
      by (vm_compute; reflexivity).
  assert (aligned_aoi (E:=full_disk) layer nyc_frame = Return nyc_frame) as Haoi
      by (vm_compute; reflexivity).
  assert (overlay (GeoEngine:=full_disk) layer nyc_frame = Return clipped) as Hov
      by reflexivity.
  assert (to_file (GeoEngine:=full_disk) clipped name (driver_of GPKG) = Raise e)
    as Hwrite by reflexivity.
  split; [repeat split; assumption|].
  exact (failed_write_leaves_temp_file (E:=full_disk) files "glhymps" nyc_frame nyc_frame
           GPKG process_start layer clipped e Hds Haoi Hov Hwrite).
Defined.

Lemma validate_area_size_measured_witness :
  measured_area (AE:=area_engine) region = Return 9000000 /\
  fst (validate_area_size (AE:=area_engine) region 5 process_start) =
    if exceeds (AreaEngine:=area_engine) (to_km2 (AreaEngine:=area_engine) 9000000) 5
    then Raise (HTTPException 400
                  ("Area validation failed: 413: Area too large: " +:+
                   format_1f (AreaEngine:=area_engine)
                             (to_km2 (AreaEngine:=area_engine) 9000000) +:+
                   " km². Max allowed: " +:+
                   format_area (AreaEngine:=area_engine) 5 +:+ " km²"))
    else Return true.
Proof.
  assert (measured_area (AE:=area_engine) region = Return 9000000) as Ha
      by (vm_compute; reflexivity).
  split; [exact Ha|].
  exact (validate_area_size_measured (AE:=area_engine) region 5 9000000 process_start Ha).
Defined.

Lemma missing_dataset_info_404_clip_500_witness :
  path_exists no_files (DatasetType_path GLIM) = false /\
  (fst (get_dataset_info no_files samples GLIM process_start) =
     Raise (HTTPException 404
              ("Dataset " +:+ DatasetType_value GLIM +:+ " not available locally")) /\
   status_of (fst (get_dataset_info no_files samples GLIM process_start)) = 404 /\
   http_status (fst (clip_dataset no_files GLIM (upload nyc_aoi) GEOJSON process_start))
     = 500 /\
   _dataset_cache (snd (get_dataset_info no_files samples GLIM process_start)) =
     _dataset_cache (process_start (G:=Shape)) /\
   _dataset_cache (snd (clip_dataset no_files GLIM (upload nyc_aoi) GEOJSON
                                     process_start)) =
     _dataset_cache (process_start (G:=Shape))).
Proof.
  assert (path_exists no_files (DatasetType_path GLIM) = false) as Hex by reflexivity.
  split; [exact Hex|].
  exact (missing_dataset_info_404_clip_500 no_files samples GLIM (upload nyc_aoi) GEOJSON
           process_start Hex).
Defined.

Lemma dataset_info_empty_sample_witness :
  (path_exists hollow_files (DatasetType_path GLHYMPS) = true /\
   read_file_rows hollow_samples (DatasetType_path GLHYMPS)
                  (dataset_layer (DatasetType_value GLHYMPS)) 5 = Return hollow_layer /\
   features hollow_layer = []) /\
  (fst (is_dataset_available hollow_files (DatasetType_value GLHYMPS) process_start) =
     Return true /\
   (exists msg,
       fst (get_dataset_info hollow_files hollow_samples GLHYMPS process_start) =
         Raise (EngineError msg)) /\
   status_of (fst (get_dataset_info hollow_files hollow_samples GLHYMPS process_start))
     = 500).
Proof.
  assert (path_exists hollow_files (DatasetType_path GLHYMPS) = true) as Hex
      by reflexivity.
  assert (read_file_rows hollow_samples (DatasetType_path GLHYMPS)
                         (dataset_layer (DatasetType_value GLHYMPS)) 5 =
          Return hollow_layer) as Hread by (vm_compute; reflexivity).
  assert (features hollow_layer = []) as Hnil by reflexivity.
  split; [repeat split; assumption|].
  exact (dataset_info_empty_sample hollow_files hollow_samples GLHYMPS hollow_layer
           process_start Hex Hread Hnil).
Defined.

Lemma client_aoi_failure_is_clipping_error_witness :
  let e := ValueError "Unsupported AOI type: <class 'int'>" in
  Client._prepare_aoi_try machine (Client.Unsupported "<class 'int'>") = Raise e /\
  (Client._prepare_aoi machine (Client.Unsupported "<class 'int'>") =
     Client.Raises (Client.GeoGlimError ("Failed to prepare AOI data: " +:+ str e)) /\
   forall (s : Client.Session) dataset output_format output_path,
     Client.clip_dataset machine s dataset (Client.Unsupported "<class 'int'>")
                         output_format output_path =
       Client.Raises
         (Client.ClippingError
            ("Clipping operation failed: Failed to prepare AOI data: " +:+ str e))).
Proof.
  intros e.
  assert (Client._prepare_aoi_try machine (Client.Unsupported "<class 'int'>") = Raise e)
    as He by reflexivity.
  split; [exact He|].
  exact (client_aoi_failure_is_clipping_error machine (Client.Unsupported "<class 'int'>")
           e He).
Defined.

Lemma client_against_clip_endpoint_witness :
  let response :=
    respond (fst (clip_dataset no_files GLIM (upload nyc_aoi) GEOJSON process_start)) in
  let answer :=
    Client.clip_dataset machine (session no_files) (DatasetType_value GLIM)
                        (Client.Text nyc_aoi) (OutputFormat_value GEOJSON) None in
  (Client._prepare_aoi machine (Client.Text nyc_aoi) = Client.Returns nyc_aoi /\
   Client.post (session no_files)
               (Client.base_url (session no_files) +:+ "/clip/" +:+ DatasetType_value GLIM)
               nyc_aoi (OutputFormat_value GEOJSON) = Return response /\
   answers (fst (clip_dataset no_files GLIM (upload nyc_aoi) GEOJSON process_start))
           response) /\
  ((forall message, answer <> Client.Raises (Client.DatasetNotFoundError message)) /\
   (path_exists no_files (DatasetType_path GLIM) = false ->
    answer = Client.Raises
               (Client.ClippingError
                  ("Clipping failed: Clipping failed: 404: " +:+ not_found_detail GLIM))) /\
   (path_exists no_files (DatasetType_path GLIM) = true ->
    len (upload nyc_aoi) > MAX_FILE_SIZE ->
    answer = Client.Raises
               (Client.ClippingError
                  "Clipping failed: Clipping failed: 413: File too large. Max size: 50.0MB"))).
Proof.
  intros response answer.
  assert (Client._prepare_aoi machine (Client.Text nyc_aoi) = Client.Returns nyc_aoi)
    as Hp by (vm_compute; reflexivity).
  assert (Client.post (session no_files)
            (Client.base_url (session no_files) +:+ "/clip/" +:+ DatasetType_value GLIM)
            nyc_aoi (OutputFormat_value GEOJSON) = Return response) as Hpost
      by (vm_compute; reflexivity).
  assert (answers (fst (clip_dataset no_files GLIM (upload nyc_aoi) GEOJSON process_start))
                  response) as Hans by (vm_compute; auto).
  split; [repeat split; try assumption; apply Hans|].
  exact (client_against_clip_endpoint machine (session no_files) no_files process_start
           upload GLIM (Client.Text nyc_aoi) GEOJSON None nyc_aoi response Hp Hpost Hans).
Defined.

Lemma validator_checks_structure_before_reading_witness :
  let v := JObject [("features", JArray [])] in
  (decode_utf8 (upload untyped) = Return untyped /\
   json_loads untyped = Return v /\
   (is_dict v = false \/ has_key "type" v = false)) /\
  (fst (validate_geojson_file (upload untyped) process_start) =
     Raise (HTTPException 400
              (if is_dict v
               then "Invalid GeoJSON file: GeoJSON must have a 'type' field"
               else "Invalid GeoJSON file: GeoJSON must be a JSON object")) /\
   trace (snd (validate_geojson_file (upload untyped) process_start)) =
     trace (process_start (G:=Shape)) ++ [EvDecode (upload untyped); EvJsonLoads untyped]).
Proof.
  intros v.
  assert (decode_utf8 (upload untyped) = Return untyped) as Hd
      by (vm_compute; reflexivity).
  assert (json_loads untyped = Return v) as Hj by (vm_compute; reflexivity).
  assert (is_dict v = false \/ has_key "type" v = false) as Hbad
      by (right; reflexivity).
  split; [repeat split; assumption|].
  exact (validator_checks_structure_before_reading (upload untyped) untyped v
           process_start Hd Hj Hbad).
Defined.

End More_witnesses.
